(** * MLX LLaMA-2-13B demo scripts: a shallow embedding

    The repository holds three Python scripts, [benchmark.py],
    [chat_llama.py] and [run_llama.py].  Each one parses its command line,
    calls [mlx_lm.load] and then [mlx_lm.generate].  The embedding below
    follows the scripts statement by statement:

    - a Python [str] is the [string] of its UTF-8 text, one [ascii] for
      each byte; [strip], [len] and slicing go by code points, and
      [lower] and [title] change the ASCII letters;
    - [float] values that the scripts only pass around, subtract, add and
      divide (temperatures, clock readings, averages) are rationals [Q];
      rounding of binary floating point is not modelled;
    - the external library ([load], [generate], the tokenizer), the clock,
      the memory probe and the keyboard are oracles gathered in a [World];
    - effects are a state, exception and trace monad [M]: every library
      call and every [print] leaves an [Event] in the trace;
    - [try]/[except] is [try_except], with Python's class test
      ([except Exception] does not catch [KeyboardInterrupt] nor
      [SystemExit]). *)

From Stdlib Require Import List String Ascii Bool Arith ZArith QArith Lia.
Import ListNotations.

Local Close Scope Q_scope.
Local Open Scope string_scope.
Local Open Scope list_scope.
Local Open Scope nat_scope.

(** ** Python strings *)

Module PyStr.

(** In UTF-8 a code point starts at every byte that is not a continuation
    byte (0x80-0xbf). *)
Definition is_continuation (c : ascii) : bool :=
  let n := nat_of_ascii c in
  (128 <=? n) && (n <=? 191).

(** [not s]: a string is falsy when it is empty. *)
Definition is_empty (s : string) : bool :=
  match s with EmptyString => true | _ => false end.

(** The white space of [str.strip] and [str.isspace], by the length of
    its UTF-8 text.  One byte: TAB, LF, VT, FF, CR, the four separators
    0x1c-0x1f and the space. *)
Definition isspace (c : ascii) : bool :=
  let n := nat_of_ascii c in
  ((9 <=? n) && (n <=? 13)) || ((28 <=? n) && (n <=? 32)).

(** Two bytes: U+0085 (c2 85) and U+00A0 (c2 a0). *)
Definition isspace2 (a b : ascii) : bool :=
  (nat_of_ascii a =? 194)
  && ((nat_of_ascii b =? 133) || (nat_of_ascii b =? 160)).

(** Three bytes: U+1680 (e1 9a 80); U+2000-U+200A, U+2028, U+2029 and
    U+202F (e2 80 80-8a, a8, a9, af); U+205F (e2 81 9f); U+3000
    (e3 80 80). *)
Definition isspace3 (a b c : ascii) : bool :=
  let x := nat_of_ascii a in
  let y := nat_of_ascii b in
  let z := nat_of_ascii c in
  ((x =? 225) && (y =? 154) && (z =? 128))
  || ((x =? 226) && (y =? 128)
      && (((128 <=? z) && (z <=? 138)) || (z =? 168) || (z =? 169) || (z =? 175)))
  || ((x =? 226) && (y =? 129) && (z =? 159))
  || ((x =? 227) && (y =? 128) && (z =? 128)).

(** [s.lstrip()]: the white-space code points at the start are dropped. *)
Fixpoint lstrip (s : string) : string :=
  match s with
  | EmptyString => EmptyString
  | String a s1 =>
      if isspace a then lstrip s1
      else
        match s1 with
        | EmptyString => s
        | String b s2 =>
            if isspace2 a b then lstrip s2
            else
              match s2 with
              | EmptyString => s
              | String c s3 => if isspace3 a b c then lstrip s3 else s
              end
        end
  end.

(** [s.rstrip()]: the text is cut where only white space follows. *)
Fixpoint rstrip (s : string) : string :=
  match s with
  | EmptyString => EmptyString
  | String c s' => if is_empty (lstrip s) then EmptyString else String c (rstrip s')
  end.

Definition strip (s : string) : string := rstrip (lstrip s).

(** [s.lower()]: the ASCII capitals become small letters, and U+212A
    (the Kelvin sign, e2 84 aa) becomes k; it is the only code point
    outside ASCII whose lower-case form is ASCII.  Python lowers the other
    letters outside ASCII too, to text outside ASCII; the scripts only
    compare the result with ASCII words. *)
Definition lower_char (c : ascii) : ascii :=
  let n := nat_of_ascii c in
  if (65 <=? n) && (n <=? 90) then ascii_of_nat (n + 32) else c.

Definition is_kelvin (a b c : ascii) : bool :=
  (nat_of_ascii a =? 226) && (nat_of_ascii b =? 132) && (nat_of_ascii c =? 170).

Fixpoint lower (s : string) : string :=
  match s with
  | EmptyString => EmptyString
  | String a s1 =>
      match s1 with
      | String b (String c s3) =>
          if is_kelvin a b c then String "k" (lower s3)
          else String (lower_char a) (lower s1)
      | _ => String (lower_char a) (lower s1)
      end
  end.

(** [s.startswith(p)] *)
Definition startswith (s p : string) : bool := String.prefix p s.

(** [len(s)]: the number of code points. *)
Fixpoint len (s : string) : nat :=
  match s with
  | EmptyString => 0
  | String c s' => if is_continuation c then len s' else S (len s')
  end.

(** [s[n:]] for [n >= 0]: the text after the first [n] code points. *)
Fixpoint drop (n : nat) (s : string) : string :=
  match s with
  | EmptyString => EmptyString
  | String c s' =>
      if is_continuation c then drop n s'
      else match n with
           | O => s
           | S n' => drop n' s'
           end
  end.

(** [s[:n]] for [n >= 0]: the first [n] code points. *)
Fixpoint take (n : nat) (s : string) : string :=
  match s with
  | EmptyString => EmptyString
  | String c s' =>
      if is_continuation c then String c (take n s')
      else match n with
           | O => EmptyString
           | S n' => String c (take n' s')
           end
  end.

(** [x in [a, b, ...]] for strings *)
Definition mem (x : string) (l : list string) : bool :=
  existsb (String.eqb x) l.

(** The line feed character and the one-character string [\n]. *)
Definition LF : ascii := ascii_of_nat 10.
Definition nl : string := String LF EmptyString.

Definition upper_char (c : ascii) : ascii :=
  let n := nat_of_ascii c in
  if (97 <=? n) && (n <=? 122) then ascii_of_nat (n - 32) else c.

Definition is_letter (c : ascii) : bool :=
  let n := nat_of_ascii c in
  ((65 <=? n) && (n <=? 90)) || ((97 <=? n) && (n <=? 122)).

(** [s.title()] on the ASCII letters: a letter is upper-cased when no
    letter precedes it and lower-cased otherwise; [after_letter] tells
    whether the previous character was a letter.  The scripts apply it to
    the role of a message. *)
Fixpoint title_from (after_letter : bool) (s : string) : string :=
  match s with
  | EmptyString => EmptyString
  | String c s' =>
      String (if after_letter then lower_char c else upper_char c)
             (title_from (is_letter c) s')
  end.

Definition title (s : string) : string := title_from false s.

(** [s * n] *)
Fixpoint repeat (s : string) (n : nat) : string :=
  match n with
  | O => EmptyString
  | S n' => (s ++ repeat s n')%string
  end.

(** The text of a byte sequence, for the non-ASCII literals. *)
Definition of_bytes (l : list nat) : string :=
  string_of_list_ascii (map ascii_of_nat l).

End PyStr.

(** ** Python lists *)

Module PyList.

(** [l[-n:]]: the last [n] elements, the whole list when it is shorter. *)
Definition last_n {A} (n : nat) (l : list A) : list A :=
  skipn (List.length l - n) l.

(** [range(n)] for an [int] [n]; empty when [n <= 0]. *)
Definition range (n : Z) : list nat := seq 0 (Z.to_nat n).

(** [sum(l)] over numbers *)
Definition sum (l : list Q) : Q := fold_left Qplus l 0%Q.

End PyList.

(** ** Exceptions *)

(** The exceptions the scripts meet.  [Exception msg] stands for any
    exception of class [Exception] raised inside the library, [msg] being
    what [{e}] prints; [ZeroDivisionError] carries the source line of the
    division, as the traceback does. *)
Inductive pyexn : Type :=
| Exception (msg : string)
| ImportError (msg : string)
| ZeroDivisionError (lineno : nat)
| EOFError
| KeyboardInterrupt
| SystemExit (code : Z)
| IndentationError (lineno : nat).

(** [isinstance(e, Exception)] *)
Definition is_Exception (e : pyexn) : bool :=
  match e with
  | Exception _ | ImportError _ | ZeroDivisionError _ | EOFError
  | IndentationError _ => true
  | KeyboardInterrupt | SystemExit _ => false
  end.

Definition is_KeyboardInterrupt (e : pyexn) : bool :=
  match e with KeyboardInterrupt => true | _ => false end.

Definition is_EOFError (e : pyexn) : bool :=
  match e with EOFError => true | _ => false end.

Definition is_ImportError (e : pyexn) : bool :=
  match e with ImportError _ => true | _ => false end.

(** How a call into the library ends. *)
Inductive Outcome (A : Type) : Type :=
| Returns (a : A)
| Raises (msg : string)      (* an exception of class Exception *)
| Interrupted.               (* Ctrl-C while the call runs *)
Arguments Returns {A} a.
Arguments Raises {A} msg.
Arguments Interrupted {A}.

(** ** Values the scripts hand to the library and to [print] *)

(** The keyword arguments of one [generate(model, tokenizer, prompt, ...)]
    call; [kw_stop] is [None] when the call passes no [stop=]. *)
Record GenKwargs : Type := {
  kw_max_tokens : Z;
  kw_temperature : Q;
  kw_top_p : Q;
  kw_stop : option (list string)
}.

(** One interpolated piece of a printed line: literal text, an integer, a
    number under a [:.Nf] format (no format: [decimals] is irrelevant and
    set to 0 where the source has none), or the text of an exception
    ([{e}]). *)
Inductive Piece : Type :=
| Str (s : string)
| Int (z : Z)
| Num (q : Q) (decimals : nat)
| ExnText (e : pyexn)
| EndWith (s : string).   (* [end=s], as the last piece of a [print] *)

(** One entry of [conversation_history]: the dict
    [{"role": role, "content": content}]. *)
Record Message : Type := { role : string; content : string }.

(** What arrives at one [input()] call. *)
Inductive Keyboard : Type :=
| Typed (line : string)
| CtrlC.

(** The mutable state: how many [generate] calls and probe readings have
    been made, and the [conversation_history] list of the one [LLaMAChat]
    object of the chat script. *)
Record State : Type := {
  gen_calls : nat;
  clock_reads : nat;
  rss_reads : nat;
  conversation_history : list Message
}.

Definition initial_state : State :=
  {| gen_calls := 0; clock_reads := 0; rss_reads := 0;
     conversation_history := [] |}.

Definition set_gen_calls (n : nat) (s : State) : State :=
  {| gen_calls := n; clock_reads := clock_reads s; rss_reads := rss_reads s;
     conversation_history := conversation_history s |}.

Definition set_clock_reads (n : nat) (s : State) : State :=
  {| gen_calls := gen_calls s; clock_reads := n; rss_reads := rss_reads s;
     conversation_history := conversation_history s |}.

Definition set_rss_reads (n : nat) (s : State) : State :=
  {| gen_calls := gen_calls s; clock_reads := clock_reads s; rss_reads := n;
     conversation_history := conversation_history s |}.

Definition set_history (h : list Message) (s : State) : State :=
  {| gen_calls := gen_calls s; clock_reads := clock_reads s;
     rss_reads := rss_reads s; conversation_history := h |}.

Inductive Result (A : Type) : Type :=
| Ok (a : A)
| Err (e : pyexn).
Arguments Ok {A} a.
Arguments Err {A} e.

(** Turning the end of a library call into a result. *)
Definition of_outcome {A} (o : Outcome A) : Result A :=
  match o with
  | Returns a => Ok a
  | Raises msg => Err (Exception msg)
  | Interrupted => Err KeyboardInterrupt
  end.

(** ** The world, the events and the monad *)

Section Core.

(** The library's model and tokenizer objects.  The scripts are generic
    in them: they can only pass on what [load] returned. *)
Variables Model Tokenizer : Type.

(** Everything outside the scripts. *)
Record World : Type := {
  w_import : option string;            (* [Some msg]: importing mlx fails *)
  w_mlx_version : string;              (* mx.__version__ *)
  w_metal_available : bool;            (* mx.metal.is_available() *)
  w_device_count : Z;                  (* mx.metal.get_device_count() *)
  w_device_name : string;              (* mx.metal.get_device_name() *)
  w_default_device : string;           (* mx.default_device() *)
  w_load : string -> Outcome (Model * Tokenizer);
  (* the [k]-th call of generate, counted from 0 *)
  w_generate : nat -> Model -> Tokenizer -> string -> GenKwargs -> Outcome string;
  w_encode : Tokenizer -> string -> list Z;    (* tokenizer.encode *)
  w_time : nat -> Q;                   (* the [k]-th reading of time.time() *)
  w_rss : nat -> Q;                    (* the [k]-th reading of memory_info().rss *)
  w_strftime : string                  (* time.strftime("%Y%m%d_%H%M%S") *)
}.

Inductive Event : Type :=
| EvImport
| EvParseArgs
| EvLoad (path : string)
| EvGenerate (m : Model) (t : Tokenizer) (prompt : string) (kw : GenKwargs)
| EvPrint (line : list Piece)
| EvInput (prompt : string)
| EvOpen (file : string)
| EvWrite (text : list Piece).

(** A computation: from a state to a result, the state it leaves and the
    events it emitted, oldest first. *)
Definition M (A : Type) : Type := State -> Result A * State * list Event.

Definition ret {A} (a : A) : M A := fun s => (Ok a, s, []).

Definition raise {A} (e : pyexn) : M A := fun s => (Err e, s, []).

Definition bind {A B} (m : M A) (k : A -> M B) : M B :=
  fun s =>
    match m s with
    | (Ok a, s1, t1) =>
        match k a s1 with
        | (r, s2, t2) => (r, s2, t1 ++ t2)
        end
    | (Err e, s1, t1) => (Err e, s1, t1)
    end.

Definition emit (ev : Event) : M unit := fun s => (Ok tt, s, [ev]).

Definition get : M State := fun s => (Ok s, s, []).

Definition modify (f : State -> State) : M unit := fun s => (Ok tt, f s, []).

(** [try: body  except C1 as e: h1  except C2 as e: h2 ...]: the first
    clause whose class test accepts the exception runs; an exception
    raised by a handler leaves the statement. *)
Fixpoint select_clause {A} (clauses : list ((pyexn -> bool) * (pyexn -> M A)))
  (e : pyexn) : option (M A) :=
  match clauses with
  | [] => None
  | (cls, h) :: rest => if cls e then Some (h e) else select_clause rest e
  end.

Definition try_except {A} (body : M A)
  (clauses : list ((pyexn -> bool) * (pyexn -> M A))) : M A :=
  fun s =>
    match body s with
    | (Ok a, s1, t1) => (Ok a, s1, t1)
    | (Err e, s1, t1) =>
        match select_clause clauses e with
        | Some h =>
            match h s1 with
            | (r, s2, t2) => (r, s2, t1 ++ t2)
            end
        | None => (Err e, s1, t1)
        end
    end.

(** The three projections of a run. *)
Definition result_of {A} (x : Result A * State * list Event) : Result A := fst (fst x).
Definition state_of {A} (x : Result A * State * list Event) : State := snd (fst x).
Definition trace_of {A} (x : Result A * State * list Event) : list Event := snd x.

(** [for x in xs: acc = body(x, acc)] *)
Fixpoint for_each {A S} (xs : list A) (body : A -> S -> M S) (acc : S) : M S :=
  match xs with
  | [] => ret acc
  | x :: xs' => bind (body x acc) (for_each xs' body)
  end.

(** *** Primitives *)

Variable W : World.

(** [print(...)] *)
Definition print (line : list Piece) : M unit := emit (EvPrint line).

(** [time.time()] *)
Definition time_time : M Q :=
  fun s => (Ok (w_time W (clock_reads s)), set_clock_reads (S (clock_reads s)) s, []).

(** [mlx_lm.load(path)] *)
Definition load (path : string) : M (Model * Tokenizer) :=
  fun s => (of_outcome (w_load W path), s, [EvLoad path]).

(** [mlx_lm.generate(model, tokenizer, prompt, **kw)] *)
Definition generate (m : Model) (t : Tokenizer) (prompt : string) (kw : GenKwargs)
  : M string :=
  fun s =>
    (of_outcome (w_generate W (gen_calls s) m t prompt kw),
     set_gen_calls (S (gen_calls s)) s,
     [EvGenerate m t prompt kw]).

(** [len(tokenizer.encode(text))] *)
Definition count_tokens (t : Tokenizer) (text : string) : Z :=
  Z.of_nat (List.length (w_encode W t text)).

(** [a / b] at source line [lineno]; Python raises when [b] is zero. *)
Definition truediv (lineno : nat) (a b : Q) : M Q :=
  if Qeq_bool b 0 then raise (ZeroDivisionError lineno) else ret (a / b)%Q.

(** [sys.exit(code)] *)
Definition sys_exit {A} (code : Z) : M A := raise (SystemExit code).

End Core.

Arguments w_import {Model Tokenizer} w : rename.
Arguments w_mlx_version {Model Tokenizer} w : rename.
Arguments w_metal_available {Model Tokenizer} w : rename.
Arguments w_device_count {Model Tokenizer} w : rename.
Arguments w_device_name {Model Tokenizer} w : rename.
Arguments w_default_device {Model Tokenizer} w : rename.
Arguments w_load {Model Tokenizer} w : rename.
Arguments w_generate {Model Tokenizer} w : rename.
Arguments w_encode {Model Tokenizer} w : rename.
Arguments w_time {Model Tokenizer} w : rename.
Arguments w_rss {Model Tokenizer} w : rename.
Arguments w_strftime {Model Tokenizer} w : rename.
Arguments EvImport {Model Tokenizer}.
Arguments EvParseArgs {Model Tokenizer}.
Arguments EvLoad {Model Tokenizer} path.
Arguments EvGenerate {Model Tokenizer} m t prompt kw.
Arguments EvPrint {Model Tokenizer} line.
Arguments EvInput {Model Tokenizer} prompt.
Arguments EvOpen {Model Tokenizer} file.
Arguments EvWrite {Model Tokenizer} text.
Arguments ret {Model Tokenizer A} a.
Arguments raise {Model Tokenizer A} e.
Arguments bind {Model Tokenizer A B} m k.
Arguments emit {Model Tokenizer} ev.
Arguments get {Model Tokenizer}.
Arguments modify {Model Tokenizer} f.
Arguments select_clause {Model Tokenizer A} clauses e.
Arguments try_except {Model Tokenizer A} body clauses.
Arguments result_of {Model Tokenizer A} x.
Arguments state_of {Model Tokenizer A} x.
Arguments trace_of {Model Tokenizer A} x.
Arguments for_each {Model Tokenizer A S} xs body acc.
Arguments print {Model Tokenizer} line.
Arguments time_time {Model Tokenizer} W.
Arguments load {Model Tokenizer} W path.
Arguments generate {Model Tokenizer} W m t prompt kw.
Arguments count_tokens {Model Tokenizer} W t text.
Arguments truediv {Model Tokenizer} lineno a b.
Arguments sys_exit {Model Tokenizer A} code.

Declare Scope py_scope.
Delimit Scope py_scope with py.
Notation "x <- m ;; k" := (bind m (fun x => k))
  (at level 100, m at next level, right associativity) : py_scope.
Notation "m ;; k" := (bind m (fun _ => k))
  (at level 100, right associativity) : py_scope.

(** [model_path or "TheBloke/Llama-2-13B-chat-AWQ"]: [None] and the empty
    string are both falsy. *)
Definition default_model : string := "TheBloke/Llama-2-13B-chat-AWQ".

Definition or_default (model_path : option string) : string :=
  match model_path with
  | None => default_model
  | Some p => if PyStr.is_empty p then default_model else p
  end.

(** ** chat_llama.py *)

Module Chat.

Import PyStr.
Local Open Scope py_scope.

(** The result of [parser.parse_args()]. *)
Record Args : Type := {
  args_model : option string;
  args_max_tokens : Z;
  args_temperature : Q
}.

(** What argparse makes of the command line: the namespace of the
    options, or the exit of [parse_args] itself, with status 0 after it
    printed the help ([-h], [--help]) and with status 2 after an option or
    a value that it does not accept. *)
Inductive CommandLine : Type :=
| Parsed (args : Args)
| Exits (code : Z).

(** How one pass through the body of [while True] ends: with the next
    pass ([continue], or the end of the body) or with [break]. *)
Inductive Flow : Type := Continue | Break.

Definition im_start : string := "<|im_start|>".
Definition im_end : string := "<|im_end|>".

(** [f"<|im_start|>user\n{c}<|im_end|>\n"] *)
Definition user_block (c : string) : string :=
  (im_start ++ "user" ++ nl ++ c ++ im_end ++ nl)%string.

(** [f"<|im_start|>assistant\n{c}<|im_end|>\n"] *)
Definition assistant_block (c : string) : string :=
  (im_start ++ "assistant" ++ nl ++ c ++ im_end ++ nl)%string.

(** [f"<|im_start|>user\n{user_input}<|im_end|>\n<|im_start|>assistant\n"] *)
Definition final_block (user_input : string) : string :=
  (im_start ++ "user" ++ nl ++ user_input ++ im_end ++ nl
     ++ im_start ++ "assistant" ++ nl)%string.

(** [LLaMAChat.format_prompt], as a function of
    [self.conversation_history]. *)
Definition format_prompt (conversation_history : list Message)
  (user_input : string) : string :=
  match conversation_history with
  | [] => final_block user_input
  | _ :: _ =>
      let recent_history := PyList.last_n 8 conversation_history in
      let formatted_prompt :=
        fold_left
          (fun formatted_prompt msg =>
             if (role msg =? "user")%string
             then (formatted_prompt ++ user_block (content msg))%string
             else (formatted_prompt ++ assistant_block (content msg))%string)
          recent_history EmptyString in
      (formatted_prompt ++ final_block user_input)%string
  end.

Definition stop_words : list string := [im_end; im_start].

Definition apology : string :=
  "I apologize, but I encountered an error while generating a response. Please try again.".

(** The text [input()] shows, and the two markers of [show_history]. *)
Definition user_marker : string := of_bytes [195; 176; 197; 184; 226; 128; 152; 194; 164].
Definition assistant_marker : string := of_bytes [195; 176; 197; 184; 194; 164; 226; 128; 147].
Definition input_prompt : string := (nl ++ user_marker ++ " You: ")%string.

Section ChatDefs.

Context {Model Tokenizer : Type}.
Variable W : World Model Tokenizer.

Local Abbreviation M := (M Model Tokenizer).

(** The fields of a [LLaMAChat] object that are set once by [__init__];
    [conversation_history] lives in the [State]. *)
Record LLaMAChat : Type := {
  max_tokens : Z;
  temperature : Q;
  model : Model;
  tokenizer : Tokenizer
}.

(** [LLaMAChat.__init__] *)
Definition __init__ (model_path : option string) (max_tokens : Z)
  (temperature : Q) : M LLaMAChat :=
  modify (set_history []) ;;
  print [Str "Loading LLaMA-2-13B model..."] ;;
  mt <- load W (or_default model_path) ;;
  print [Str "Model loaded! Ready to chat."] ;;
  print [Str "Type 'quit', 'exit', or 'bye' to end the conversation."] ;;
  print [Str "Type 'clear' to clear conversation history."] ;;
  print [Str "Type 'help' for available commands."] ;;
  print [Str (repeat "-" 60)] ;;
  ret {| max_tokens := max_tokens; temperature := temperature;
         model := fst mt; tokenizer := snd mt |}.

(** [LLaMAChat.add_to_history] *)
Definition add_to_history (role content : string) : M unit :=
  modify (fun s =>
    set_history (conversation_history s ++ [{| role := role; content := content |}]) s).

(** [LLaMAChat.clear_history] *)
Definition clear_history : M unit :=
  modify (set_history []) ;;
  print [Str "Conversation history cleared."].

(** The [except Exception as e] clause of [generate_response]. *)
Definition generate_response_except (e : pyexn) : M string :=
  print [Str "Error generating response: "; ExnText e] ;;
  ret apology.

(** [LLaMAChat.generate_response] *)
Definition generate_response (self : LLaMAChat) (user_input : string) : M string :=
  try_except
    (s <- get ;;
     let formatted_prompt := format_prompt (conversation_history s) user_input in
     start_time <- time_time W ;;
     response <- generate W (model self) (tokenizer self) formatted_prompt
                   {| kw_max_tokens := max_tokens self;
                      kw_temperature := temperature self;
                      kw_top_p := 9 # 10;
                      kw_stop := Some stop_words |} ;;
     let response := strip response in
     let response :=
       if startswith response ("assistant" ++ nl)%string
       then strip (drop 10 response) else response in
     now <- time_time W ;;
     let generation_time := (now - start_time)%Q in
     let tokens_generated := count_tokens W (tokenizer self) response in
     print [Str "Generated "; Int tokens_generated; Str " tokens in ";
            Num generation_time 2; Str "s"] ;;
     ret response)
    [(is_Exception, generate_response_except)].

(** [LLaMAChat.show_help] *)
Definition show_help : M unit :=
  print [Str (nl ++ "Available Commands:")] ;;
  print [Str "  help     - Show this help message"] ;;
  print [Str "  clear    - Clear conversation history"] ;;
  print [Str "  history  - Show conversation history"] ;;
  print [Str "  stats    - Show conversation statistics"] ;;
  print [Str "  quit     - Exit the chat"] ;;
  print [Str "  exit     - Exit the chat"] ;;
  print [Str "  bye      - Exit the chat"].

(** [s[:100]] followed by ['...' if len(s) > 100 else ''] *)
Definition ellipsis (n : nat) (s : string) : list Piece :=
  [Str (take n s); Str (if n <? len s then "..." else "")].

(** [LLaMAChat.show_history]; [enumerate(..., 1)] is the list paired with
    positions from 1. *)
Definition show_history : M unit :=
  s <- get ;;
  match conversation_history s with
  | [] => print [Str "No conversation history yet."]
  | h =>
      print [Str (nl ++ "Conversation History ("); Int (Z.of_nat (List.length h));
             Str " messages):"] ;;
      for_each (combine (seq 1 (List.length h)) h)
        (fun im _ =>
           let i := fst im in
           let msg := snd im in
           let role_emoji :=
             if (role msg =? "user")%string then user_marker else assistant_marker in
           print ([Int (Z.of_nat i); Str ". "; Str role_emoji; Str " ";
                   Str (title (role msg)); Str ": "] ++ ellipsis 100 (content msg)))
        tt
  end.

(** [sum(1 for msg in history if msg["role"] == r)] *)
Definition count_role (r : string) (h : list Message) : Z :=
  Z.of_nat (List.length (filter (fun msg => (role msg =? r)%string) h)).

(** [LLaMAChat.show_stats] *)
Definition show_stats (self : LLaMAChat) : M unit :=
  s <- get ;;
  let h := conversation_history s in
  let total_messages := Z.of_nat (List.length h) in
  let user_messages := count_role "user" h in
  let assistant_messages := count_role "assistant" h in
  print [Str (nl ++ "Conversation Statistics:")] ;;
  print [Str "  Total messages: "; Int total_messages] ;;
  print [Str "  User messages: "; Int user_messages] ;;
  print [Str "  Assistant messages: "; Int assistant_messages] ;;
  print [Str "  Model: LLaMA-2-13B (4-bit quantized)"] ;;
  print [Str "  Max tokens: "; Int (max_tokens self)] ;;
  print [Str "  Temperature: "; Num (temperature self) 0].

(** [input(prompt)]: [key] is what the keyboard delivers, [None] at the
    end of the input. *)
Definition input (prompt : string) (key : option Keyboard) : M string :=
  emit (EvInput prompt) ;;
  match key with
  | Some (Typed line) => ret line
  | Some CtrlC => raise KeyboardInterrupt
  | None => raise EOFError
  end.

(** The two [except] clauses of the loop body of [chat]. *)
Definition chat_except_KeyboardInterrupt (e : pyexn) : M Flow :=
  print [Str (nl ++ nl ++ "Chat interrupted. Goodbye!")] ;;
  ret Break.

Definition chat_except_EOFError (e : pyexn) : M Flow :=
  print [Str (nl ++ nl ++ "End of input. Goodbye!")] ;;
  ret Break.

(** One pass through the body of [while True] in [chat]. *)
Definition chat_iteration (self : LLaMAChat) (key : option Keyboard) : M Flow :=
  try_except
    (line <- input input_prompt key ;;
     let user_input := strip line in
     if is_empty user_input then ret Continue
     else if mem (lower user_input) ["quit"; "exit"; "bye"] then
       print [Str "Goodbye! Thanks for chatting!"] ;; ret Break
     else if (lower user_input =? "clear")%string then
       clear_history ;; ret Continue
     else if (lower user_input =? "help")%string then
       show_help ;; ret Continue
     else if (lower user_input =? "history")%string then
       show_history ;; ret Continue
     else if (lower user_input =? "stats")%string then
       show_stats self ;; ret Continue
     else
       add_to_history "user" user_input ;;
       print [Str (nl ++ "LLaMA-2-13B: "); EndWith ""] ;;
       response <- generate_response self user_input ;;
       print [Str response] ;;
       add_to_history "assistant" response ;;
       ret Continue)
    [(is_KeyboardInterrupt, chat_except_KeyboardInterrupt);
     (is_EOFError, chat_except_EOFError)].

(** The [while True] loop over what the keyboard delivers; once the input
    is exhausted [input()] raises [EOFError], whose clause breaks. *)
Fixpoint chat_loop (self : LLaMAChat) (keys : list Keyboard) : M unit :=
  match keys with
  | [] => chat_iteration self None ;; ret tt
  | key :: keys' =>
      flow <- chat_iteration self (Some key) ;;
      match flow with
      | Break => ret tt
      | Continue => chat_loop self keys'
      end
  end.

(** [LLaMAChat.chat] *)
Definition chat (self : LLaMAChat) (keys : list Keyboard) : M unit :=
  print [Str "Start chatting with LLaMA-2-13B!"] ;;
  chat_loop self keys.

(** [parser.parse_args()]: it returns the namespace [args], or exits. *)
Definition parse_args (argv : CommandLine) : M Args :=
  emit EvParseArgs ;;
  match argv with
  | Parsed args => ret args
  | Exits code => raise (SystemExit code)
  end.

(** [main], statement by statement. *)
Definition main (argv : CommandLine) (keys : list Keyboard) : M unit :=
  args <- parse_args argv ;;
  print [Str "MLX LLaMA-2-13B Interactive Chat"] ;;
  print [Str (repeat "=" 60)] ;;
  print [Str "MLX version: "; Str (w_mlx_version W)] ;;
  print [Str "Metal available: ";
         Str (if w_metal_available W then "True" else "False")] ;;
  print [] ;;
  self <- __init__ (args_model args) (args_max_tokens args) (args_temperature args) ;;
  chat self keys.

(** The [except ImportError as e] clause at the top of the file. *)
Definition import_except (e : pyexn) : M unit :=
  print [Str "Error: Missing required dependencies. Please install with: pip install -r requirements.txt"] ;;
  print [Str "Import error: "; ExnText e] ;;
  sys_exit 1.

(** The module body: the guarded imports, the definitions, then
    [if __name__ == "__main__": main()]. *)
Definition module_body (argv : CommandLine) (keys : list Keyboard) : M unit :=
  try_except
    (emit EvImport ;;
     match w_import W with
     | None => ret tt
     | Some msg => raise (ImportError msg)
     end)
    [(is_ImportError, import_except)] ;;
  main argv keys.

End ChatDefs.

End Chat.

(** A namespace of options stands for the command line that argparse
    turned into it. *)
Coercion Chat.Parsed : Chat.Args >-> Chat.CommandLine.

(** ** run_llama.py *)

Module RunLlama.

Import PyStr.
Local Open Scope py_scope.

(** The result of [parser.parse_args()]. *)
Record Args : Type := {
  args_prompt : string;
  args_max_tokens : Z;
  args_temperature : Q;
  args_model : option string
}.

(** What argparse makes of the command line: the namespace of the
    options, or the exit of [parse_args] itself, with status 0 after it
    printed the help ([-h], [--help]) and with status 2 after an option or
    a value that it does not accept. *)
Inductive CommandLine : Type :=
| Parsed (args : Args)
| Exits (code : Z).

(** The command line with every option left at its default. *)
Definition default_args : Args :=
  {| args_prompt := "Explain what machine learning is in simple terms";
     args_max_tokens := 512;
     args_temperature := 7 # 10;
     args_model := None |}.

Section RunDefs.

Context {Model Tokenizer : Type}.
Variable W : World Model Tokenizer.

Local Abbreviation M := (M Model Tokenizer).

(** The [except Exception as e] clause of [load_model]. *)
Definition load_model_except (e : pyexn) : M (Model * Tokenizer) :=
  print [Str "Error loading model: "; ExnText e] ;;
  print [Str "Make sure you have sufficient memory (32GB+ recommended)"] ;;
  sys_exit 1.

(** [load_model] *)
Definition load_model (model_path : option string) : M (Model * Tokenizer) :=
  let model_path :=
    match model_path with
    | None => "TheBloke/Llama-2-13B-chat-AWQ"
    | Some p => p
    end in
  print [Str "Loading model: "; Str model_path] ;;
  try_except
    (mt <- load W model_path ;;
     print [Str "Model loaded successfully!"] ;;
     ret mt)
    [(is_Exception, load_model_except)].

(** The [except Exception as e] clause of [generate_text]. *)
Definition generate_text_except (e : pyexn) : M (option string) :=
  print [Str "Error during generation: "; ExnText e] ;;
  ret None.

(** [generate_text]; the result is [None] for Python's [None]. *)
Definition generate_text (model : Model) (tokenizer : Tokenizer) (prompt : string)
  (max_tokens : Z) (temperature : Q) : M (option string) :=
  print [Str (nl ++ "Generating response...")] ;;
  print [Str "Prompt: "; Str prompt] ;;
  print [Str "Max tokens: "; Int max_tokens; Str ", Temperature: "; Num temperature 0] ;;
  print [Str (repeat "-" 50)] ;;
  start_time <- time_time W ;;
  try_except
    (let inputs := count_tokens W tokenizer prompt in
     response <- generate W model tokenizer prompt
                   {| kw_max_tokens := max_tokens;
                      kw_temperature := temperature;
                      kw_top_p := 9 # 10;
                      kw_stop := None |} ;;
     now <- time_time W ;;
     let generation_time := (now - start_time)%Q in
     let tokens_generated := (count_tokens W tokenizer response - inputs)%Z in
     print [Str ("Response:" ++ nl); Str response] ;;
     print [Str (repeat "-" 50)] ;;
     print [Str "Generated "; Int tokens_generated; Str " tokens in ";
            Num generation_time 2; Str "s"] ;;
     speed <- truediv 69 (inject_Z tokens_generated) generation_time ;;
     print [Str "Speed: "; Num speed 1; Str " tokens/second"] ;;
     ret (Some response))
    [(is_Exception, generate_text_except)].

(** [parser.parse_args()]: it returns the namespace [args], or exits. *)
Definition parse_args (argv : CommandLine) : M Args :=
  emit EvParseArgs ;;
  match argv with
  | Parsed args => ret args
  | Exits code => raise (SystemExit code)
  end.

(** [if response:] is false for [None] and for the empty string. *)
Definition truthy (response : option string) : bool :=
  match response with
  | None => false
  | Some r => negb (is_empty r)
  end.

(** [main] *)
Definition main (argv : CommandLine) : M unit :=
  args <- parse_args argv ;;
  print [Str "MLX LLaMA-2-13B Runner"] ;;
  print [Str (repeat "=" 50)] ;;
  print [Str "MLX version: "; Str (w_mlx_version W)] ;;
  print [Str "Available devices: "; Int (w_device_count W)] ;;
  (if w_metal_available W
   then print [Str "Metal device: "; Str (w_device_name W)]
   else ret tt) ;;
  print [Str "Default device: "; Str (w_default_device W)] ;;
  print [] ;;
  mt <- load_model (args_model args) ;;
  let model := fst mt in
  let tokenizer := snd mt in
  response <- generate_text model tokenizer (args_prompt args)
                (args_max_tokens args) (args_temperature args) ;;
  if truthy response
  then print [Str (nl ++ "Generation completed successfully!")]
  else print [Str (nl ++ "Generation failed!")].

(** The [except ImportError as e] clause at the top of the file. *)
Definition import_except (e : pyexn) : M unit :=
  print [Str "Error: Missing required dependencies"] ;;
  print [Str "Import error: "; ExnText e] ;;
  sys_exit 1.

(** The module body: the guarded imports, the definitions, then
    [if __name__ == "__main__": main()]. *)
Definition module_body (argv : CommandLine) : M unit :=
  try_except
    (emit EvImport ;;
     match w_import W with
     | None => ret tt
     | Some msg => raise (ImportError msg)
     end)
    [(is_ImportError, import_except)] ;;
  main argv.

End RunDefs.

End RunLlama.

(** A namespace of options stands for the command line that argparse
    turned into it. *)
Coercion RunLlama.Parsed : RunLlama.Args >-> RunLlama.CommandLine.

(** ** benchmark.py *)

Module Benchmark.

Import PyStr.
Local Open Scope py_scope.

(** The result of [parser.parse_args()]. *)
Record Args : Type := {
  args_model : option string;
  args_runs : Z
}.

(** What argparse makes of the command line: the namespace of the
    options, or the exit of [parse_args] itself, with status 0 after it
    printed the help ([-h], [--help]) and with status 2 after an option or
    a value that it does not accept. *)
Inductive CommandLine : Type :=
| Parsed (args : Args)
| Exits (code : Z).

(** One entry of [results]. *)
Record BenchResult : Type := {
  prompt : string;
  input_tokens : Z;
  avg_output_tokens : Q;
  avg_generation_time : Q;
  avg_tokens_per_second : Q
}.

Definition test_prompts : list string :=
  [ "Hello, how are you?";
    "Explain the concept of machine learning in detail.";
    "Write a short story about a robot learning to paint.";
    "Describe the process of photosynthesis step by step with scientific accuracy.";
    "Generate a comprehensive analysis of the impact of artificial intelligence on modern society, including economic, social, and ethical considerations." ].

(** The keyword arguments of the benchmark's [generate] call. *)
Definition bench_kwargs : GenKwargs :=
  {| kw_max_tokens := 256; kw_temperature := 7 # 10; kw_top_p := 9 # 10;
     kw_stop := None |}.

(** The arrow of the memory line. *)
Definition arrow : string := of_bytes [226; 134; 146].

(** [s[:n]] followed by ['...' if len(s) > n else ''] *)
Definition ellipsis (n : nat) (s : string) : list Piece :=
  [Str (take n s); Str (if n <? len s then "..." else "")].

(** The chain of [if]/[elif] on [overall_speed], read on the rational that
    stands for the float. *)
Definition rating_of (overall_speed : Q) : string :=
  if Qle_bool 15 overall_speed then "Excellent"
  else if Qle_bool 10 overall_speed then "Good"
  else if Qle_bool 5 overall_speed then "Acceptable"
  else "Slow".

Section BenchDefs.

Context {Model Tokenizer : Type}.
Variable W : World Model Tokenizer.

Local Abbreviation M := (M Model Tokenizer).

(** [get_memory_usage] *)
Definition get_memory_usage : M Q :=
  fun s => (Ok (w_rss W (rss_reads s) / inject_Z (1024 ^ 3))%Q,
            set_rss_reads (S (rss_reads s)) s, []).

(** The body of [for run in range(num_runs)]; the accumulator is the pair
    of lists [generation_times], [token_counts]. *)
Definition run_body (model : Model) (tokenizer : Tokenizer) (prompt : string)
  (run : nat) (acc : list Q * list Z) : M (list Q * list Z) :=
  let generation_times := fst acc in
  let token_counts := snd acc in
  start_time <- time_time W ;;
  response <- generate W model tokenizer prompt bench_kwargs ;;
  now <- time_time W ;;
  let generation_time := (now - start_time)%Q in
  let response_tokens := count_tokens W tokenizer response in
  let generation_times := generation_times ++ [generation_time] in
  let token_counts := token_counts ++ [response_tokens] in
  (if Nat.eqb run 0
   then print ([Str "   Sample response: "] ++ ellipsis 100 response)
   else ret tt) ;;
  ret (generation_times, token_counts).

(** The body of [for i, prompt in enumerate(test_prompts, 1)]; the
    accumulator is [results]. *)
Definition prompt_body (model : Model) (tokenizer : Tokenizer) (num_runs : Z)
  (ip : nat * string) (results : list BenchResult) : M (list BenchResult) :=
  let i := fst ip in
  let prompt := snd ip in
  print ([Str "Test "; Int (Z.of_nat i); Str "/";
          Int (Z.of_nat (List.length test_prompts)); Str ": "] ++ ellipsis 50 prompt) ;;
  let prompt_tokens := count_tokens W tokenizer prompt in
  print [Str "   Input tokens: "; Int prompt_tokens] ;;
  acc <- for_each (PyList.range num_runs) (run_body model tokenizer prompt) ([], []) ;;
  let generation_times := fst acc in
  let token_counts := snd acc in
  avg_generation_time <-
    truediv 92 (PyList.sum generation_times)
      (inject_Z (Z.of_nat (List.length generation_times))) ;;
  avg_tokens <-
    truediv 93 (PyList.sum (map inject_Z token_counts))
      (inject_Z (Z.of_nat (List.length token_counts))) ;;
  avg_tokens_per_second <- truediv 94 avg_tokens avg_generation_time ;;
  let results :=
    results ++ [{| prompt := prompt;
                   input_tokens := prompt_tokens;
                   avg_output_tokens := avg_tokens;
                   avg_generation_time := avg_generation_time;
                   avg_tokens_per_second := avg_tokens_per_second |}] in
  print [Str " Avg generation time: "; Num avg_generation_time 2; Str "s"] ;;
  print [Str " Avg output tokens: "; Num avg_tokens 1] ;;
  print [Str " Avg speed: "; Num avg_tokens_per_second 1; Str " tokens/second"] ;;
  print [] ;;
  ret results.

(** [benchmark_model] *)
Definition benchmark_model (model_path : option string) (num_runs : Z)
  : M (list BenchResult) :=
  print [Str "MLX LLaMA-2-13B Benchmark"] ;;
  print [Str (repeat "=" 50)] ;;
  print [Str "Loading model: "; Str (or_default model_path)] ;;
  print [Str "This may take a few minutes on first run..."] ;;
  start_memory <- get_memory_usage ;;
  load_start <- time_time W ;;
  mt <- load W (or_default model_path) ;;
  let model := fst mt in
  let tokenizer := snd mt in
  now <- time_time W ;;
  let load_time := (now - load_start)%Q in
  after_load_memory <- get_memory_usage ;;
  print [Str "Model loaded in "; Num load_time 2; Str "s"] ;;
  print [Str "Memory usage: "; Num start_memory 2; Str ("GB " ++ arrow ++ " ");
         Num after_load_memory 2; Str "GB (+";
         Num (after_load_memory - start_memory)%Q 2; Str "GB)"] ;;
  print [] ;;
  results <-
    for_each (combine (seq 1 (List.length test_prompts)) test_prompts)
      (prompt_body model tokenizer num_runs) [] ;;
  print [Str "BENCHMARK SUMMARY"] ;;
  let total_input_tokens := fold_left Z.add (map input_tokens results) 0%Z in
  let total_output_tokens := PyList.sum (map avg_output_tokens results) in
  let total_time := PyList.sum (map avg_generation_time results) in
  overall_speed <- truediv 115 total_output_tokens total_time ;;
  print [Str "Total input tokens: "; Int total_input_tokens] ;;
  print [Str "Total output tokens: "; Num total_output_tokens 1] ;;
  print [Str "Total generation time: "; Num total_time 2; Str "s"] ;;
  print [Str "Overall generation speed: "; Num overall_speed 1; Str " tokens/second"] ;;
  print [Str "Model memory footprint: ";
         Num (after_load_memory - start_memory)%Q 2; Str "GB"] ;;
  let rating := rating_of overall_speed in
  print [Str "Performance rating: "; Str rating] ;;
  ret results.

(** [parser.parse_args()]: it returns the namespace [args], or exits. *)
Definition parse_args (argv : CommandLine) : M Args :=
  emit EvParseArgs ;;
  match argv with
  | Parsed args => ret args
  | Exits code => raise (SystemExit code)
  end.

(** The two [except] clauses of [main]. *)
Definition main_except_KeyboardInterrupt (e : pyexn) : M unit :=
  print [Str (nl ++ nl ++ "Benchmark interrupted by user")].

Definition main_except_Exception (e : pyexn) : M unit :=
  print [Str (nl ++ " Benchmark failed: "); ExnText e].

(** The body of [for result in results] inside [with open(...) as f]. *)
Definition write_result (result : BenchResult) (_ : unit) : M unit :=
  emit (EvWrite [Str "Prompt: "; Str (prompt result); Str nl]) ;;
  emit (EvWrite [Str "Input tokens: "; Int (input_tokens result); Str nl]) ;;
  emit (EvWrite [Str "Output tokens: "; Num (avg_output_tokens result) 1; Str nl]) ;;
  emit (EvWrite [Str "Generation time: "; Num (avg_generation_time result) 2;
                 Str ("s" ++ nl)]) ;;
  emit (EvWrite [Str "Speed: "; Num (avg_tokens_per_second result) 1;
                 Str (" tokens/second" ++ nl ++ nl)]).

(** [main] *)
Definition main (argv : CommandLine) : M unit :=
  args <- parse_args argv ;;
  try_except
    (results <- benchmark_model (args_model args) (args_runs args) ;;
     let timestamp := w_strftime W in
     let results_file := ("benchmark_results_" ++ timestamp ++ ".txt")%string in
     emit (EvOpen results_file) ;;
     emit (EvWrite [Str ("MLX LLaMA-2-13B Benchmark Results" ++ nl)]) ;;
     emit (EvWrite [Str (repeat "=" 50 ++ nl ++ nl)]) ;;
     for_each results write_result tt ;;
     print [Str (nl ++ "Results saved to: "); Str results_file])
    [(is_KeyboardInterrupt, main_except_KeyboardInterrupt);
     (is_Exception, main_except_Exception)].

(** The [except ImportError as e] clause at the top of the file. *)
Definition import_except (e : pyexn) : M unit :=
  print [Str "Error: Missing required dependencies"] ;;
  print [Str "Import error: "; ExnText e] ;;
  sys_exit 1.

(** The module body: the guarded imports, the definitions, then
    [if __name__ == "__main__": main()]. *)
Definition module_body (argv : CommandLine) : M unit :=
  try_except
    (emit EvImport ;;
     match w_import W with
     | None => ret tt
     | Some msg => raise (ImportError msg)
     end)
    [(is_ImportError, import_except)] ;;
  main argv.

End BenchDefs.

End Benchmark.

(** A namespace of options stands for the command line that argparse
    turned into it. *)
Coercion Benchmark.Parsed : Benchmark.Args >-> Benchmark.CommandLine.

(** ** The indentation rule of the Python front end

    Before a script runs, the interpreter compiles its whole file.  The
    tokenizer keeps a stack of indentation columns and the grammar accepts
    a deeper line only directly after a line that opens a block (a
    compound-statement header ending in a colon).  A file is given here by
    its logical lines: the source line where each starts, the column of
    its first token and whether it ends in the colon of a header.  Blank
    lines, comment lines and the continuation lines of brackets and of
    triple-quoted strings are not logical lines. *)

Module Python.

Record LogicalLine : Type := {
  lineno : nat;
  indent : nat;
  opens_block : bool
}.

Definition line (x : nat * nat * bool) : LogicalLine :=
  {| lineno := fst (fst x); indent := snd (fst x); opens_block := snd x |}.

Inductive IndentFault : Type :=
| UnexpectedIndent
| ExpectedIndentedBlock
| UnindentMismatch.

(** Popping the stack down to column [col]: [None] when the column is not
    on the stack. *)
Fixpoint pop_to (col : nat) (stack : list nat) : option (list nat) :=
  match stack with
  | [] => None
  | top :: rest =>
      if col =? top then Some stack
      else if top <? col then None
      else pop_to col rest
  end.

(** [expect] tells whether the previous logical line opened a block. *)
Fixpoint check_from (stack : list nat) (expect : bool) (last : nat)
  (lines : list LogicalLine) : option (IndentFault * nat) :=
  match lines with
  | [] => if expect then Some (ExpectedIndentedBlock, S last) else None
  | l :: rest =>
      let top := hd 0 stack in
      if expect then
        if top <? indent l
        then check_from (indent l :: stack) (opens_block l) (lineno l) rest
        else Some (ExpectedIndentedBlock, lineno l)
      else if top <? indent l then Some (UnexpectedIndent, lineno l)
      else
        match pop_to (indent l) stack with
        | None => Some (UnindentMismatch, lineno l)
        | Some stack' => check_from stack' (opens_block l) (lineno l) rest
        end
  end.

Definition check_indentation (lines : list LogicalLine) : option (IndentFault * nat) :=
  check_from [0] false 0 lines.

Definition o : bool := true.    (* the line opens a block *)
Definition n : bool := false.   (* it does not *)

(** The logical lines of [benchmark.py]. *)
Definition benchmark_py : list LogicalLine :=
  map line
  [ (2, 0, n); (7, 0, n); (8, 0, n); (9, 0, n); (10, 0, n);
    (11, 0, n); (13, 0, o); (14, 4, n); (15, 4, n); (16, 0, o);
    (17, 4, n); (18, 4, n); (19, 4, n); (21, 0, o); (22, 4, n);
    (23, 4, n); (24, 4, n); (25, 4, n); (27, 0, o); (28, 4, n);
    (29, 4, n); (30, 4, n); (33, 4, n); (41, 4, n); (42, 4, n);
    (45, 4, n); (46, 4, n); (48, 4, n); (50, 4, n); (51, 4, n);
    (53, 4, n); (54, 4, n); (55, 4, n); (58, 4, n); (60, 4, o);
    (61, 8, n); (63, 8, n); (64, 8, n); (67, 8, n); (68, 8, n);
    (70, 8, o); (71, 12, n); (73, 12, n); (82, 12, n); (83, 12, n);
    (85, 12, n); (86, 12, n); (88, 12, o); (89, 16, n); (92, 8, n);
    (93, 8, n); (94, 8, n); (96, 8, n); (104, 8, n); (105, 8, n);
    (106, 8, n); (107, 8, n); (110, 4, n); (112, 4, n); (113, 4, n);
    (114, 4, n); (115, 4, n); (117, 4, n); (118, 4, n); (119, 4, n);
    (120, 4, n); (121, 4, n); (123, 4, o); (124, 8, n); (125, 4, o);
    (126, 8, n); (127, 4, o); (128, 8, n); (129, 4, o); (130, 8, n);
    (132, 4, n); (134, 4, n); (136, 0, o); (137, 4, n); (138, 4, n);
    (140, 4, n); (143, 4, n); (145, 4, o); (146, 8, n); (149, 8, n);
    (150, 8, n); (152, 8, o); (153, 12, n); (154, 12, n); (156, 12, o);
    (157, 16, n); (158, 16, n); (159, 16, n); (160, 16, n); (161, 16, n);
    (163, 8, n); (165, 4, o); (166, 8, n); (167, 4, o); (168, 8, n);
    (170, 0, o); (171, 4, n) ].

(** The logical lines of [chat_llama.py]. *)
Definition chat_llama_py : list LogicalLine :=
  map line
  [ (2, 0, n); (7, 0, n); (8, 0, n); (9, 0, n); (10, 0, n);
    (12, 0, o); (13, 4, n); (14, 4, n); (15, 0, o); (16, 4, n);
    (17, 4, n); (18, 4, n); (20, 0, o); (21, 4, o); (22, 8, n);
    (23, 8, n); (24, 8, n); (26, 8, n); (27, 8, n); (28, 8, n);
    (29, 8, n); (30, 8, n); (31, 8, n); (32, 8, n); (34, 4, o);
    (35, 8, n); (36, 8, n); (38, 4, o); (39, 8, n); (40, 8, n);
    (41, 8, n); (43, 4, o); (44, 8, n); (45, 8, o); (46, 12, n);
    (49, 8, n); (51, 8, n); (52, 8, o); (53, 12, o); (54, 16, n);
    (55, 12, o); (56, 16, n); (58, 8, n); (59, 8, n); (61, 4, o);
    (62, 8, n); (63, 8, o); (64, 12, n); (66, 12, n); (67, 12, n);
    (78, 12, n); (79, 12, o); (80, 16, n); (82, 12, n); (83, 12, n);
    (85, 12, n); (87, 12, n); (89, 8, o); (90, 12, n); (91, 12, n);
    (93, 4, o); (94, 8, n); (95, 8, n); (97, 8, o); (98, 12, o);
    (99, 16, n); (101, 16, o); (102, 20, n); (105, 16, o); (106, 20, n);
    (107, 20, n); (108, 16, o); (109, 20, n); (110, 20, n); (111, 16, o);
    (112, 20, n); (113, 20, n); (114, 16, o); (115, 20, n); (116, 20, n);
    (117, 16, o); (118, 20, n); (119, 20, n); (122, 16, n); (125, 16, n);
    (126, 16, n); (127, 16, n); (130, 16, n); (132, 12, o); (133, 16, n);
    (134, 16, n); (135, 12, o); (136, 16, n); (137, 16, n); (139, 4, o);
    (140, 8, n); (141, 8, n); (142, 8, n); (143, 8, n); (144, 8, n);
    (145, 8, n); (146, 8, n); (147, 8, n); (148, 8, n); (150, 4, o);
    (151, 8, n); (152, 8, o); (153, 12, n); (154, 12, n); (156, 8, n);
    (157, 8, o); (158, 12, n); (159, 12, n); (161, 4, o); (162, 8, n);
    (163, 8, n); (164, 8, n); (165, 8, n); (167, 8, n); (168, 8, n);
    (169, 8, n); (170, 8, n); (171, 8, n); (172, 8, n); (173, 8, n);
    (175, 0, o); (176, 4, n); (177, 4, n); (179, 4, n); (181, 4, n);
    (184, 4, n); (186, 12, n); (187, 4, n); (190, 4, n); (191, 4, n);
    (192, 4, n); (195, 4, n); (196, 4, n); (198, 0, o); (199, 4, n) ].

(** The logical lines of [run_llama.py]. *)
Definition run_llama_py : list LogicalLine :=
  map line
  [ (2, 0, n); (7, 0, n); (8, 0, n); (9, 0, n); (10, 0, n);
    (12, 0, o); (13, 4, n); (14, 4, n); (15, 4, n); (16, 4, n);
    (17, 0, o); (18, 4, n); (19, 4, n); (20, 4, n); (22, 0, o);
    (23, 4, n); (24, 4, o); (26, 8, n); (28, 4, n); (30, 4, o);
    (32, 8, n); (33, 8, n); (34, 8, n); (35, 4, o); (36, 8, n);
    (37, 8, n); (38, 8, n); (40, 0, o); (41, 4, n); (42, 4, n);
    (43, 4, n); (44, 4, n); (45, 4, n); (47, 4, n); (49, 4, o);
    (51, 8, n); (54, 8, n); (63, 8, n); (64, 8, n); (66, 8, n);
    (67, 8, n); (68, 8, n); (69, 8, n); (71, 8, n); (73, 4, o);
    (74, 8, n); (75, 8, n); (77, 0, o); (78, 4, n); (79, 4, n);
    (81, 4, n); (83, 4, n); (85, 4, n); (88, 4, n); (90, 4, n);
    (91, 4, n); (94, 4, n); (95, 4, n); (96, 4, o); (97, 8, n);
    (98, 4, n); (99, 4, n); (102, 4, n); (105, 4, n); (113, 4, o);
    (114, 8, n); (115, 4, o); (116, 8, n); (118, 0, o); (119, 4, n) ].

End Python.

(** ** Running a script as a main program *)

Module Script.

Local Open Scope py_scope.

(** A script together with its parsed command line and, for the chat,
    what the keyboard delivers. *)
Inductive Invocation : Type :=
| benchmark (argv : Benchmark.Args)
| chat_llama (argv : Chat.Args) (keys : list Keyboard)
| run_llama (argv : RunLlama.Args).

Definition source (inv : Invocation) : list Python.LogicalLine :=
  match inv with
  | benchmark _ => Python.benchmark_py
  | chat_llama _ _ => Python.chat_llama_py
  | run_llama _ => Python.run_llama_py
  end.

(** [python <file> <options>]: the file is compiled first; a file that
    does not compile runs no statement at all. *)
Definition python {Model Tokenizer : Type} (W : World Model Tokenizer)
  (inv : Invocation) : M Model Tokenizer unit :=
  match Python.check_indentation (source inv) with
  | Some (_, lineno) => raise (IndentationError lineno)
  | None =>
      match inv with
      | benchmark argv => Benchmark.module_body W argv
      | chat_llama argv keys => Chat.module_body W argv keys
      | run_llama argv => RunLlama.module_body W argv
      end
  end.

(** A script started with any command line, one that argparse accepts or
    one on which [parse_args] exits. *)
Inductive Launch : Type :=
| benchmark_py (argv : Benchmark.CommandLine)
| chat_llama_py (argv : Chat.CommandLine) (keys : list Keyboard)
| run_llama_py (argv : RunLlama.CommandLine).

Definition file (l : Launch) : list Python.LogicalLine :=
  match l with
  | benchmark_py _ => Python.benchmark_py
  | chat_llama_py _ _ => Python.chat_llama_py
  | run_llama_py _ => Python.run_llama_py
  end.

(** An invocation is the launch with a command line that argparse
    accepts. *)
Definition launch (inv : Invocation) : Launch :=
  match inv with
  | benchmark argv => benchmark_py argv
  | chat_llama argv keys => chat_llama_py argv keys
  | run_llama argv => run_llama_py argv
  end.

(** [python <file> <command line>], as [python] above. *)
Definition run {Model Tokenizer : Type} (W : World Model Tokenizer)
  (l : Launch) : M Model Tokenizer unit :=
  match Python.check_indentation (file l) with
  | Some (_, lineno) => raise (IndentationError lineno)
  | None =>
      match l with
      | benchmark_py argv => Benchmark.module_body W argv
      | chat_llama_py argv keys => Chat.module_body W argv keys
      | run_llama_py argv => RunLlama.module_body W argv
      end
  end.

(** The [main] of each script as it is written, after [parse_args]
    returned [argv]. *)
Definition main {Model Tokenizer : Type} (W : World Model Tokenizer)
  (inv : Invocation) : M Model Tokenizer unit :=
  match inv with
  | benchmark argv => Benchmark.main W argv
  | chat_llama argv keys => Chat.main W argv keys
  | run_llama argv => RunLlama.main W argv
  end.

End Script.

(** ** Notions used by the statements *)

Module Props.

Import PyStr.

Section TraceProps.

Context {Model Tokenizer : Type}.

Local Abbreviation Event := (Event Model Tokenizer).

Definition is_parse (ev : Event) : bool :=
  match ev with EvParseArgs => true | _ => false end.

Definition is_load (ev : Event) : bool :=
  match ev with EvLoad _ => true | _ => false end.

Definition is_generate (ev : Event) : bool :=
  match ev with EvGenerate _ _ _ _ => true | _ => false end.

Definition is_print (ev : Event) : bool :=
  match ev with EvPrint _ => true | _ => false end.

(** The calls of a trace: what is left when only [parse_args], [load] and
    [generate] are kept, in order. *)
Definition calls (t : list Event) : list Event :=
  filter (fun ev => is_parse ev || is_load ev || is_generate ev) t.

(** The prompt and keyword arguments of every [generate] call, in order. *)
Fixpoint generate_calls (t : list Event) : list (string * GenKwargs) :=
  match t with
  | [] => []
  | EvGenerate _ _ prompt kw :: t' => (prompt, kw) :: generate_calls t'
  | _ :: t' => generate_calls t'
  end.

(** A [generate] event that uses the model and the tokenizer [mt]. *)
Definition generate_with (mt : Model * Tokenizer) (ev : Event) : Prop :=
  match ev with
  | EvGenerate m t _ _ => m = fst mt /\ t = snd mt
  | _ => False
  end.

End TraceProps.

(** *** The history invariant of the chat *)

(** The roles read [user], [assistant], [user], ... from the first entry;
    [expect_user] tells which role the next entry must have. *)
Fixpoint alternating_from (expect_user : bool) (h : list Message) : bool :=
  match h with
  | [] => true
  | msg :: h' =>
      (role msg =? (if expect_user then "user" else "assistant"))%string
      && alternating_from (negb expect_user) h'
  end.

Definition alternates (h : list Message) : Prop := alternating_from true h = true.

Definition valid_role (msg : Message) : Prop :=
  role msg = "user" \/ role msg = "assistant".

(** At the head of the loop every turn is complete: the roles alternate
    and the entries come in pairs. *)
Definition loop_inv (h : list Message) : Prop :=
  alternates h /\ Nat.even (List.length h) = true.

Definition user_msg (c : string) : Message := {| role := "user"; content := c |}.
Definition assistant_msg (c : string) : Message := {| role := "assistant"; content := c |}.

(** What [generate_response] does to a response of the library before it
    returns it. *)
Definition clean_response (response : string) : string :=
  let response := strip response in
  if startswith response ("assistant" ++ nl)%string
  then strip (drop 10 response) else response.

(** *** The chat template, in the words of the specification *)

(** The rendering of one history message. *)
Definition render_message (msg : Message) : string :=
  if (role msg =? "user")%string
  then Chat.user_block (content msg)
  else Chat.assistant_block (content msg).

(** The block of a message under its own role name:
    [<|im_start|>{role}\n{content}<|im_end|>\n]. *)
Definition role_block (msg : Message) : string :=
  (Chat.im_start ++ role msg ++ nl ++ content msg ++ Chat.im_end ++ nl)%string.

(** The rendering of the messages [msgs], in order, then the block of the
    new user input, then the assistant header. *)
Definition chat_template (msgs : list Message) (user_input : string) : string :=
  (String.concat "" (map render_message msgs)
     ++ Chat.user_block user_input
     ++ Chat.im_start ++ "assistant" ++ nl)%string.

(** *** Handlers *)

(** Which results are no value at all: falling off the end of a block
    ([tt]) and [None]; a string or a loaded model is a value. *)
Class NoValue (A : Type) : Type := no_value : A -> Prop.

#[global] Instance NoValue_unit : NoValue unit := fun _ => True.
#[global] Instance NoValue_option {A} : NoValue (option A) := fun o => o = None.
#[global] Instance NoValue_string : NoValue string := fun _ => False.
#[global] Instance NoValue_pair {A B} : NoValue (A * B) := fun _ => False.

(** A handler that only prints: it ends normally and without a value,
    leaves the state as it was and emits [print]s only. *)
Definition only_prints {Model Tokenizer A} `{NoValue A}
  (handler : pyexn -> M Model Tokenizer A) : Prop :=
  forall e s,
    exists a lines,
      handler e s = (Ok a, s, map EvPrint lines) /\ no_value a /\ lines <> [].

(** *** The events of a computation *)

(** Every event that [m] emits, from any state, satisfies [P]. *)
Definition emits_only {Model Tokenizer A} (P : Event Model Tokenizer -> Prop)
  (m : M Model Tokenizer A) : Prop :=
  forall s, Forall P (trace_of (m s)).

(** *** The chat's [generate] call *)

(** The keyword arguments of the chat's [generate] call. *)
Definition chat_kwargs (max_tokens : Z) (temperature : Q) : GenKwargs :=
  {| kw_max_tokens := max_tokens; kw_temperature := temperature;
     kw_top_p := 9 # 10; kw_stop := Some Chat.stop_words |}.

(** The state after one [generate] call and [ticks] readings of the clock. *)
Definition after_generate (ticks : nat) (s : State) : State :=
  {| gen_calls := S (gen_calls s); clock_reads := ticks + clock_reads s;
     rss_reads := rss_reads s; conversation_history := conversation_history s |}.

(** How the library answers the [generate] call that [generate_response]
    makes for [user_input] from state [s]. *)
Definition chat_outcome {Model Tokenizer} (W : World Model Tokenizer)
  (self : Chat.LLaMAChat (Model:=Model) (Tokenizer:=Tokenizer))
  (user_input : string) (s : State) : Outcome string :=
  w_generate W (gen_calls s) (Chat.model self) (Chat.tokenizer self)
    (Chat.format_prompt (conversation_history s) user_input)
    (chat_kwargs (Chat.max_tokens self) (Chat.temperature self)).

(** *** The words of the chat loop *)

(** The inputs that end the chat. *)
Definition exit_words : list string := ["quit"; "exit"; "bye"].

(** The other commands that show something. *)
Definition show_words : list string := ["help"; "history"; "stats"].

(** A stripped input that is a message for the model: not empty and, in
    lower case, none of the commands. *)
Definition is_message (user_input : string) : bool :=
  negb (is_empty user_input)
  && negb (mem (lower user_input) (exit_words ++ ["clear"] ++ show_words)).

(** The state after a turn that called [generate] once, read the clock
    [ticks] times and left the history [h]. *)
Definition after_turn (ticks : nat) (h : list Message) (s : State) : State :=
  {| gen_calls := S (gen_calls s); clock_reads := ticks + clock_reads s;
     rss_reads := rss_reads s; conversation_history := h |}.

(** *** Events after the model is loaded *)

(** An event of the phase that follows [load]: no [parse_args], no
    [load], no import, and every [generate] uses the pair [mt] that [load]
    returned, with a prompt and keyword arguments accepted by [ok]. *)
Definition after_load_event {Model Tokenizer} (mt : Model * Tokenizer)
  (ok : string -> GenKwargs -> Prop) (ev : Event Model Tokenizer) : Prop :=
  match ev with
  | EvGenerate m t prompt kw => m = fst mt /\ t = snd mt /\ ok prompt kw
  | EvLoad _ | EvParseArgs | EvImport => False
  | _ => True
  end.

(** The chat's calls: the template over some history and some input, with
    the object's [max_tokens] and [temperature], [top_p=0.9] and the two
    stop words. *)
Definition chat_call (max_tokens : Z) (temperature : Q)
  (prompt : string) (kw : GenKwargs) : Prop :=
  (exists h u, prompt = Chat.format_prompt h u)
  /\ kw = chat_kwargs max_tokens temperature.

(** The runner's call: the prompt of the command line as it is, with its
    [max_tokens] and [temperature], [top_p=0.9] and nothing else. *)
Definition run_kwargs (max_tokens : Z) (temperature : Q) : GenKwargs :=
  {| kw_max_tokens := max_tokens; kw_temperature := temperature;
     kw_top_p := 9 # 10; kw_stop := None |}.

Definition run_call (argv : RunLlama.Args) (prompt : string) (kw : GenKwargs) : Prop :=
  prompt = RunLlama.args_prompt argv
  /\ kw = run_kwargs (RunLlama.args_max_tokens argv) (RunLlama.args_temperature argv).

(** The path that the runner's [load_model] hands to [load]. *)
Definition load_path (model_path : option string) : string :=
  match model_path with
  | None => "TheBloke/Llama-2-13B-chat-AWQ"
  | Some p => p
  end.

(** The benchmark's calls: one of its own prompts with its own arguments. *)
Definition bench_call (prompt : string) (kw : GenKwargs) : Prop :=
  In prompt Benchmark.test_prompts /\ kw = Benchmark.bench_kwargs.

(** The [LLaMAChat] object that [main] builds from the command line and
    from what [load] returned. *)
Definition chat_self {Model Tokenizer} (argv : Chat.Args) (mt : Model * Tokenizer)
  : Chat.LLaMAChat (Model:=Model) (Tokenizer:=Tokenizer) :=
  {| Chat.max_tokens := Chat.args_max_tokens argv;
     Chat.temperature := Chat.args_temperature argv;
     Chat.model := fst mt;
     Chat.tokenizer := snd mt |}.

(** A list of [print] events. *)
Definition prints {Model Tokenizer} (t : list (Event Model Tokenizer)) : Prop :=
  Forall (fun ev => is_print ev = true) t.

(** *** Assumptions on the world *)

(** Every [generate] call returns. *)
Definition generate_returns {Model Tokenizer} (W : World Model Tokenizer) : Prop :=
  forall k m t prompt kw, exists response, w_generate W k m t prompt kw = Returns response.

(** The clock moves forward between two readings. *)
Definition clock_advances {Model Tokenizer} (W : World Model Tokenizer) : Prop :=
  forall k, (w_time W k < w_time W (S k))%Q.

(** *** Results and errors of a computation *)

(** From any state, a value that [m] returns satisfies [Q] and an
    exception that it raises satisfies [E]. *)
Definition post {Model Tokenizer A} (m : M Model Tokenizer A)
  (Q : A -> Prop) (E : pyexn -> Prop) : Prop :=
  forall s,
    match result_of (m s) with
    | Ok a => Q a
    | Err e => E e
    end.

(** An exception that is not the division by zero of line 92 or 93. *)
Definition not_average_division (e : pyexn) : Prop :=
  e <> ZeroDivisionError 92 /\ e <> ZeroDivisionError 93.

(** An event that is none of the three calls. *)
Definition quiet {Model Tokenizer} (ev : Event Model Tokenizer) : Prop :=
  is_parse ev || is_load ev || is_generate ev = false.

(** The shape of the calls of a run of [main]: [parse_args], then one
    [load], then [generate] calls only, none when [load] did not return,
    each with the model and the tokenizer that [load] returned and with a
    prompt and keyword arguments accepted by [ok]. *)
Definition main_shape {Model Tokenizer} (W : World Model Tokenizer)
  (ok : string -> GenKwargs -> Prop) (t : list (Event Model Tokenizer)) : Prop :=
  exists path gens,
    calls t = EvParseArgs :: EvLoad path :: gens
    /\ match w_load W path with
       | Returns mt => Forall (after_load_event mt ok) gens
       | _ => gens = []
       end.

(** What each script may hand to [generate]. *)
Definition script_call (inv : Script.Invocation) : string -> GenKwargs -> Prop :=
  match inv with
  | Script.benchmark _ => bench_call
  | Script.chat_llama argv _ =>
      chat_call (Chat.args_max_tokens argv) (Chat.args_temperature argv)
  | Script.run_llama argv => run_call argv
  end.

(** How often an event of a kind occurs in a trace. *)
Definition count {Model Tokenizer} (kind : Event Model Tokenizer -> bool)
  (t : list (Event Model Tokenizer)) : nat :=
  List.length (filter kind t).


End Props.

(** ** Sample worlds and command lines *)

Module Sample.

(** A world where everything works: [load] returns the pair (1, 2),
    [generate] answers "Hello!", the tokenizer gives one token per
    character and the clock advances by one second at each reading. *)
Definition W_ok : World nat nat :=
  {| w_import := None;
     w_mlx_version := "0.0";
     w_metal_available := true;
     w_device_count := 1;
     w_device_name := "gpu";
     w_default_device := "Device(gpu, 0)";
     w_load := fun _ => Returns (1, 2);
     w_generate := fun _ _ _ _ _ => Returns "Hello!";
     w_encode := fun _ text => map (fun c => Z.of_nat (nat_of_ascii c)) (list_ascii_of_string text);
     w_time := fun k => inject_Z (Z.of_nat k);
     w_rss := fun _ => 0%Q;
     w_strftime := "20240101_000000" |}.

(** The same world, except that every [generate] call raises. *)
Definition W_boom : World nat nat :=
  {| w_import := None;
     w_mlx_version := "0.0";
     w_metal_available := true;
     w_device_count := 1;
     w_device_name := "gpu";
     w_default_device := "Device(gpu, 0)";
     w_load := fun _ => Returns (1, 2);
     w_generate := fun _ _ _ _ _ => Raises "boom";
     w_encode := fun _ text => map (fun c => Z.of_nat (nat_of_ascii c)) (list_ascii_of_string text);
     w_time := fun k => inject_Z (Z.of_nat k);
     w_rss := fun _ => 0%Q;
     w_strftime := "20240101_000000" |}.

(** The same world, except that the clock stands still. *)
Definition W_frozen : World nat nat :=
  {| w_import := None;
     w_mlx_version := "0.0";
     w_metal_available := true;
     w_device_count := 1;
     w_device_name := "gpu";
     w_default_device := "Device(gpu, 0)";
     w_load := fun _ => Returns (1, 2);
     w_generate := fun _ _ _ _ _ => Returns "Hello!";
     w_encode := fun _ text => map (fun c => Z.of_nat (nat_of_ascii c)) (list_ascii_of_string text);
     w_time := fun _ => 0%Q;
     w_rss := fun _ => 0%Q;
     w_strftime := "20240101_000000" |}.

(** The chat's command line with every option left at its default. *)
Definition chat_argv : Chat.Args :=
  {| Chat.args_model := None; Chat.args_max_tokens := 512;
     Chat.args_temperature := 7 # 10 |}.

(** The chat object that [main] builds in these worlds. *)
Definition self : Chat.LLaMAChat (Model:=nat) (Tokenizer:=nat) :=
  Props.chat_self chat_argv (1, 2).

(** A history of nine messages. *)
Definition nine_messages : list Message :=
  [ Props.user_msg "1"; Props.assistant_msg "2"; Props.user_msg "3";
    Props.assistant_msg "4"; Props.user_msg "5"; Props.assistant_msg "6";
    Props.user_msg "7"; Props.assistant_msg "8"; Props.user_msg "9" ].

(** The benchmark's command line, at its default and with one run. *)
Definition bench_argv : Benchmark.Args :=
  {| Benchmark.args_model := None; Benchmark.args_runs := 5 |}.

Definition bench_argv_1 : Benchmark.Args :=
  {| Benchmark.args_model := None; Benchmark.args_runs := 1 |}.

(** The runner's command line with the prompt "hi". *)
Definition run_argv : RunLlama.Args :=
  {| RunLlama.args_prompt := "hi"; RunLlama.args_max_tokens := 512;
     RunLlama.args_temperature := 7 # 10; RunLlama.args_model := None |}.

End Sample.

(** ** Further notions *)

Module More.

Import PyStr.

(** What ends the chat when it arrives at [input()]: Ctrl-C, or a line that
    reads quit, exit or bye once stripped and put in lower case. *)
Definition ends_chat (key : Keyboard) : bool :=
  match key with
  | CtrlC => true
  | Typed line => mem (lower (strip line)) Props.exit_words
  end.

(** A typed line that is a message for the model. *)
Definition is_message_key (key : Keyboard) : bool :=
  match key with
  | CtrlC => false
  | Typed line => Props.is_message (strip line)
  end.

(** A stored message is tidy when its content has no white space at
    either end and, for a message of the user, is not empty. *)
Definition tidy_message (msg : Message) : Prop :=
  strip (content msg) = content msg
  /\ (role msg = "user" -> content msg <> "").

Definition tidy (h : list Message) : Prop := Forall tidy_message h.

(** An exception that [except Exception] or [except KeyboardInterrupt]
    catches. *)
Definition catchable (e : pyexn) : Prop :=
  is_Exception e = true \/ e = KeyboardInterrupt.

Section Events.

Context {Model Tokenizer : Type}.

Definition is_open (ev : Event Model Tokenizer) : bool :=
  match ev with EvOpen _ => true | _ => false end.

Definition is_write (ev : Event Model Tokenizer) : bool :=
  match ev with EvWrite _ => true | _ => false end.

Definition is_input (ev : Event Model Tokenizer) : bool :=
  match ev with EvInput _ => true | _ => false end.

(** The last event of a trace. *)
Definition last_event (t : list (Event Model Tokenizer)) : option (Event Model Tokenizer) :=
  match rev t with
  | [] => None
  | ev :: _ => Some ev
  end.

End Events.

(** A text that does not start with white space. *)
Definition clean (s : string) : Prop :=
  match s with
  | EmptyString => True
  | String a s1 =>
      isspace a = false
      /\ match s1 with
         | EmptyString => True
         | String b s2 =>
             isspace2 a b = false
             /\ match s2 with
                | EmptyString => True
                | String c _ => isspace3 a b c = false
                end
         end
  end.

(** A world where [load] raises. *)
Definition W_noload : World nat nat :=
  {| w_import := None;
     w_mlx_version := "0.0";
     w_metal_available := false;
     w_device_count := 0;
     w_device_name := "";
     w_default_device := "Device(cpu, 0)";
     w_load := fun _ => Raises "out of memory";
     w_generate := fun _ _ _ _ _ => Returns "Hello!";
     w_encode := fun _ text => map (fun c => Z.of_nat (nat_of_ascii c)) (list_ascii_of_string text);
     w_time := fun k => inject_Z (Z.of_nat k);
     w_rss := fun _ => 0%Q;
     w_strftime := "20240101_000000" |}.

(** A world where [generate] answers with white space only. *)
Definition W_blank : World nat nat :=
  {| w_import := None;
     w_mlx_version := "0.0";
     w_metal_available := true;
     w_device_count := 1;
     w_device_name := "gpu";
     w_default_device := "Device(gpu, 0)";
     w_load := fun _ => Returns (1, 2);
     w_generate := fun _ _ _ _ _ => Returns "";
     w_encode := fun _ text => map (fun c => Z.of_nat (nat_of_ascii c)) (list_ascii_of_string text);
     w_time := fun k => inject_Z (Z.of_nat k);
     w_rss := fun _ => 0%Q;
     w_strftime := "20240101_000000" |}.

(** The events of the five lines that [main] writes for one result. *)
Definition result_writes {Model Tokenizer} (result : Benchmark.BenchResult)
  : list (Event Model Tokenizer) :=
  [ EvWrite [Str "Prompt: "; Str (Benchmark.prompt result); Str nl];
    EvWrite [Str "Input tokens: "; Int (Benchmark.input_tokens result); Str nl];
    EvWrite [Str "Output tokens: "; Num (Benchmark.avg_output_tokens result) 1; Str nl];
    EvWrite [Str "Generation time: "; Num (Benchmark.avg_generation_time result) 2;
             Str ("s" ++ nl)];
    EvWrite [Str "Speed: "; Num (Benchmark.avg_tokens_per_second result) 1;
             Str (" tokens/second" ++ nl ++ nl)] ].

(** The line that the benchmark's [main] prints for an exception that it
    caught. *)
Definition failure_line (e : pyexn) : list Piece :=
  if is_KeyboardInterrupt e
  then [Str (nl ++ nl ++ "Benchmark interrupted by user")]
  else [Str (nl ++ " Benchmark failed: "); ExnText e].

(** An event that neither opens a file nor writes to one. *)
Definition no_file {Model Tokenizer} (ev : Event Model Tokenizer) : Prop :=
  is_open ev || is_write ev = false.

(** The benchmark's command line with [--runs -3]. *)
Definition bench_argv_neg : Benchmark.Args :=
  {| Benchmark.args_model := None; Benchmark.args_runs := -3 |}.


(** The second call of a trace. *)
Definition second_call {Model Tokenizer} (t : list (Event Model Tokenizer))
  : option (Event Model Tokenizer) :=
  nth_error (Props.calls t) 1.

End More.

(** * Proofs *)

(** ** Strings and lists *)

Lemma append_nil_r (s : string) : (s ++ "")%string = s.
Proof. induction s as [|c s IH]; simpl; [reflexivity | now rewrite IH]. Qed.

Lemma append_assoc (a b c : string) : ((a ++ b) ++ c)%string = (a ++ (b ++ c))%string.
Proof. induction a as [|x a IH]; simpl; [reflexivity | now rewrite IH]. Qed.

Lemma last_n_length {A} (n : nat) (l : list A) :
  List.length (PyList.last_n n l) = Nat.min n (List.length l).
Proof. unfold PyList.last_n. rewrite length_skipn. lia. Qed.

Lemma last_n_suffix {A} (n : nat) (l : list A) :
  l = firstn (List.length l - n) l ++ PyList.last_n n l.
Proof. unfold PyList.last_n. now rewrite firstn_skipn. Qed.

Lemma last_n_idem {A} (n : nat) (l : list A) :
  PyList.last_n n (PyList.last_n n l) = PyList.last_n n l.
Proof.
  unfold PyList.last_n at 1. rewrite last_n_length.
  replace (Nat.min n (List.length l) - n) with 0 by lia. reflexivity.
Qed.

(** ** [format_prompt] *)

Module FormatPrompt.

Import PyStr Props.

Lemma concat_empty_cons (x : string) (xs : list string) :
  String.concat "" (x :: xs) = (x ++ String.concat "" xs)%string.
Proof.
  destruct xs as [|y xs]; cbn [String.concat].
  - now rewrite append_nil_r.
  - reflexivity.
Qed.

(** The loop of [format_prompt] appends the rendering of each message to
    what it has so far. *)
Lemma loop_is_concat (msgs : list Message) (acc : string) :
  fold_left
    (fun formatted_prompt msg =>
       if (role msg =? "user")%string
       then (formatted_prompt ++ Chat.user_block (content msg))%string
       else (formatted_prompt ++ Chat.assistant_block (content msg))%string)
    msgs acc
  = (acc ++ String.concat "" (map render_message msgs))%string.
Proof.
  revert acc. induction msgs as [|msg msgs IH]; intros acc; cbn [fold_left map].
  - cbn [String.concat]. now rewrite append_nil_r.
  - rewrite IH, concat_empty_cons. unfold render_message at 2.
    destruct (role msg =? "user")%string; now rewrite append_assoc.
Qed.

Lemma final_block_split (user_input : string) :
  Chat.final_block user_input
  = (Chat.user_block user_input ++ Chat.im_start ++ "assistant" ++ nl)%string.
Proof.
  unfold Chat.final_block, Chat.user_block.
  now rewrite !append_assoc.
Qed.

(** On every history, empty or not, the result is the template over the
    last 8 messages. *)
Lemma format_prompt_template (h : list Message) (user_input : string) :
  Chat.format_prompt h user_input = chat_template (PyList.last_n 8 h) user_input.
Proof.
  unfold chat_template. rewrite <- final_block_split.
  destruct h as [|msg h].
  - reflexivity.
  - unfold Chat.format_prompt. now rewrite loop_is_concat.
Qed.

(** A message whose role is "user" or "assistant" is rendered under its
    own role name. *)
Lemma render_valid_role (msg : Message) :
  valid_role msg -> render_message msg = role_block msg.
Proof.
  unfold render_message, role_block, Chat.user_block, Chat.assistant_block.
  intros [H|H]; rewrite H; reflexivity.
Qed.

Lemma render_valid_roles (msgs : list Message) :
  Forall valid_role msgs -> map render_message msgs = map role_block msgs.
Proof.
  induction 1 as [|msg msgs Hm _ IH]; [reflexivity|].
  cbn [map]. now rewrite IH, render_valid_role.
Qed.

Lemma last_n_forall {A} (P : A -> Prop) (n : nat) (l : list A) :
  Forall P l -> Forall P (PyList.last_n n l).
Proof.
  intros H. rewrite (last_n_suffix n l) in H. now apply Forall_app in H.
Qed.

(** Every prompt ends with the block of the input and the assistant
    header. *)
Lemma format_prompt_ends (h : list Message) (user_input : string) :
  exists before,
    Chat.format_prompt h user_input = (before ++ Chat.final_block user_input)%string.
Proof.
  destruct h as [|m h].
  - exists "". reflexivity.
  - eexists. reflexivity.
Qed.

End FormatPrompt.

(** C9: for every history and every user input, [format_prompt] returns
    the chat-template rendering of the last 8 history messages (all of
    them when there are fewer; they are a suffix of the history, in
    order), followed by the block of the new user input and the assistant
    header; the result is the same on the history cut to its last 8
    messages; on the empty history it is exactly
    [<|im_start|>user\n{user_input}<|im_end|>\n<|im_start|>assistant\n].
    A message is rendered as a user block when its role is "user" and as
    an assistant block otherwise; on a history whose roles are all "user"
    or "assistant" every message is rendered under its own role name. *)
Theorem C9_format_prompt (h : list Message) (user_input : string) :
  Chat.format_prompt h user_input
    = Props.chat_template (PyList.last_n 8 h) user_input
  /\ List.length (PyList.last_n 8 h) = Nat.min 8 (List.length h)
  /\ h = firstn (List.length h - 8) h ++ PyList.last_n 8 h
  /\ Chat.format_prompt h user_input
       = Chat.format_prompt (PyList.last_n 8 h) user_input
  /\ Chat.format_prompt [] user_input
       = ("<|im_start|>user" ++ PyStr.nl ++ user_input ++ "<|im_end|>" ++ PyStr.nl
            ++ "<|im_start|>assistant" ++ PyStr.nl)%string
  /\ (Forall Props.valid_role h ->
      Chat.format_prompt h user_input
      = (String.concat "" (map Props.role_block (PyList.last_n 8 h))
           ++ "<|im_start|>user" ++ PyStr.nl ++ user_input ++ "<|im_end|>" ++ PyStr.nl
           ++ "<|im_start|>assistant" ++ PyStr.nl)%string).
Proof.
  split; [apply FormatPrompt.format_prompt_template|].
  split; [apply last_n_length|].
  split; [apply last_n_suffix|].
  split; [|split; [reflexivity|]].
  - rewrite !FormatPrompt.format_prompt_template. now rewrite last_n_idem.
  - intros Hv. rewrite FormatPrompt.format_prompt_template.
    unfold Props.chat_template.
    rewrite (FormatPrompt.render_valid_roles _ (FormatPrompt.last_n_forall _ 8 h Hv)).
    f_equal. rewrite <- FormatPrompt.final_block_split. reflexivity.
Qed.

(** The theorem at work: a history of nine messages, of which the first
    is left out. *)
Lemma C9_format_prompt_witness :
  Forall Props.valid_role Sample.nine_messages
  /\ Chat.format_prompt Sample.nine_messages "bye?"
     = (String.concat "" (map Props.role_block (tl Sample.nine_messages))
          ++ "<|im_start|>user" ++ PyStr.nl ++ "bye?" ++ "<|im_end|>" ++ PyStr.nl
          ++ "<|im_start|>assistant" ++ PyStr.nl)%string.
Proof.
  assert (H : Forall Props.valid_role Sample.nine_messages).
  { repeat constructor; (left; reflexivity) || (right; reflexivity). }
  split; [exact H|].
  destruct (C9_format_prompt Sample.nine_messages "bye?") as (_ & _ & _ & _ & _ & E).
  exact (E H).
Defined.

(** ** The monad *)

Module MonadFacts.

Import Props.

Section Facts.

Context {Model Tokenizer : Type}.

Local Abbreviation M := (M Model Tokenizer).
Local Abbreviation Event := (Event Model Tokenizer).

Variable P : Event -> Prop.

Lemma emits_ret {A} (a : A) : emits_only P (ret a).
Proof. intros s. constructor. Qed.

Lemma emits_raise {A} (e : pyexn) : emits_only P (raise (A:=A) e).
Proof. intros s. constructor. Qed.

Lemma emits_get : emits_only P get.
Proof. intros s. constructor. Qed.

Lemma emits_modify (f : State -> State) : emits_only P (modify f).
Proof. intros s. constructor. Qed.

Lemma emits_emit (ev : Event) : P ev -> emits_only P (emit ev).
Proof. intros H s. repeat constructor. exact H. Qed.

Lemma emits_time (W : World Model Tokenizer) : emits_only P (time_time W).
Proof. intros s. constructor. Qed.

Lemma emits_truediv (lineno : nat) (a b : Q) : emits_only P (truediv lineno a b).
Proof. intros s. unfold truediv. destruct (Qeq_bool b 0); constructor. Qed.

Lemma emits_load (W : World Model Tokenizer) (path : string) :
  P (EvLoad path) -> emits_only P (load W path).
Proof. intros H s. repeat constructor. exact H. Qed.

Lemma emits_generate (W : World Model Tokenizer) m t prompt kw :
  P (EvGenerate m t prompt kw) -> emits_only P (generate W m t prompt kw).
Proof. intros H s. repeat constructor. exact H. Qed.

Lemma emits_bind {A B} (m : M A) (k : A -> M B) :
  emits_only P m -> (forall a, emits_only P (k a)) -> emits_only P (bind m k).
Proof.
  intros Hm Hk s. unfold bind. specialize (Hm s).
  destruct (m s) as [[[a|e] s1] t1]; cbn in *.
  - specialize (Hk a s1). destruct (k a s1) as [[r s2] t2]; cbn in *.
    apply Forall_app; split; assumption.
  - assumption.
Qed.

Lemma select_clause_emits {A} (clauses : list ((pyexn -> bool) * (pyexn -> M A)))
  (e : pyexn) (h : M A) :
  Forall (fun ch => forall e', emits_only P (snd ch e')) clauses ->
  select_clause clauses e = Some h -> emits_only P h.
Proof.
  induction 1 as [|[cls h'] rest Hh _ IH]; cbn; intros Hs.
  - discriminate.
  - destruct (cls e).
    + injection Hs as <-. apply Hh.
    + apply IH, Hs.
Qed.

Lemma emits_try_except {A} (body : M A)
  (clauses : list ((pyexn -> bool) * (pyexn -> M A))) :
  emits_only P body ->
  Forall (fun ch => forall e, emits_only P (snd ch e)) clauses ->
  emits_only P (try_except body clauses).
Proof.
  intros Hb Hc s. unfold try_except. specialize (Hb s).
  destruct (body s) as [[[a|e] s1] t1]; cbn in *.
  - assumption.
  - destruct (select_clause clauses e) as [h|] eqn:Hs; cbn.
    + pose proof (select_clause_emits _ _ _ Hc Hs s1) as Hh.
      destruct (h s1) as [[r s2] t2]; cbn in *.
      apply Forall_app; split; assumption.
    + assumption.
Qed.

Lemma emits_for_each {A S} (xs : list A) (body : A -> S -> M S) (acc : S) :
  (forall x acc', emits_only P (body x acc')) ->
  emits_only P (for_each xs body acc).
Proof.
  intros Hb. revert acc. induction xs as [|x xs IH]; intros acc; cbn [for_each].
  - apply emits_ret.
  - apply emits_bind; [apply Hb | intros a; apply IH].
Qed.

End Facts.

Section Traces.

Context {Model Tokenizer : Type}.

Local Abbreviation M := (M Model Tokenizer).

(** The trace of [m] followed by [k] is the trace of [m], then that of
    [k] when [m] returned. *)
Lemma trace_bind {A B} (m : M A) (k : A -> M B) (s : State) :
  trace_of (bind m k s)
  = trace_of (m s)
    ++ match result_of (m s) with
       | Ok a => trace_of (k a (state_of (m s)))
       | Err _ => []
       end.
Proof.
  unfold bind. destruct (m s) as [[[a|e] s1] t1]; cbn.
  - destruct (k a s1) as [[r s2] t2]. reflexivity.
  - now rewrite app_nil_r.
Qed.

(** The trace of a [try] statement is the trace of its body, then that of
    the clause that caught what the body raised. *)
Lemma trace_try_except {A} (body : M A)
  (clauses : list ((pyexn -> bool) * (pyexn -> M A))) (s : State) :
  trace_of (try_except body clauses s)
  = trace_of (body s)
    ++ match result_of (body s) with
       | Ok _ => []
       | Err e =>
           match select_clause clauses e with
           | Some h => trace_of (h (state_of (body s)))
           | None => []
           end
       end.
Proof.
  unfold try_except. destruct (body s) as [[[a|e] s1] t1]; cbn.
  - now rewrite app_nil_r.
  - destruct (select_clause clauses e) as [h|]; cbn.
    + destruct (h s1) as [[r s2] t2]. reflexivity.
    + now rewrite app_nil_r.
Qed.

End Traces.

(** *** Calls of a trace *)

Section Calls.

Context {Model Tokenizer : Type}.

Local Abbreviation Event := (Event Model Tokenizer).

Lemma generate_calls_app (t1 t2 : list Event) :
  generate_calls (t1 ++ t2) = generate_calls t1 ++ generate_calls t2.
Proof.
  induction t1 as [|ev t1 IH]; [reflexivity|].
  destruct ev; cbn [app generate_calls]; rewrite IH; reflexivity.
Qed.

Lemma calls_app (t1 t2 : list Event) : calls (t1 ++ t2) = calls t1 ++ calls t2.
Proof. unfold calls. apply filter_app. Qed.

Lemma calls_prints (t : list Event) : prints t -> calls t = [].
Proof.
  induction 1 as [|ev t Hev _ IH]; [reflexivity|].
  destruct ev; try discriminate. cbn. exact IH.
Qed.

Lemma calls_forall (P : Event -> Prop) (t : list Event) :
  Forall P t -> Forall P (calls t).
Proof.
  intros H. apply Forall_forall. intros ev Hin.
  apply filter_In in Hin as [Hin _]. revert ev Hin. now apply Forall_forall.
Qed.

Lemma calls_quiet (t : list Event) : Forall quiet t -> calls t = [].
Proof.
  induction 1 as [|ev t Hev _ IH]; [reflexivity|].
  unfold calls in *. cbn [filter]. unfold quiet in Hev. now rewrite Hev.
Qed.

Lemma generate_calls_of_calls (t : list Event) :
  generate_calls (calls t) = generate_calls t.
Proof.
  induction t as [|ev t IH]; [reflexivity|].
  destruct ev; cbn; rewrite <- ?IH; reflexivity.
Qed.

End Calls.

Section ForEachIn.

Context {Model Tokenizer : Type}.

(** The rule of [for] that remembers where the element comes from. *)
Lemma emits_for_each_in {A S} (P : Event Model Tokenizer -> Prop)
  (xs : list A) (body : A -> S -> M Model Tokenizer S) (acc : S) :
  (forall x acc', In x xs -> emits_only P (body x acc')) ->
  emits_only P (for_each xs body acc).
Proof.
  revert acc. induction xs as [|x xs IH]; intros acc Hb; cbn [for_each].
  - apply emits_ret.
  - apply emits_bind.
    + apply Hb. now left.
    + intros a. apply IH. intros y acc' Hy. apply Hb. now right.
Qed.

End ForEachIn.

End MonadFacts.

(** One step of a proof that a computation emits only events of a kind:
    the rule of the head construct. *)
Ltac emits_step :=
  cbv beta iota zeta;
  lazymatch goal with
  | |- Props.emits_only _ (bind _ _) => apply MonadFacts.emits_bind; [ | intros ? ]
  | |- Props.emits_only _ (ret _) => apply MonadFacts.emits_ret
  | |- Props.emits_only _ (raise _) => apply MonadFacts.emits_raise
  | |- Props.emits_only _ (sys_exit _) => apply MonadFacts.emits_raise
  | |- Props.emits_only _ get => apply MonadFacts.emits_get
  | |- Props.emits_only _ (modify _) => apply MonadFacts.emits_modify
  | |- Props.emits_only _ (print _) => apply MonadFacts.emits_emit
  | |- Props.emits_only _ (emit _) => apply MonadFacts.emits_emit
  | |- Props.emits_only _ (time_time _) => apply MonadFacts.emits_time
  | |- Props.emits_only _ (truediv _ _ _) => apply MonadFacts.emits_truediv
  | |- Props.emits_only _ (load _ _) => apply MonadFacts.emits_load
  | |- Props.emits_only _ (generate _ _ _ _ _) => apply MonadFacts.emits_generate
  | |- Props.emits_only _ (try_except _ _) =>
      apply MonadFacts.emits_try_except;
      [ | repeat first [apply Forall_nil | apply Forall_cons; [cbn [snd]; intros ? | ]] ]
  | |- Props.emits_only _ (for_each _ _ _) =>
      apply MonadFacts.emits_for_each; intros ? ?
  | |- Props.emits_only _ (if ?b then _ else _) => destruct b
  | |- Props.emits_only _ (match ?x with _ => _ end) => destruct x
  end.

(** ** The chat *)

Module ChatFacts.

Import PyStr Props MonadFacts.

Section Facts.

Context {Model Tokenizer : Type}.
Variable W : World Model Tokenizer.
Variable self : Chat.LLaMAChat (Model:=Model) (Tokenizer:=Tokenizer).

Ltac run_chat :=
  unfold Chat.generate_response, Chat.generate_response_except, try_except, bind,
    get, time_time, generate, print, emit, ret;
  cbn [gen_calls clock_reads set_clock_reads set_gen_calls conversation_history
       rss_reads of_outcome app select_clause is_Exception fst snd].

(** [generate_response], case by case on how the library call ends. *)
Lemma generate_response_run (u : string) (s : State) :
  Chat.generate_response W self u s =
  let call := EvGenerate (Chat.model self) (Chat.tokenizer self)
                (Chat.format_prompt (conversation_history s) u)
                (chat_kwargs (Chat.max_tokens self) (Chat.temperature self)) in
  match chat_outcome W self u s with
  | Returns response =>
      (Ok (clean_response response), after_generate 2 s,
       [call;
        EvPrint [Str "Generated ";
                 Int (count_tokens W (Chat.tokenizer self) (clean_response response));
                 Str " tokens in ";
                 Num (w_time W (S (clock_reads s)) - w_time W (clock_reads s))%Q 2;
                 Str "s"]])
  | Raises msg =>
      (Ok Chat.apology, after_generate 1 s,
       [call; EvPrint [Str "Error generating response: "; ExnText (Exception msg)]])
  | Interrupted => (Err KeyboardInterrupt, after_generate 1 s, [call])
  end.
Proof.
  unfold chat_outcome, chat_kwargs. run_chat.
  destruct (w_generate _ _ _ _ _ _); reflexivity.
Qed.

Lemma lower_empty (u : string) : is_empty u = true -> lower u = "".
Proof. destruct u; [reflexivity | discriminate]. Qed.

Lemma lower_nonempty (u : string) : lower u <> "" -> is_empty u = false.
Proof. destruct u; [intros H; now elim H | reflexivity]. Qed.

(** Deciding the tests of the loop on a word that is known. *)
Ltac decide_tests :=
  repeat match goal with
  | |- context [mem ?a ?l] =>
      let v := eval vm_compute in (mem a l) in
      match v with
      | true => change (mem a l) with true
      | false => change (mem a l) with false
      end
  | |- context [String.eqb ?a ?b] =>
      let v := eval vm_compute in (String.eqb a b) in
      match v with
      | true => change (String.eqb a b) with true
      | false => change (String.eqb a b) with false
      end
  end;
  cbv beta iota.

Ltac run_iteration :=
  unfold Chat.chat_iteration, Chat.input;
  unfold try_except at 1; unfold bind at 1; unfold bind at 1; unfold emit at 1;
  unfold ret at 1;
  cbv beta iota zeta.

(** An empty input: [continue]. *)
Lemma iteration_empty (line : string) (s : State) :
  is_empty (strip line) = true ->
  Chat.chat_iteration W self (Some (Typed line)) s
  = (Ok Chat.Continue, s, [EvInput Chat.input_prompt]).
Proof. intros H. run_iteration. rewrite H. reflexivity. Qed.

(** quit, exit, bye: a goodbye and [break]. *)
Lemma iteration_exit (line : string) (s : State) :
  mem (lower (strip line)) exit_words = true ->
  Chat.chat_iteration W self (Some (Typed line)) s
  = (Ok Chat.Break, s,
     [EvInput Chat.input_prompt; EvPrint [Str "Goodbye! Thanks for chatting!"]]).
Proof.
  intros H. run_iteration.
  destruct (is_empty (strip line)) eqn:He.
  - apply lower_empty in He. rewrite He in H. discriminate.
  - unfold exit_words in H. rewrite H. reflexivity.
Qed.

(** clear: the history is emptied. *)
Lemma iteration_clear (line : string) (s : State) :
  lower (strip line) = "clear" ->
  Chat.chat_iteration W self (Some (Typed line)) s
  = (Ok Chat.Continue, set_history [] s,
     [EvInput Chat.input_prompt; EvPrint [Str "Conversation history cleared."]]).
Proof.
  intros H. run_iteration.
  rewrite (lower_nonempty (strip line)) by (rewrite H; discriminate).
  rewrite H. reflexivity.
Qed.

(** The three [show_] methods print and do nothing else. *)
Lemma show_help_run (s : State) :
  exists lines, Chat.show_help (Model:=Model) (Tokenizer:=Tokenizer) s
                = (Ok tt, s, map EvPrint lines).
Proof. eexists (_ :: _ :: _ :: _ :: _ :: _ :: _ :: [_]). reflexivity. Qed.

Lemma show_stats_run (s : State) :
  exists lines, Chat.show_stats self s = (Ok tt, s, map EvPrint lines).
Proof. eexists (_ :: _ :: _ :: _ :: _ :: _ :: [_]). reflexivity. Qed.

Lemma for_each_print {A} (f : A -> list Piece) (xs : list A) (s : State) :
  for_each (Model:=Model) (Tokenizer:=Tokenizer) xs (fun x _ => print (f x)) tt s
  = (Ok tt, s, map EvPrint (map f xs)).
Proof.
  induction xs as [|x xs IH]; cbn [for_each map].
  - reflexivity.
  - unfold bind at 1. unfold print at 1. unfold emit at 1. cbv beta iota.
    rewrite IH. reflexivity.
Qed.

Lemma show_history_run (s : State) :
  exists lines, Chat.show_history (Model:=Model) (Tokenizer:=Tokenizer) s
                = (Ok tt, s, map EvPrint lines).
Proof.
  unfold Chat.show_history, bind, get.
  destruct (conversation_history s) as [|msg h].
  - exists [[Str "No conversation history yet."]]. reflexivity.
  - unfold print at 1, emit. rewrite for_each_print.
    eexists (_ :: _). reflexivity.
Qed.

(** help, history, stats: something is shown and the history stays. *)
Lemma iteration_show (line : string) (s : State) :
  mem (lower (strip line)) show_words = true ->
  exists lines,
    Chat.chat_iteration W self (Some (Typed line)) s
    = (Ok Chat.Continue, s, EvInput Chat.input_prompt :: map EvPrint lines).
Proof.
  intros H. run_iteration.
  assert (He : is_empty (strip line) = false).
  { destruct (is_empty (strip line)) eqn:He; [|reflexivity].
    apply lower_empty in He. rewrite He in H. discriminate. }
  rewrite He. unfold show_words, mem in H. cbn [existsb] in H.
  destruct (lower (strip line) =? "help")%string eqn:H1;
    [|destruct (lower (strip line) =? "history")%string eqn:H2;
      [|destruct (lower (strip line) =? "stats")%string eqn:H3; [|discriminate]]].
  - apply String.eqb_eq in H1. rewrite H1.
    destruct (show_help_run s) as [lines E]. exists lines.
    decide_tests. unfold bind, ret. rewrite E. cbv beta iota.
    rewrite !app_nil_r. reflexivity.
  - apply String.eqb_eq in H2. rewrite H2.
    destruct (show_history_run s) as [lines E]. exists lines.
    decide_tests. unfold bind, ret. rewrite E. cbv beta iota.
    rewrite !app_nil_r. reflexivity.
  - apply String.eqb_eq in H3. rewrite H3.
    destruct (show_stats_run s) as [lines E]. exists lines.
    decide_tests. unfold bind, ret. rewrite E. cbv beta iota.
    rewrite !app_nil_r. reflexivity.
Qed.


Lemma is_message_tests (u : string) :
  is_message u = true ->
  is_empty u = false
  /\ mem (lower u) ["quit"; "exit"; "bye"] = false
  /\ (lower u =? "clear")%string = false
  /\ (lower u =? "help")%string = false
  /\ (lower u =? "history")%string = false
  /\ (lower u =? "stats")%string = false.
Proof.
  unfold is_message, exit_words, show_words, mem. cbn [app existsb].
  destruct (is_empty u); cbn [negb andb]; [discriminate|].
  destruct (lower u =? "quit")%string; [discriminate|].
  destruct (lower u =? "exit")%string; [discriminate|].
  destruct (lower u =? "bye")%string; [discriminate|].
  destruct (lower u =? "clear")%string; [discriminate|].
  destruct (lower u =? "help")%string; [discriminate|].
  destruct (lower u =? "history")%string; [discriminate|].
  destruct (lower u =? "stats")%string; [discriminate|].
  repeat split.
Qed.

(** A message for the model: the turn, case by case on how the library
    call ends. *)
Lemma iteration_message (line : string) (s : State) :
  is_message (strip line) = true ->
  let u := strip line in
  let h := conversation_history s in
  let s1 := set_history (h ++ [user_msg u]) s in
  let call := EvGenerate (Chat.model self) (Chat.tokenizer self)
                (Chat.format_prompt (h ++ [user_msg u]) u)
                (chat_kwargs (Chat.max_tokens self) (Chat.temperature self)) in
  let before := [EvInput Chat.input_prompt;
                 EvPrint [Str (nl ++ "LLaMA-2-13B: "); EndWith ""]; call] in
  Chat.chat_iteration W self (Some (Typed line)) s =
  match chat_outcome W self u s1 with
  | Returns response =>
      (Ok Chat.Continue,
       after_turn 2 (h ++ [user_msg u; assistant_msg (clean_response response)]) s,
       before ++
       [EvPrint [Str "Generated ";
                 Int (count_tokens W (Chat.tokenizer self) (clean_response response));
                 Str " tokens in ";
                 Num (w_time W (S (clock_reads s)) - w_time W (clock_reads s))%Q 2;
                 Str "s"];
        EvPrint [Str (clean_response response)]])
  | Raises msg =>
      (Ok Chat.Continue,
       after_turn 1 (h ++ [user_msg u; assistant_msg Chat.apology]) s,
       before ++
       [EvPrint [Str "Error generating response: "; ExnText (Exception msg)];
        EvPrint [Str Chat.apology]])
  | Interrupted =>
      (Ok Chat.Break, after_turn 1 (h ++ [user_msg u]) s,
       before ++ [EvPrint [Str (nl ++ nl ++ "Chat interrupted. Goodbye!")]])
  end.
Proof.
  intros Hm u h s1 call before.
  destruct (is_message_tests _ Hm) as (H0 & H1 & H2 & H3 & H4 & H5).
  run_iteration. rewrite H0, H1, H2, H3, H4, H5. fold u.
  unfold bind at 1. unfold Chat.add_to_history at 1. unfold modify at 1.
  cbv beta iota. unfold bind at 1. unfold print at 1. unfold emit at 1.
  cbv beta iota. unfold bind at 1. fold h. fold (user_msg u). fold s1.
  rewrite generate_response_run.
  cbv zeta. destruct (chat_outcome W self u s1); cbv beta iota.
  - unfold bind, print, emit, Chat.add_to_history, modify, ret. cbv beta iota.
    subst s1 call before. cbn. rewrite <- app_assoc. reflexivity.
  - unfold bind, print, emit, Chat.add_to_history, modify, ret. cbv beta iota.
    subst s1 call before. cbn. rewrite <- app_assoc. reflexivity.
  - subst s1 call before. cbn. reflexivity.
Qed.

(** Ctrl-C at the prompt and the end of the input: [break]. *)
Lemma iteration_ctrl_c (s : State) :
  Chat.chat_iteration W self (Some CtrlC) s
  = (Ok Chat.Break, s,
     [EvInput Chat.input_prompt;
      EvPrint [Str (nl ++ nl ++ "Chat interrupted. Goodbye!")]]).
Proof. reflexivity. Qed.

Lemma iteration_eof (s : State) :
  Chat.chat_iteration W self None s
  = (Ok Chat.Break, s,
     [EvInput Chat.input_prompt;
      EvPrint [Str (nl ++ nl ++ "End of input. Goodbye!")]]).
Proof. reflexivity. Qed.

(** Every stripped input falls in one of the five cases of the loop. *)
Lemma input_cases (u : string) :
  is_empty u = true
  \/ mem (lower u) exit_words = true
  \/ lower u = "clear"
  \/ mem (lower u) show_words = true
  \/ is_message u = true.
Proof.
  unfold is_message, exit_words, show_words, mem. cbn [app existsb].
  destruct (is_empty u); [now left | right].
  destruct (lower u =? "quit")%string; [now left|].
  destruct (lower u =? "exit")%string; [now left|].
  destruct (lower u =? "bye")%string; [now left|].
  destruct (lower u =? "clear")%string eqn:Hc;
    [right; left; now apply String.eqb_eq|].
  destruct (lower u =? "help")%string; [now right; right; left|].
  destruct (lower u =? "history")%string; [now right; right; left|].
  destruct (lower u =? "stats")%string; [now right; right; left|].
  now right; right; right.
Qed.

End Facts.

(** *** Alternation *)

Lemma alternating_app (b : bool) (h1 h2 : list Message) :
  alternating_from b (h1 ++ h2)
  = alternating_from b h1
    && alternating_from (if Nat.even (List.length h1) then b else negb b) h2.
Proof.
  revert b. induction h1 as [|msg h1 IH]; intros b.
  - reflexivity.
  - cbn [app alternating_from List.length]. rewrite IH, Nat.even_succ.
    rewrite <- Nat.negb_even. rewrite andb_assoc.
    destruct (Nat.even (List.length h1)); cbn [negb];
      rewrite ?negb_involutive; reflexivity.
Qed.

Lemma loop_inv_nil : loop_inv [].
Proof. split; reflexivity. Qed.

(** A complete turn keeps the invariant of the loop head. *)
Lemma loop_inv_turn (h : list Message) (u r : string) :
  loop_inv h -> loop_inv (h ++ [user_msg u; assistant_msg r]).
Proof.
  intros [Ha He]. split.
  - unfold alternates in *. rewrite alternating_app, Ha, He. reflexivity.
  - rewrite length_app. cbn [List.length]. rewrite Nat.even_add, He. reflexivity.
Qed.

(** An interrupted turn leaves the roles alternating. *)
Lemma alternates_user (h : list Message) (u : string) :
  loop_inv h -> alternates (h ++ [user_msg u]).
Proof.
  intros [Ha He]. unfold alternates in *.
  rewrite alternating_app, Ha, He. reflexivity.
Qed.

Lemma alternating_valid (b : bool) (h : list Message) :
  alternating_from b h = true -> Forall valid_role h.
Proof.
  revert b. induction h as [|msg h IH]; intros b H; constructor.
  - cbn in H. apply andb_prop in H as [H _]. apply String.eqb_eq in H.
    destruct b; [left | right]; exact H.
  - cbn in H. apply andb_prop in H as [_ H]. now apply IH in H.
Qed.

Section Loop.

Context {Model Tokenizer : Type}.
Variable W : World Model Tokenizer.
Variable self : Chat.LLaMAChat (Model:=Model) (Tokenizer:=Tokenizer).

(** What one pass through the loop body does to the history. *)
Lemma iteration_history (key : option Keyboard) (s : State) :
  let r := Chat.chat_iteration W self key s in
  let h := conversation_history s in
  let h' := conversation_history (state_of r) in
  match key with
  | Some (Typed line) =>
      let u := strip line in
      (is_empty u = true \/ mem (lower u) (exit_words ++ show_words) = true -> h' = h)
      /\ (lower u = "clear" -> h' = [] /\ result_of r = Ok Chat.Continue)
      /\ (is_message u = true ->
          match chat_outcome W self u (set_history (h ++ [user_msg u]) s) with
          | Returns response =>
              h' = h ++ [user_msg u; assistant_msg (clean_response response)]
              /\ result_of r = Ok Chat.Continue
          | Raises _ =>
              h' = h ++ [user_msg u; assistant_msg Chat.apology]
              /\ result_of r = Ok Chat.Continue
          | Interrupted =>
              h' = h ++ [user_msg u] /\ result_of r = Ok Chat.Break
          end)
  | _ => h' = h /\ result_of r = Ok Chat.Break
  end.
Proof.
  intros r h h'. destruct key as [[line|]|].
  - cbv zeta. split; [|split].
    + intros [H|H].
      * subst h' r. now rewrite iteration_empty.
      * unfold mem in H. rewrite existsb_app in H. apply orb_prop in H as [H|H].
        -- subst h' r. now rewrite iteration_exit.
        -- subst h' r. destruct (iteration_show W self line s H) as [lines E].
           now rewrite E.
    + intros H. subst h' r. now rewrite iteration_clear.
    + intros H. subst h' r. rewrite (iteration_message W self line s H).
      cbv zeta. destruct (chat_outcome _ _ _ _); split; reflexivity.
  - split; reflexivity.
  - split; reflexivity.
Qed.

(** One pass keeps the roles alternating, and keeps the invariant of the
    loop head whenever the loop goes on. *)
Lemma iteration_inv (key : option Keyboard) (s : State) :
  loop_inv (conversation_history s) ->
  let r := Chat.chat_iteration W self key s in
  alternates (conversation_history (state_of r))
  /\ (result_of r = Ok Chat.Continue -> loop_inv (conversation_history (state_of r))).
Proof.
  intros Hinv r. pose proof (iteration_history key s) as Hh. cbv zeta in Hh. fold r in Hh.
  destruct key as [[line|]|].
  - destruct Hh as (Hsame & Hclear & Hmsg).
    destruct (input_cases (strip line)) as [H|[H|[H|[H|H]]]].
    + rewrite Hsame by now left. split; [apply Hinv | intros _; apply Hinv].
    + rewrite Hsame by (right; unfold mem; rewrite existsb_app; apply orb_true_iff; now left).
      split; [apply Hinv | intros _; apply Hinv].
    + destruct (Hclear H) as [-> _]. split; [reflexivity | intros _; apply loop_inv_nil].
    + rewrite Hsame by (right; unfold mem; rewrite existsb_app; apply orb_true_iff; now right).
      split; [apply Hinv | intros _; apply Hinv].
    + specialize (Hmsg H).
      destruct (chat_outcome _ _ _ _); destruct Hmsg as [-> Hr].
      * pose proof (loop_inv_turn _ (strip line) (clean_response a) Hinv) as Ht.
        split; [apply Ht | intros _; apply Ht].
      * pose proof (loop_inv_turn _ (strip line) Chat.apology Hinv) as Ht.
        split; [apply Ht | intros _; apply Ht].
      * split; [now apply alternates_user | rewrite Hr; discriminate].
  - destruct Hh as [-> Hr]. split; [apply Hinv | rewrite Hr; discriminate].
  - destruct Hh as [-> Hr]. split; [apply Hinv | rewrite Hr; discriminate].
Qed.

(** The whole loop, from a history that satisfies the invariant. *)
Lemma chat_loop_alternates (keys : list Keyboard) (s : State) :
  loop_inv (conversation_history s) ->
  alternates (conversation_history (state_of (Chat.chat_loop W self keys s))).
Proof.
  revert s. induction keys as [|key keys IH]; intros s Hinv; cbn [Chat.chat_loop].
  - unfold bind. rewrite (iteration_eof W self). exact (proj1 Hinv).
  - unfold bind at 1.
    destruct (iteration_inv (Some key) s Hinv) as [Ha Hc]. cbv zeta in Ha, Hc.
    destruct (Chat.chat_iteration W self (Some key) s) as [[[flow|e] s1] t1];
      cbn [state_of result_of fst snd] in *.
    + destruct flow.
      * specialize (IH s1 (Hc eq_refl)).
        destruct (Chat.chat_loop W self keys s1) as [[r2 s2] t2]. exact IH.
      * exact Ha.
    + exact Ha.
Qed.

End Loop.

Section Events.
Context {Model Tokenizer : Type}.
Variable W : World Model Tokenizer.
Variable self : Chat.LLaMAChat (Model:=Model) (Tokenizer:=Tokenizer).
Ltac chat_unfold :=
  unfold Chat.chat, Chat.chat_iteration, Chat.input, Chat.generate_response,
    Chat.generate_response_except, Chat.show_help, Chat.show_history,
    Chat.show_stats, Chat.clear_history, Chat.add_to_history,
    Chat.chat_except_KeyboardInterrupt, Chat.chat_except_EOFError.

(** Whatever is typed, the loop only prints, reads the keyboard and calls
    [generate] with the model and the tokenizer of the object. *)
Lemma chat_loop_events (keys : list Keyboard) :
  emits_only
    (after_load_event (Chat.model self, Chat.tokenizer self)
       (chat_call (Chat.max_tokens self) (Chat.temperature self)))
    (Chat.chat_loop W self keys).
Proof.
  induction keys as [|key keys IH]; cbn [Chat.chat_loop].
  - chat_unfold. repeat emits_step; try exact I.
    cbn. repeat split. eexists _, _. reflexivity.
  - apply MonadFacts.emits_bind; [|intros [|]; [exact IH | apply MonadFacts.emits_ret]].
    chat_unfold. repeat emits_step; try exact I.
    cbn. repeat split. eexists _, _. reflexivity.
Qed.

End Events.

Section Main.

Context {Model Tokenizer : Type}.
Variable W : World Model Tokenizer.

(** [main] up to the loop: the command line is parsed, [load] is called
    once, and the loop starts from the empty history when [load] returned. *)
Lemma main_run (argv : Chat.Args) (keys : list Keyboard) (s : State) :
  exists before between,
    prints before /\ prints between /\
    Chat.main W argv keys s =
    let path := or_default (Chat.args_model argv) in
    match w_load W path with
    | Returns mt =>
        let r := Chat.chat_loop W (chat_self argv mt) keys (set_history [] s) in
        (result_of r, state_of r,
         EvParseArgs :: before ++ EvLoad path :: between ++ trace_of r)
    | Raises msg =>
        (Err (Exception msg), set_history [] s, EvParseArgs :: before ++ [EvLoad path])
    | Interrupted =>
        (Err KeyboardInterrupt, set_history [] s, EvParseArgs :: before ++ [EvLoad path])
    end.
Proof.
  eexists (_ :: _ :: _ :: _ :: _ :: [_]), (_ :: _ :: _ :: _ :: _ :: [_]).
  split; [|split]; cycle 2.
  - unfold Chat.main, Chat.__init__, Chat.chat, Chat.parse_args.
    unfold bind, print, emit, modify, load, ret. cbv zeta.
    destruct (w_load W (or_default (Chat.args_model argv))) as [mt|msg|];
      cbn [of_outcome]; cbv beta iota.
    + fold (chat_self argv mt).
      destruct (Chat.chat_loop W (chat_self argv mt) keys (set_history [] s))
        as [[r s'] t].
      cbn [result_of state_of trace_of fst snd app]. reflexivity.
    + cbn [app]. reflexivity.
    + cbn [app]. reflexivity.
  - repeat constructor.
  - repeat constructor.
Qed.

(** From any state, [main] leaves a history whose roles alternate. *)
Lemma main_alternates (argv : Chat.Args) (keys : list Keyboard) (s : State) :
  alternates (conversation_history (state_of (Chat.main W argv keys s))).
Proof.
  destruct (main_run argv keys s) as (before & between & _ & _ & E).
  rewrite E. cbv zeta.
  destruct (w_load W (or_default (Chat.args_model argv))) as [mt|msg|].
  - cbn [state_of fst snd]. apply chat_loop_alternates. apply loop_inv_nil.
  - reflexivity.
  - reflexivity.
Qed.

(** The calls of the chat's [main]. *)
Lemma main_shape_chat (argv : Chat.Args) (keys : list Keyboard) (s : State) :
  main_shape W (chat_call (Chat.args_max_tokens argv) (Chat.args_temperature argv))
    (trace_of (Chat.main W argv keys s)).
Proof.
  destruct (main_run argv keys s) as (before & between & Hb & Hbt & E).
  rewrite E. cbv zeta.
  exists (or_default (Chat.args_model argv)).
  destruct (w_load W (or_default (Chat.args_model argv))) as [mt|msg|] eqn:Hload.
  - exists (calls (trace_of (Chat.chat_loop W (chat_self argv mt) keys (set_history [] s)))).
    split.
    + cbn [trace_of snd]. change (calls (?x :: ?l)) with (x :: calls l).
      rewrite calls_app. rewrite (calls_prints before Hb). cbn [app].
      change (calls (EvLoad ?p :: ?l)) with (EvLoad (Model:=Model) (Tokenizer:=Tokenizer) p :: calls l).
      rewrite calls_app. rewrite (calls_prints between Hbt). reflexivity.
    + apply calls_forall.
      apply (chat_loop_events W (chat_self argv mt) keys).
  - exists []. split; [|reflexivity].
    cbn [trace_of snd]. change (calls (?x :: ?l)) with (x :: calls l).
    rewrite calls_app, (calls_prints before Hb). reflexivity.
  - exists []. split; [|reflexivity].
    cbn [trace_of snd]. change (calls (?x :: ?l)) with (x :: calls l).
    rewrite calls_app, (calls_prints before Hb). reflexivity.
Qed.

End Main.

End ChatFacts.

(** C8: from a history that satisfies the invariant of the loop head (the
    roles alternate from "user" and the entries come in pairs; the empty
    history that [__init__] sets is one), every pass through the body of
    the chat loop leaves a history whose entries have role "user" or
    "assistant" and alternate from "user", and the invariant of the loop
    head again whenever the loop goes on; so does the whole loop, and so
    does [main] from any state.  A message for the model whose turn
    completes appends exactly two entries, the user message and then the
    assistant message, which is the apology when [generate] raised (a
    turn cut by Ctrl-C during [generate] leaves only the user message and
    ends the loop); the empty input and quit, exit, bye, help, history and
    stats leave the history as it is; clear empties it. *)
Theorem C8_chat_history_invariant {Model Tokenizer : Type}
  (W : World Model Tokenizer)
  (self : Chat.LLaMAChat (Model:=Model) (Tokenizer:=Tokenizer))
  (s : State) (line : string) :
  Props.loop_inv (conversation_history s) ->
  let h := conversation_history s in
  let u := PyStr.strip line in
  let after key := conversation_history (state_of (Chat.chat_iteration W self key s)) in
  let flow key := result_of (Chat.chat_iteration W self key s) in
  (forall key,
      Props.alternates (after key)
      /\ Forall Props.valid_role (after key)
      /\ (flow key = Ok Chat.Continue -> Props.loop_inv (after key)))
  /\ (forall keys,
      Props.alternates (conversation_history (state_of (Chat.chat_loop W self keys s))))
  /\ (forall (argv : Chat.Args) keys s0,
      Props.alternates (conversation_history (state_of (Chat.main W argv keys s0))))
  /\ (Props.is_message u = true ->
      match Props.chat_outcome W self u (set_history (h ++ [Props.user_msg u]) s) with
      | Returns response =>
          after (Some (Typed line))
          = h ++ [Props.user_msg u; Props.assistant_msg (Props.clean_response response)]
      | Raises _ =>
          after (Some (Typed line))
          = h ++ [Props.user_msg u; Props.assistant_msg Chat.apology]
      | Interrupted =>
          after (Some (Typed line)) = h ++ [Props.user_msg u]
          /\ flow (Some (Typed line)) = Ok Chat.Break
      end)
  /\ (PyStr.is_empty u = true
      \/ PyStr.mem (PyStr.lower u) ["quit"; "exit"; "bye"; "help"; "history"; "stats"] = true ->
      after (Some (Typed line)) = h)
  /\ (PyStr.lower u = "clear" -> after (Some (Typed line)) = [])
  /\ after (Some CtrlC) = h
  /\ after None = h.
Proof.
  intros Hinv h u after flow.
  pose proof (ChatFacts.iteration_history W self (Some (Typed line)) s) as Hh.
  cbv zeta in Hh. destruct Hh as (Hsame & Hclear & Hmsg).
  split; [|split; [|split; [|split; [|split; [|split; [|split]]]]]].
  - intros key.
    destruct (ChatFacts.iteration_inv W self key s Hinv) as [Ha Hc].
    split; [exact Ha | split; [exact (ChatFacts.alternating_valid true _ Ha) | exact Hc]].
  - intros keys. apply ChatFacts.chat_loop_alternates, Hinv.
  - intros argv keys s0. apply ChatFacts.main_alternates.
  - intros Hm. specialize (Hmsg Hm). fold u h in Hmsg.
    destruct (Props.chat_outcome W self u _); destruct Hmsg as [E Hr];
      [exact E | exact E | split; [exact E | exact Hr]].
  - exact Hsame.
  - intros Hc. apply (Hclear Hc).
  - reflexivity.
  - reflexivity.
Qed.

(** The theorem at work: in the world where [generate] raises, the line
    " Hi " typed on the empty history. *)
Lemma C8_chat_history_invariant_witness :
  Props.loop_inv (conversation_history initial_state)
  /\ conversation_history
       (state_of (Chat.chat_iteration Sample.W_boom Sample.self (Some (Typed " Hi "))
                    initial_state))
     = [Props.user_msg "Hi"; Props.assistant_msg Chat.apology].
Proof.
  split.
  - split; reflexivity.
  - assert (Hinv : Props.loop_inv (conversation_history initial_state))
      by (split; reflexivity).
    pose proof (C8_chat_history_invariant Sample.W_boom Sample.self initial_state
                  " Hi " Hinv) as H.
    cbv zeta in H. destruct H as (_ & _ & _ & Hm & _).
    exact (Hm eq_refl).
Defined.

(** ** The runner *)

Module RunFacts.

Import PyStr Props MonadFacts.

Section Facts.

Context {Model Tokenizer : Type}.
Variable W : World Model Tokenizer.

Ltac run_all :=
  unfold RunLlama.main, RunLlama.parse_args, RunLlama.load_model,
    RunLlama.load_model_except, RunLlama.generate_text,
    RunLlama.generate_text_except, truediv, sys_exit, raise,
    try_except, bind, print, emit, load, generate, time_time, ret;
  cbv zeta.

(** [load_model], case by case on how [load] ends. *)
Lemma load_model_run (model_path : option string) (s : State) :
  let path := load_path model_path in
  RunLlama.load_model W model_path s =
  match w_load W path with
  | Returns mt =>
      (Ok mt, s,
       [EvPrint [Str "Loading model: "; Str path]; EvLoad path;
        EvPrint [Str "Model loaded successfully!"]])
  | Raises msg =>
      (Err (SystemExit 1), s,
       [EvPrint [Str "Loading model: "; Str path]; EvLoad path;
        EvPrint [Str "Error loading model: "; ExnText (Exception msg)];
        EvPrint [Str "Make sure you have sufficient memory (32GB+ recommended)"]])
  | Interrupted =>
      (Err KeyboardInterrupt, s,
       [EvPrint [Str "Loading model: "; Str path]; EvLoad path])
  end.
Proof.
  run_all. unfold load_path.
  destruct model_path as [p|]; destruct (w_load W _); reflexivity.
Qed.

(** The calls of [main]: [parse_args], then [load], then one [generate]
    with what [load] returned when it returned. *)
Lemma run_main_calls (argv : RunLlama.Args) (s : State) :
  let path := load_path (RunLlama.args_model argv) in
  calls (trace_of (RunLlama.main W argv s)) =
  EvParseArgs :: EvLoad path ::
  match w_load W path with
  | Returns mt =>
      [EvGenerate (fst mt) (snd mt) (RunLlama.args_prompt argv)
         (run_kwargs (RunLlama.args_max_tokens argv) (RunLlama.args_temperature argv))]
  | _ => []
  end.
Proof.
  run_all. unfold run_kwargs.
  destruct (RunLlama.args_model argv) as [p|]; cbn [load_path];
    destruct (w_metal_available W);
    destruct (w_load W _) as [mt|msg|]; cbn [of_outcome]; cbv beta iota;
    try reflexivity;
    destruct (w_generate W _ _ _ _ _) as [response|msg|]; cbn [of_outcome]; cbv beta iota;
    try reflexivity;
    destruct (Qeq_bool _ 0); cbv beta iota;
    repeat match goal with
           | |- context [if ?b then _ else _] => destruct b
           end;
    reflexivity.
Qed.

(** The calls of the runner's [main]. *)
Lemma main_shape_run (argv : RunLlama.Args) (s : State) :
  main_shape W (run_call argv) (trace_of (RunLlama.main W argv s)).
Proof.
  exists (load_path (RunLlama.args_model argv)).
  pose proof (run_main_calls argv s) as E. cbv zeta in E.
  destruct (w_load W (load_path (RunLlama.args_model argv))) as [mt|msg|].
  - eexists. split; [exact E|].
    constructor; [|constructor]. cbn. repeat split.
  - exists []. split; [exact E | reflexivity].
  - exists []. split; [exact E | reflexivity].
Qed.

End Facts.

End RunFacts.

(** ** The benchmark *)

Module BenchFacts.

Import PyStr Props MonadFacts.

(** *** Sums and divisions *)

Lemma fold_sum_pos (l : list Q) (acc : Q) :
  (0 < acc)%Q -> Forall (fun x => (0 < x)%Q) l -> (0 < fold_left Qplus l acc)%Q.
Proof.
  revert acc. induction l as [|x l IH]; intros acc Hacc Hl; cbn [fold_left].
  - exact Hacc.
  - inversion Hl as [|? ? Hx Hl']; subst. apply IH; [|exact Hl'].
    setoid_replace 0%Q with (0 + 0)%Q by reflexivity.
    apply Qplus_lt_le_compat; [exact Hacc | now apply Qlt_le_weak].
Qed.

(** The sum of a non-empty list of positive numbers is positive. *)
Lemma sum_pos (l : list Q) :
  l <> [] -> Forall (fun x => (0 < x)%Q) l -> (0 < PyList.sum l)%Q.
Proof.
  intros Hne Hl. destruct l as [|x l]; [now elim Hne|].
  unfold PyList.sum. cbn [fold_left]. inversion Hl as [|? ? Hx Hl']; subst.
  apply fold_sum_pos; [|exact Hl'].
  now rewrite Qplus_0_l.
Qed.

Lemma count_nonzero (n : nat) : 0 < n -> ~ (inject_Z (Z.of_nat n) == 0)%Q.
Proof.
  intros Hn H. unfold Qeq in H. cbn in H. lia.
Qed.

Lemma count_pos (n : nat) : 0 < n -> (0 < inject_Z (Z.of_nat n))%Q.
Proof. intros Hn. unfold Qlt. cbn. lia. Qed.

Section Div.

Context {Model Tokenizer : Type}.

(** A division by a number that is not zero returns the quotient. *)
Lemma truediv_ok (lineno : nat) (a b : Q) (s : State) :
  ~ (b == 0)%Q ->
  truediv (Model:=Model) (Tokenizer:=Tokenizer) lineno a b s = (Ok (a / b)%Q, s, []).
Proof.
  intros Hb. unfold truediv.
  destruct (Qeq_bool b 0) eqn:E; [|reflexivity].
  apply Qeq_bool_iff in E. contradiction.
Qed.

(** A division by zero raises, with the line of the division. *)
Lemma truediv_zero (lineno : nat) (a b : Q) (s : State) :
  (b == 0)%Q ->
  truediv (Model:=Model) (Tokenizer:=Tokenizer) lineno a b s
  = (Err (ZeroDivisionError lineno), s, []).
Proof.
  intros Hb. unfold truediv. apply Qeq_bool_iff in Hb. now rewrite Hb.
Qed.

End Div.

Lemma quotient_pos (a b : Q) : (0 < a)%Q -> (0 < b)%Q -> (0 < a / b)%Q.
Proof.
  intros Ha Hb. apply Qlt_shift_div_l; [exact Hb|]. now rewrite Qmult_0_l.
Qed.

Lemma pos_nonzero (a : Q) : (0 < a)%Q -> ~ (a == 0)%Q.
Proof. intros Ha H. rewrite H in Ha. now apply Qlt_irrefl in Ha. Qed.

(** *** The loop over the runs *)

Section Runs.

Context {Model Tokenizer : Type}.
Variable W : World Model Tokenizer.
Variables (model : Model) (tokenizer : Tokenizer) (prompt : string).

Hypothesis Hgen : generate_returns W.
Hypothesis Hclock : clock_advances W.

(** One run appends one positive duration and one token count, and calls
    [generate] once. *)
Lemma run_body_ok (run : nat) (acc : list Q * list Z) (s : State) :
  exists d c s' t,
    Benchmark.run_body W model tokenizer prompt run acc s
    = (Ok (fst acc ++ [d], snd acc ++ [c]), s', t)
    /\ (0 < d)%Q
    /\ generate_calls t = [(prompt, Benchmark.bench_kwargs)].
Proof.
  unfold Benchmark.run_body, bind, time_time, generate, print, emit, ret. cbv zeta.
  cbn [gen_calls clock_reads set_clock_reads set_gen_calls].
  destruct (Hgen (gen_calls s) model tokenizer prompt Benchmark.bench_kwargs)
    as [response E].
  rewrite E. cbn [of_outcome]. cbv beta iota.
  destruct (Nat.eqb run 0); cbv beta iota;
    (do 4 eexists; split; [reflexivity | split; [|reflexivity]]);
    unfold Qminus; rewrite <- Qlt_minus_iff; apply Hclock.
Qed.

(** The loop over [n] runs appends [n] positive durations and [n] token
    counts, and calls [generate] [n] times. *)
Lemma runs_ok (n a : nat) (acc : list Q * list Z) (s : State) :
  exists ds cs s' t,
    for_each (seq a n) (Benchmark.run_body W model tokenizer prompt) acc s
    = (Ok (fst acc ++ ds, snd acc ++ cs), s', t)
    /\ List.length ds = n /\ List.length cs = n
    /\ Forall (fun d => (0 < d)%Q) ds
    /\ generate_calls t = List.repeat (prompt, Benchmark.bench_kwargs) n.
Proof.
  revert a acc s. induction n as [|n IH]; intros a acc s; cbn [seq for_each].
  - exists [], [], s, []. rewrite !app_nil_r. destruct acc. repeat split. constructor.
  - destruct (run_body_ok a acc s) as (d & c & s1 & t1 & E1 & Hd & Hc1).
    destruct (IH (S a) (fst acc ++ [d], snd acc ++ [c]) s1)
      as (ds & cs & s2 & t2 & E2 & Hlen & Hlen' & Hpos & Hc2).
    exists (d :: ds), (c :: cs), s2, (t1 ++ t2).
    unfold bind. rewrite E1, E2. cbn [fst snd]. rewrite <- !app_assoc.
    split; [reflexivity|]. cbn [List.length]. repeat split; try congruence.
    + constructor; assumption.
    + rewrite generate_calls_app, Hc1, Hc2. reflexivity.
Qed.

(** One prompt, with at least one run: both averages divide the sum of
    exactly [num_runs] samples by [num_runs], the average time is
    positive, the three divisions return and one more result is
    appended. *)
Lemma prompt_body_ok (num_runs : Z) (i : nat) (results : list Benchmark.BenchResult)
  (s : State) :
  (1 <= num_runs)%Z ->
  exists r ds cs s' t,
    Benchmark.prompt_body W model tokenizer num_runs (i, prompt) results s
    = (Ok (results ++ [r]), s', t)
    /\ List.length ds = Z.to_nat num_runs
    /\ List.length cs = Z.to_nat num_runs
    /\ Benchmark.avg_generation_time r
       = (PyList.sum ds / inject_Z (Z.of_nat (Z.to_nat num_runs)))%Q
    /\ Benchmark.avg_output_tokens r
       = (PyList.sum (map inject_Z cs) / inject_Z (Z.of_nat (Z.to_nat num_runs)))%Q
    /\ (0 < Benchmark.avg_generation_time r)%Q
    /\ generate_calls t
       = List.repeat (prompt, Benchmark.bench_kwargs) (Z.to_nat num_runs).
Proof.
  intros Hn.
  assert (Hpos : 0 < Z.to_nat num_runs) by lia.
  unfold Benchmark.prompt_body. cbn [fst snd]. unfold PyList.range.
  destruct (runs_ok (Z.to_nat num_runs) 0 ([], []) (s))
    as (ds & cs & s1 & t1 & E1 & Hds & Hcs & Hdpos & Hcalls).
  cbn [fst snd app] in E1.
  assert (Hsum : (0 < PyList.sum ds)%Q).
  { apply sum_pos; [|exact Hdpos]. intros ->. cbn in Hds. lia. }
  assert (Havg : (0 < PyList.sum ds / inject_Z (Z.of_nat (List.length ds)))%Q).
  { apply quotient_pos; [exact Hsum | apply count_pos; lia]. }
  eexists _, ds, cs, _, _.
  split.
  - unfold bind at 1. unfold print at 1. unfold emit at 1. cbv beta iota.
    unfold bind at 1. unfold print at 1. unfold emit at 1. cbv beta iota.
    unfold bind at 1. rewrite E1. cbv beta iota zeta. cbn [fst snd].
    unfold bind at 1. rewrite truediv_ok by (apply count_nonzero; lia).
    cbv beta iota.
    unfold bind at 1. rewrite truediv_ok by (apply count_nonzero; lia).
    cbv beta iota.
    unfold bind at 1. rewrite truediv_ok by (apply pos_nonzero; exact Havg).
    cbv beta iota.
    unfold bind, print, emit, ret. cbv beta iota. reflexivity.
  - cbn [Benchmark.avg_generation_time Benchmark.avg_output_tokens].
    rewrite <- Hds at 3. rewrite <- Hcs at 3.
    repeat split; try assumption; try reflexivity.
    rewrite !generate_calls_app. cbn [generate_calls app].
    rewrite Hcalls, !app_nil_r. reflexivity.
Qed.

End Runs.

(** *** The loop over the prompts and [benchmark_model] *)

Section Prompts.

Context {Model Tokenizer : Type}.
Variable W : World Model Tokenizer.
Variables (model : Model) (tokenizer : Tokenizer).

Hypothesis Hgen : generate_returns W.
Hypothesis Hclock : clock_advances W.

Lemma prompts_ok (num_runs : Z) (ips : list (nat * string))
  (results : list Benchmark.BenchResult) (s : State) :
  (1 <= num_runs)%Z ->
  exists rs s' t,
    for_each ips (Benchmark.prompt_body W model tokenizer num_runs) results s
    = (Ok (results ++ rs), s', t)
    /\ List.length rs = List.length ips
    /\ Forall (fun r => (0 < Benchmark.avg_generation_time r)%Q) rs
    /\ generate_calls t
       = flat_map (fun ip => List.repeat (snd ip, Benchmark.bench_kwargs)
                               (Z.to_nat num_runs)) ips.
Proof.
  intros Hn. revert results s.
  induction ips as [|[i prompt] ips IH]; intros results s; cbn [for_each flat_map].
  - exists [], s, []. rewrite app_nil_r. repeat split. constructor.
  - destruct (prompt_body_ok W model tokenizer prompt Hgen Hclock num_runs i results s Hn)
      as (r & ds & cs & s1 & t1 & E1 & _ & _ & _ & _ & Hr & Hc1).
    destruct (IH (results ++ [r]) s1) as (rs & s2 & t2 & E2 & Hlen & Hpos & Hc2).
    exists (r :: rs), s2, (t1 ++ t2).
    unfold bind. rewrite E1, E2. rewrite <- app_assoc. cbn [app List.length snd].
    repeat split.
    + congruence.
    + constructor; assumption.
    + rewrite generate_calls_app, Hc1, Hc2. reflexivity.
Qed.

(** [benchmark_model] with at least one run, in a world where [load] and
    [generate] return and the clock advances: it returns one result per
    prompt, and its [generate] calls are [num_runs] calls for each prompt
    in turn. *)
Lemma benchmark_model_ok (model_path : option string) (num_runs : Z) (s : State) :
  (1 <= num_runs)%Z ->
  w_load W (or_default model_path) = Returns (model, tokenizer) ->
  exists results s' t,
    Benchmark.benchmark_model W model_path num_runs s = (Ok results, s', t)
    /\ List.length results = List.length Benchmark.test_prompts
    /\ generate_calls t
       = flat_map (fun p => List.repeat (p, Benchmark.bench_kwargs) (Z.to_nat num_runs))
           Benchmark.test_prompts.
Proof.
  intros Hn Hload.
  unfold Benchmark.benchmark_model.
  do 4 (unfold bind at 1; unfold print at 1; unfold emit at 1; cbv beta iota).
  unfold bind at 1. unfold Benchmark.get_memory_usage at 1. cbv beta iota.
  unfold bind at 1. unfold time_time at 1. cbv beta iota.
  unfold bind at 1. unfold load at 1. rewrite Hload. cbn [of_outcome fst snd].
  cbv beta iota zeta.
  unfold bind at 1. unfold time_time at 1. cbv beta iota.
  unfold bind at 1. unfold Benchmark.get_memory_usage at 1. cbv beta iota.
  do 3 (unfold bind at 1; unfold print at 1; unfold emit at 1; cbv beta iota).
  unfold bind at 1.
  match goal with
  | |- context [for_each ?ips _ ?acc ?s1] =>
      destruct (prompts_ok num_runs ips acc s1 Hn) as (rs & s2 & t2 & E & Hlen & Hpos & Hc)
  end.
  rewrite E. cbn [app]. cbv beta iota.
  unfold bind at 1. unfold print at 1. unfold emit at 1. cbv beta iota.
  unfold bind at 1.
  assert (Htime : (0 < PyList.sum (map Benchmark.avg_generation_time rs))%Q).
  { apply sum_pos.
    - destruct rs; [discriminate Hlen | discriminate].
    - apply Forall_map. exact Hpos. }
  rewrite truediv_ok by (apply pos_nonzero; exact Htime).
  cbv beta iota.
  unfold bind, print, emit, ret. cbv beta iota.
  eexists _, _, _. split; [reflexivity|]. split.
  - rewrite Hlen. rewrite length_combine, length_seq. apply Nat.min_id.
  - cbn [generate_calls app]. rewrite !generate_calls_app. cbn [generate_calls app].
    rewrite Hc, !app_nil_r. reflexivity.
Qed.

(** With no run at all the first average divides by zero, whatever the
    world, as soon as [load] returned; [generate] is not called. *)
Lemma benchmark_model_zero (model_path : option string) (s : State) :
  w_load W (or_default model_path) = Returns (model, tokenizer) ->
  exists s' t,
    Benchmark.benchmark_model W model_path 0 s = (Err (ZeroDivisionError 92), s', t)
    /\ generate_calls t = [].
Proof.
  intros Hload.
  unfold Benchmark.benchmark_model.
  do 4 (unfold bind at 1; unfold print at 1; unfold emit at 1; cbv beta iota).
  unfold bind at 1. unfold Benchmark.get_memory_usage at 1. cbv beta iota.
  unfold bind at 1. unfold time_time at 1. cbv beta iota.
  unfold bind at 1. unfold load at 1. rewrite Hload. cbn [of_outcome fst snd].
  cbv beta iota zeta.
  unfold bind at 1. unfold time_time at 1. cbv beta iota.
  unfold bind at 1. unfold Benchmark.get_memory_usage at 1. cbv beta iota.
  do 3 (unfold bind at 1; unfold print at 1; unfold emit at 1; cbv beta iota).
  unfold bind at 1.
  unfold Benchmark.test_prompts. cbn [List.length seq combine for_each].
  unfold bind at 1. unfold Benchmark.prompt_body at 1. cbn [fst snd].
  do 2 (unfold bind at 1; unfold print at 1; unfold emit at 1; cbv beta iota).
  unfold bind at 1. unfold PyList.range. cbn [Z.to_nat seq for_each].
  unfold ret at 1. cbv beta iota zeta. cbn [fst snd List.length].
  unfold bind at 1. rewrite truediv_zero by reflexivity. cbv beta iota.
  eexists _, _. split; reflexivity.
Qed.

End Prompts.

(** *** Which exceptions the benchmark raises *)

Section Post.

Context {Model Tokenizer : Type}.
Variable W : World Model Tokenizer.

Local Abbreviation M := (M Model Tokenizer).

Variable E : pyexn -> Prop.

Lemma post_ret {A} (a : A) (Q : A -> Prop) :
  Q a -> post (ret (Model:=Model) (Tokenizer:=Tokenizer) a) Q E.
Proof. intros H s. exact H. Qed.

Lemma post_bind {A B} (m : M A) (k : A -> M B) (Q1 : A -> Prop) (Q2 : B -> Prop) :
  post m Q1 E -> (forall a, Q1 a -> post (k a) Q2 E) -> post (bind m k) Q2 E.
Proof.
  intros Hm Hk s. unfold bind. specialize (Hm s).
  destruct (m s) as [[[a|e] s1] t1]; cbn in *.
  - specialize (Hk a Hm s1). destruct (k a s1) as [[r s2] t2]. exact Hk.
  - exact Hm.
Qed.

Lemma post_print (line : list Piece) :
  post (print (Model:=Model) (Tokenizer:=Tokenizer) line) (fun _ => True) E.
Proof. intros s. exact I. Qed.

Lemma post_time : post (time_time W) (fun _ => True) E.
Proof. intros s. exact I. Qed.

Lemma post_memory : post (Benchmark.get_memory_usage W) (fun _ => True) E.
Proof. intros s. exact I. Qed.

Lemma post_library {A} (o : Outcome A) :
  (forall msg, E (Exception msg)) -> E KeyboardInterrupt ->
  match of_outcome o with Ok _ => True | Err e => E e end.
Proof. intros H1 H2. destruct o; cbn; auto. Qed.

Lemma post_generate m t prompt kw :
  (forall msg, E (Exception msg)) -> E KeyboardInterrupt ->
  post (generate W m t prompt kw) (fun _ => True) E.
Proof. intros H1 H2 s. apply (post_library _ H1 H2). Qed.

Lemma post_load (path : string) :
  (forall msg, E (Exception msg)) -> E KeyboardInterrupt ->
  post (load W path) (fun _ => True) E.
Proof. intros H1 H2 s. apply (post_library _ H1 H2). Qed.

Lemma post_truediv (lineno : nat) (a b : Q) :
  ((b == 0)%Q -> E (ZeroDivisionError lineno)) ->
  post (truediv (Model:=Model) (Tokenizer:=Tokenizer) lineno a b) (fun _ => True) E.
Proof.
  intros H s. unfold truediv. destruct (Qeq_bool b 0) eqn:Hb; [|exact I].
  apply H. now apply Qeq_bool_iff.
Qed.

Lemma post_for_each {A S} (xs : list A) (body : A -> S -> M S) (acc : S) :
  (forall x acc', post (body x acc') (fun _ => True) E) ->
  post (for_each xs body acc) (fun _ => True) E.
Proof.
  intros Hb. revert acc. induction xs as [|x xs IH]; intros acc; cbn [for_each].
  - now apply post_ret.
  - apply (post_bind _ _ (fun _ => True)); [apply Hb | intros a _; apply IH].
Qed.

End Post.

Section Averages.

Context {Model Tokenizer : Type}.
Variable W : World Model Tokenizer.

Lemma library_errors :
  (forall msg, not_average_division (Exception msg))
  /\ not_average_division KeyboardInterrupt.
Proof. split; [intros msg|]; split; discriminate. Qed.

(** When the loop over the runs returns, both lists have grown by the
    number of runs; until then only the library raises. *)
Lemma runs_post (model : Model) (tokenizer : Tokenizer) (prompt : string)
  (n a : nat) (acc : list Q * list Z) :
  post (for_each (seq a n) (Benchmark.run_body W model tokenizer prompt) acc)
    (fun acc' =>
       List.length (fst acc') = List.length (fst acc) + n
       /\ List.length (snd acc') = List.length (snd acc) + n)
    not_average_division.
Proof.
  destruct library_errors as [H1 H2].
  revert a acc. induction n as [|n IH]; intros a acc; cbn [seq for_each].
  - apply post_ret. lia.
  - apply post_bind with
      (Q1 := fun acc' =>
               List.length (fst acc') = S (List.length (fst acc))
               /\ List.length (snd acc') = S (List.length (snd acc))).
    + unfold Benchmark.run_body. cbv zeta.
      apply post_bind with (Q1 := fun _ => True); [apply post_time | intros start_time _].
      apply post_bind with (Q1 := fun _ => True);
        [apply post_generate; assumption | intros response _].
      apply post_bind with (Q1 := fun _ => True); [apply post_time | intros now _].
      apply post_bind with (Q1 := fun _ => True).
      * destruct (Nat.eqb a 0); [apply post_print | now apply post_ret].
      * intros _ _. apply post_ret. cbn [fst snd]. rewrite !length_app. cbn. lia.
    + intros acc' [Hf Hs] s. specialize (IH (S a) acc' s).
      destruct (result_of _); [|exact IH]. lia.
Qed.

(** With at least one run, no prompt raises the division by zero of the
    two averages. *)
Lemma prompt_body_post (model : Model) (tokenizer : Tokenizer) (num_runs : Z)
  (ip : nat * string) (results : list Benchmark.BenchResult) :
  (1 <= num_runs)%Z ->
  post (Benchmark.prompt_body W model tokenizer num_runs ip results)
    (fun _ => True) not_average_division.
Proof.
  intros Hn. unfold Benchmark.prompt_body. cbv zeta.
  apply post_bind with (Q1 := fun _ => True); [apply post_print | intros _ _].
  apply post_bind with (Q1 := fun _ => True); [apply post_print | intros _ _].
  eapply post_bind; [apply runs_post | intros acc [Hf Hs]].
  cbn [fst snd List.length] in Hf, Hs. unfold PyList.range in Hf, Hs.
  apply post_bind with (Q1 := fun _ => True).
  { apply post_truediv. intros Hz. exfalso.
    revert Hz. apply count_nonzero. lia. }
  intros avg_generation_time _.
  apply post_bind with (Q1 := fun _ => True).
  { apply post_truediv. intros Hz. exfalso.
    revert Hz. apply count_nonzero. lia. }
  intros avg_tokens _.
  apply post_bind with (Q1 := fun _ => True).
  { apply post_truediv. intros _. split; discriminate. }
  intros avg_tokens_per_second _.
  repeat (apply post_bind with (Q1 := fun _ => True); [apply post_print | intros _ _]).
  now apply post_ret.
Qed.

(** With at least one run [benchmark_model] never raises the division by
    zero of line 92 or 93, in any world. *)
Lemma benchmark_model_post (model_path : option string) (num_runs : Z) :
  (1 <= num_runs)%Z ->
  post (Benchmark.benchmark_model W model_path num_runs)
    (fun _ => True) not_average_division.
Proof.
  intros Hn. destruct library_errors as [H1 H2].
  unfold Benchmark.benchmark_model. cbv zeta.
  do 4 (apply post_bind with (Q1 := fun _ => True); [apply post_print | intros _ _]).
  apply post_bind with (Q1 := fun _ => True); [apply post_memory | intros start_memory _].
  apply post_bind with (Q1 := fun _ => True); [apply post_time | intros load_start _].
  apply post_bind with (Q1 := fun _ => True); [apply post_load; assumption | intros mt _].
  apply post_bind with (Q1 := fun _ => True); [apply post_time | intros now _].
  apply post_bind with (Q1 := fun _ => True); [apply post_memory | intros after_load_memory _].
  do 3 (apply post_bind with (Q1 := fun _ => True); [apply post_print | intros _ _]).
  apply post_bind with (Q1 := fun _ => True).
  { apply post_for_each. intros ip acc. now apply prompt_body_post. }
  intros results _.
  apply post_bind with (Q1 := fun _ => True); [apply post_print | intros _ _].
  apply post_bind with (Q1 := fun _ => True).
  { apply post_truediv. intros _. split; discriminate. }
  intros overall_speed _.
  repeat (apply post_bind with (Q1 := fun _ => True); [apply post_print | intros _ _]).
  now apply post_ret.
Qed.

End Averages.

(** *** The calls of the benchmark *)

Section Shape.

Context {Model Tokenizer : Type}.
Variable W : World Model Tokenizer.

(** One prompt of the list: prints, and [generate] calls with that prompt
    and the benchmark's arguments. *)
Lemma prompt_body_events (mt : Model * Tokenizer) (num_runs : Z)
  (ip : nat * string) (results : list Benchmark.BenchResult) :
  In (snd ip) Benchmark.test_prompts ->
  emits_only (after_load_event mt bench_call)
    (Benchmark.prompt_body W (fst mt) (snd mt) num_runs ip results).
Proof.
  intros Hin. unfold Benchmark.prompt_body, Benchmark.run_body.
  repeat emits_step; try exact I.
  cbn. repeat split. exact Hin.
Qed.

(** The trace of [benchmark_model]: prints, one [load], and after it
    events of the phase that follows [load], none when [load] did not
    return. *)
Lemma benchmark_model_trace (model_path : option string) (num_runs : Z) (s : State) :
  exists before rest,
    trace_of (Benchmark.benchmark_model W model_path num_runs s)
    = before ++ EvLoad (or_default model_path) :: rest
    /\ prints before
    /\ match w_load W (or_default model_path) with
       | Returns mt => Forall (after_load_event mt bench_call) rest
       | _ => rest = []
       end.
Proof.
  unfold Benchmark.benchmark_model.
  do 4 (rewrite trace_bind; cbn [print emit trace_of result_of state_of fst snd]).
  rewrite trace_bind.
  cbn [Benchmark.get_memory_usage trace_of result_of state_of fst snd].
  rewrite trace_bind. cbn [time_time trace_of result_of state_of fst snd].
  rewrite trace_bind. cbn [load trace_of result_of state_of fst snd].
  eexists (_ :: _ :: _ :: [_]), _. split; [cbn [app]; reflexivity|].
  split; [repeat constructor|].
  destruct (w_load W (or_default model_path)) as [mt|msg|]; cbn [of_outcome];
    [|reflexivity|reflexivity].
  match goal with
  | |- Forall ?P (trace_of (?m ?s1)) => apply (fun H : emits_only P m => H s1)
  end.
  repeat lazymatch goal with
  | |- emits_only _ (bind (for_each _ _ _) _) =>
      apply emits_bind;
      [ apply emits_for_each_in; intros [i p] acc Hin;
        apply prompt_body_events; apply in_combine_r in Hin; exact Hin
      | intros ? ]
  | |- emits_only _ (bind (Benchmark.get_memory_usage _) _) =>
      apply emits_bind; [ intros s0; constructor | intros ? ]
  | _ => emits_step
  end; exact I.
Qed.

(** What [main] does after [benchmark_model] returned, and its two
    [except] clauses, make none of the three calls. *)
Lemma save_quiet (results : list Benchmark.BenchResult) :
  emits_only quiet
    (bind (emit (EvOpen ("benchmark_results_" ++ w_strftime W ++ ".txt")%string))
       (fun _ =>
          bind (emit (EvWrite [Str ("MLX LLaMA-2-13B Benchmark Results" ++ nl)]))
            (fun _ =>
               bind (emit (EvWrite [Str (repeat "=" 50 ++ nl ++ nl)]))
                 (fun _ =>
                    bind (for_each results (Benchmark.write_result (Model:=Model)
                                              (Tokenizer:=Tokenizer)) tt)
                      (fun _ =>
                         print [Str (nl ++ "Results saved to: ");
                                Str ("benchmark_results_" ++ w_strftime W ++ ".txt")%string]))))).
Proof.
  unfold Benchmark.write_result. repeat emits_step; reflexivity.
Qed.

Lemma clauses_quiet :
  Forall (fun ch => forall e, emits_only quiet (snd ch e))
    [(is_KeyboardInterrupt,
      Benchmark.main_except_KeyboardInterrupt (Model:=Model) (Tokenizer:=Tokenizer));
     (is_Exception, Benchmark.main_except_Exception)].
Proof.
  repeat constructor; cbn [snd]; intros e;
    unfold Benchmark.main_except_KeyboardInterrupt, Benchmark.main_except_Exception;
    repeat emits_step; reflexivity.
Qed.

(** The calls of [main] are [parse_args] and then those of
    [benchmark_model]. *)
Lemma bench_main_calls (argv : Benchmark.Args) (s : State) :
  calls (trace_of (Benchmark.main W argv s))
  = EvParseArgs
    :: calls (trace_of (Benchmark.benchmark_model W (Benchmark.args_model argv)
                          (Benchmark.args_runs argv) s)).
Proof.
  unfold Benchmark.main, Benchmark.parse_args.
  rewrite trace_bind. cbn [bind emit ret trace_of result_of state_of fst snd app].
  rewrite trace_try_except, trace_bind.
  change (calls (?x :: ?l)) with (x :: calls l). f_equal.
  rewrite !calls_app.
  match goal with
  | |- (_ ++ calls ?X) ++ calls ?Y = _ =>
      assert (HX : Forall quiet X); [|assert (HY : Forall quiet Y)]
  end.
  - destruct (result_of _) as [results|e]; [|constructor].
    cbv zeta. apply save_quiet.
  - clear HX. destruct (result_of _) as [a|e]; [constructor|].
    destruct (select_clause _ e) as [h|] eqn:Hs; [|constructor].
    apply (select_clause_emits quiet _ _ _ clauses_quiet Hs).
  - rewrite (calls_quiet _ HX), (calls_quiet _ HY), !app_nil_r. reflexivity.
Qed.

(** The calls of the benchmark's [main]. *)
Lemma main_shape_bench (argv : Benchmark.Args) (s : State) :
  main_shape W bench_call (trace_of (Benchmark.main W argv s)).
Proof.
  rewrite <- (app_nil_l (trace_of _)).
  destruct (benchmark_model_trace (Benchmark.args_model argv)
              (Benchmark.args_runs argv) s) as (before & rest & E & Hb & Hrest).
  exists (or_default (Benchmark.args_model argv)), (calls rest).
  split.
  - cbn [app]. rewrite bench_main_calls, E, calls_app, (calls_prints _ Hb). reflexivity.
  - destruct (w_load W _) as [mt|msg|].
    + now apply calls_forall.
    + now rewrite Hrest.
    + now rewrite Hrest.
Qed.

End Shape.

End BenchFacts.

(** ** The three scripts together *)

Module ScriptFacts.

Import Props MonadFacts.

Section Facts.

Context {Model Tokenizer : Type}.
Variable W : World Model Tokenizer.

Local Abbreviation Event := (Event Model Tokenizer).

(** The calls of every [main] have the same shape. *)
Lemma script_main_shape (inv : Script.Invocation) (s : State) :
  main_shape W (script_call inv) (trace_of (Script.main W inv s)).
Proof.
  destruct inv as [argv|argv keys|argv]; cbn [Script.main script_call].
  - apply BenchFacts.main_shape_bench.
  - apply ChatFacts.main_shape_chat.
  - apply RunFacts.main_shape_run.
Qed.

(** A call that is an event of the phase after [load] is a [generate]
    with the loaded model and tokenizer. *)
Lemma after_load_call (mt : Model * Tokenizer) (ok : string -> GenKwargs -> Prop)
  (ev : Event) :
  is_parse ev || is_load ev || is_generate ev = true ->
  after_load_event mt ok ev ->
  is_generate ev = true /\ generate_with mt ev.
Proof.
  destruct ev; cbn; intros Hc H; try discriminate; try contradiction.
  destruct H as (Hm & Ht & _). repeat split; assumption.
Qed.

(** The tail of the calls holds calls only. *)
Lemma calls_tail (t : list Event) (ev1 ev2 : Event) (gens : list Event) :
  calls t = ev1 :: ev2 :: gens ->
  Forall (fun ev => is_parse ev || is_load ev || is_generate ev = true) gens.
Proof.
  intros E. apply Forall_forall. intros ev Hin.
  assert (Hc : In ev (calls t)) by (rewrite E; right; right; exact Hin).
  apply filter_In in Hc. apply Hc.
Qed.

Lemma shape_generates (ok : string -> GenKwargs -> Prop) (t : list Event) :
  main_shape W ok t ->
  exists path gens,
    calls t = EvParseArgs :: EvLoad path :: gens
    /\ Forall (fun ev => is_generate ev = true) gens
    /\ match w_load W path with
       | Returns mt => Forall (generate_with mt) gens
       | _ => gens = []
       end.
Proof.
  intros (path & gens & E & H). exists path, gens.
  pose proof (calls_tail _ _ _ _ E) as Hc.
  split; [exact E|].
  destruct (w_load W path) as [mt|msg|].
  - assert (Hboth : Forall (fun ev => is_generate ev = true /\ generate_with mt ev) gens).
    { apply Forall_forall. intros ev Hin.
      apply (after_load_call mt ok).
      - revert ev Hin. now apply Forall_forall.
      - revert ev Hin. now apply Forall_forall. }
    split; eapply Forall_impl; try exact Hboth; cbn; intros ev [H1 H2]; assumption.
  - subst gens. split; [constructor | reflexivity].
  - subst gens. split; [constructor | reflexivity].
Qed.

Lemma generate_calls_ok (mt : Model * Tokenizer) (ok : string -> GenKwargs -> Prop)
  (gens : list Event) :
  Forall (after_load_event mt ok) gens ->
  Forall (fun c => ok (fst c) (snd c)) (generate_calls gens).
Proof.
  induction 1 as [|ev gens Hev _ IH]; [constructor|].
  destruct ev; cbn [generate_calls]; try exact IH.
  constructor; [|exact IH]. apply Hev.
Qed.

(** Every prompt and every set of keyword arguments that reaches
    [generate] is accepted by [ok]. *)
Lemma shape_generate_calls (ok : string -> GenKwargs -> Prop) (t : list Event) :
  main_shape W ok t ->
  Forall (fun c => ok (fst c) (snd c)) (generate_calls t).
Proof.
  intros (path & gens & E & H).
  rewrite <- generate_calls_of_calls, E. cbn [generate_calls].
  destruct (w_load W path) as [mt|msg|].
  - now apply (generate_calls_ok mt).
  - subst gens. constructor.
  - subst gens. constructor.
Qed.

(** Counting in the calls is counting in the trace. *)
Lemma count_calls (kind : Event -> bool) (t : list Event) :
  (forall ev, kind ev = true -> is_parse ev || is_load ev || is_generate ev = true) ->
  count kind t = count kind (calls t).
Proof.
  intros Hk. unfold count, calls.
  induction t as [|ev t IH]; [reflexivity|].
  cbn [filter]. destruct (kind ev) eqn:Hev.
  - rewrite (Hk ev Hev). cbn [filter]. rewrite Hev. cbn [List.length]. now rewrite IH.
  - destruct (is_parse ev || is_load ev || is_generate ev); cbn [filter];
      rewrite ?Hev; exact IH.
Qed.

Lemma count_generates (kind : Event -> bool) (gens : list Event) :
  (forall ev, is_generate ev = true -> kind ev = false) ->
  Forall (fun ev => is_generate ev = true) gens ->
  count kind gens = 0.
Proof.
  intros Hk. induction 1 as [|ev gens Hev _ IH]; [reflexivity|].
  unfold count in *. cbn [filter]. now rewrite (Hk ev Hev).
Qed.

(** A whole run of a script makes no call at all (the file does not
    compile, or the import fails and the script exits), or makes the calls
    of its [main]. *)
Lemma python_calls (inv : Script.Invocation) (s : State) :
  calls (trace_of (Script.python W inv s)) = []
  \/ calls (trace_of (Script.python W inv s)) = calls (trace_of (Script.main W inv s)).
Proof.
  assert (Hb : Python.check_indentation Python.benchmark_py = None)
    by (vm_compute; reflexivity).
  assert (Hr : Python.check_indentation Python.run_llama_py = None)
    by (vm_compute; reflexivity).
  assert (Hc : Python.check_indentation Python.chat_llama_py
               = Some (Python.UnexpectedIndent, 186)) by (vm_compute; reflexivity).
  unfold Script.python.
  destruct inv as [argv|argv keys|argv]; cbn [Script.source Script.main].
  - rewrite Hb. unfold Benchmark.module_body.
    unfold bind at 1. unfold try_except, bind, emit, ret, raise.
    destruct (w_import W) as [msg|].
    + left. reflexivity.
    + right. destruct (Benchmark.main W argv s) as [[r s'] t]. reflexivity.
  - rewrite Hc. left. reflexivity.
  - rewrite Hr. unfold RunLlama.module_body.
    unfold bind at 1. unfold try_except, bind, emit, ret, raise.
    destruct (w_import W) as [msg|].
    + left. reflexivity.
    + right. destruct (RunLlama.main W argv s) as [[r s'] t]. reflexivity.
Qed.


(** On a command line that argparse accepts, [run] is [python]. *)
Lemma run_launch (inv : Script.Invocation) (s : State) :
  Script.run W (Script.launch inv) s = Script.python W inv s.
Proof. destruct inv; reflexivity. Qed.




End Facts.

End ScriptFacts.



(** C6: the scripts are written for any type of model and of tokenizer,
    so they cannot build, read or change one; and in every run of the
    [main] of each script [load] is called exactly once and every
    [generate] call is given the model and the tokenizer that this call
    of [load] returned.  A whole run of a script, from the compilation of
    its file on, makes the calls of its [main] or none at all. *)
Theorem C6_model_from_single_load {Model Tokenizer : Type}
  (W : World Model Tokenizer) (inv : Script.Invocation) (s : State) :
  let t := trace_of (Script.main W inv s) in
  let whole := trace_of (Script.python W inv s) in
  (Props.calls whole = [] \/ Props.calls whole = Props.calls t)
  /\ exists path gens,
    Props.calls t = EvParseArgs :: EvLoad path :: gens
    /\ Props.count Props.is_load t = 1
    /\ match w_load W path with
       | Returns mt => Forall (Props.generate_with mt) gens
       | _ => gens = []
       end.
Proof.
  intros t whole. split; [apply ScriptFacts.python_calls|].
  destruct (ScriptFacts.shape_generates W _ _ (ScriptFacts.script_main_shape W inv s))
    as (path & gens & E & Hgen & Hload).
  fold t in E. exists path, gens.
  split; [exact E|]. split; [|exact Hload].
  rewrite ScriptFacts.count_calls
    by (intros ev H; rewrite H; now rewrite orb_true_r).
  rewrite E. unfold Props.count. cbn [filter Props.is_load List.length].
  fold (Props.count Props.is_load gens).
  rewrite ScriptFacts.count_generates; [reflexivity | | exact Hgen].
  intros ev; destruct ev; cbn; congruence.
Qed.

(** C3, the claim as stated, fails: with the same prompt "hi" and the same
    sampling parameters (512 tokens, temperature 0.7) the runner hands
    [generate] the prompt as it is and no [stop], the chat hands it the
    chat template built from the history and adds the two stop words, and
    the benchmark hands it its own five prompts with 256 tokens. *)
Lemma C3_counterexample :
  let run :=
    Props.generate_calls (trace_of (RunLlama.main Sample.W_ok Sample.run_argv initial_state)) in
  let chat :=
    Props.generate_calls
      (trace_of (Chat.main Sample.W_ok Sample.chat_argv [Typed "hi"] initial_state)) in
  let bench :=
    Props.generate_calls
      (trace_of (Benchmark.main Sample.W_ok Sample.bench_argv_1 initial_state)) in
  run = [("hi", Props.run_kwargs 512 (7 # 10)%Q)]
  /\ chat = [(Chat.format_prompt [Props.user_msg "hi"] "hi", Props.chat_kwargs 512 (7 # 10)%Q)]
  /\ bench = map (fun p => (p, Benchmark.bench_kwargs)) Benchmark.test_prompts
  /\ run <> chat
  /\ run <> bench
  /\ chat <> bench.
Proof.
  cbv zeta.
  assert (Hrun : Props.generate_calls
                   (trace_of (RunLlama.main Sample.W_ok Sample.run_argv initial_state))
                 = [("hi", Props.run_kwargs 512 (7 # 10)%Q)]) by (vm_compute; reflexivity).
  assert (Hchat : Props.generate_calls
                    (trace_of (Chat.main Sample.W_ok Sample.chat_argv [Typed "hi"]
                                 initial_state))
                  = [(Chat.format_prompt [Props.user_msg "hi"] "hi",
                      Props.chat_kwargs 512 (7 # 10)%Q)]) by (vm_compute; reflexivity).
  assert (Hbench : Props.generate_calls
                     (trace_of (Benchmark.main Sample.W_ok Sample.bench_argv_1
                                  initial_state))
                   = map (fun p => (p, Benchmark.bench_kwargs)) Benchmark.test_prompts)
    by (vm_compute; reflexivity).
  rewrite Hrun, Hchat, Hbench.
  repeat split; try reflexivity; vm_compute; discriminate.
Qed.

(** C3, amended: in every world and every run, each call of [generate]
    made by the runner has the prompt of the command line, unchanged,
    with its [max_tokens] and [temperature], [top_p=0.9] and no [stop];
    each call made by the chat has the chat template that [format_prompt]
    builds from a history and an input, with the [max_tokens] and
    [temperature] of the command line, [top_p=0.9] and
    [stop=["<|im_end|>", "<|im_start|>"]] (a turn makes one call, and its
    prompt ends with the user block of the stripped input and the
    assistant header); each call made by the benchmark has one of its
    five prompts with [max_tokens=256], [temperature=0.7], [top_p=0.9]
    and no [stop].  All three pass [top_p=0.9]. *)
Theorem C3_generate_arguments_amended {Model Tokenizer : Type}
  (W : World Model Tokenizer) (s : State) :
  (forall argv : RunLlama.Args,
      Forall (fun c =>
                fst c = RunLlama.args_prompt argv
                /\ snd c = Props.run_kwargs (RunLlama.args_max_tokens argv)
                             (RunLlama.args_temperature argv))
        (Props.generate_calls (trace_of (RunLlama.main W argv s))))
  /\ (forall (argv : Chat.Args) keys,
      Forall (fun c =>
                (exists h u, fst c = Chat.format_prompt h u)
                /\ snd c = Props.chat_kwargs (Chat.args_max_tokens argv)
                             (Chat.args_temperature argv))
        (Props.generate_calls (trace_of (Chat.main W argv keys s))))
  /\ (forall self line,
      Props.is_message (PyStr.strip line) = true ->
      exists before,
        Props.generate_calls
          (trace_of (Chat.chat_iteration W self (Some (Typed line)) s))
        = [((before ++ Chat.final_block (PyStr.strip line))%string,
            Props.chat_kwargs (Chat.max_tokens self) (Chat.temperature self))])
  /\ (forall argv : Benchmark.Args,
      Forall (fun c =>
                In (fst c) Benchmark.test_prompts /\ snd c = Benchmark.bench_kwargs)
        (Props.generate_calls (trace_of (Benchmark.main W argv s))))
  /\ (forall inv,
      Forall (fun c => kw_top_p (snd c) = (9 # 10)%Q)
        (Props.generate_calls (trace_of (Script.main W inv s)))).
Proof.
  split; [|split; [|split; [|split]]].
  - intros argv.
    apply (ScriptFacts.shape_generate_calls W (Props.run_call argv)).
    apply RunFacts.main_shape_run.
  - intros argv keys.
    apply (ScriptFacts.shape_generate_calls W
             (Props.chat_call (Chat.args_max_tokens argv) (Chat.args_temperature argv))).
    apply ChatFacts.main_shape_chat.
  - intros self line Hm.
    rewrite (ChatFacts.iteration_message W self line s Hm). cbv zeta.
    destruct (FormatPrompt.format_prompt_ends
                (conversation_history s ++ [Props.user_msg (PyStr.strip line)])
                (PyStr.strip line)) as (before & E).
    exists before. rewrite <- E.
    destruct (Props.chat_outcome W self _ _); reflexivity.
  - intros argv.
    apply (ScriptFacts.shape_generate_calls W Props.bench_call).
    apply BenchFacts.main_shape_bench.
  - intros inv.
    pose proof (ScriptFacts.shape_generate_calls W _ _
                  (ScriptFacts.script_main_shape W inv s)) as H.
    eapply Forall_impl; [|exact H]. intros [p kw].
    destruct inv as [argv|argv keys|argv]; cbn [Props.script_call fst snd].
    + intros [_ ->]. reflexivity.
    + intros [_ ->]. reflexivity.
    + intros [_ ->]. reflexivity.
Qed.

(** The theorem at work: "hi" typed after a no-break space, on the empty
    history in the sample world. *)
Lemma C3_generate_arguments_amended_witness :
  Props.is_message (PyStr.strip (PyStr.of_bytes [194; 160] ++ "hi ")) = true
  /\ exists before,
       Props.generate_calls
         (trace_of (Chat.chat_iteration Sample.W_ok Sample.self
                      (Some (Typed (PyStr.of_bytes [194; 160] ++ "hi "))) initial_state))
       = [((before ++ Chat.final_block "hi")%string, Props.chat_kwargs 512 (7 # 10)%Q)].
Proof.
  split; [reflexivity|].
  destruct (C3_generate_arguments_amended Sample.W_ok initial_state)
    as (_ & _ & H & _).
  exact (H Sample.self (PyStr.of_bytes [194; 160] ++ "hi ")%string eq_refl).
Defined.

(** C5: for every [num_runs >= 1], in a world where [load] and
    [generate] return and the clock advances, [benchmark_model] calls
    [generate] exactly [5 * num_runs] times: [num_runs] times in a row for
    each of its 5 prompts, in their order, always with [max_tokens=256],
    [temperature=0.7], [top_p=0.9] and nothing else.  In any world
    whatever, every call it makes has one of the 5 prompts and these
    arguments. *)
Theorem C5_benchmark_generate_calls {Model Tokenizer : Type}
  (W : World Model Tokenizer) (model : Model) (tokenizer : Tokenizer)
  (model_path : option string) (num_runs : Z) (s : State) :
  (1 <= num_runs)%Z ->
  w_load W (or_default model_path) = Returns (model, tokenizer) ->
  Props.generate_returns W ->
  Props.clock_advances W ->
  let t := trace_of (Benchmark.benchmark_model W model_path num_runs s) in
  Props.generate_calls t
  = flat_map (fun p => List.repeat (p, Benchmark.bench_kwargs) (Z.to_nat num_runs))
      Benchmark.test_prompts
  /\ Z.of_nat (List.length (Props.generate_calls t)) = (5 * num_runs)%Z
  /\ List.length Benchmark.test_prompts = 5
  /\ Benchmark.bench_kwargs
     = {| kw_max_tokens := 256; kw_temperature := (7 # 10)%Q;
          kw_top_p := (9 # 10)%Q; kw_stop := None |}
  /\ (forall (W' : World Model Tokenizer) (argv : Benchmark.Args) s',
         Forall (fun c => In (fst c) Benchmark.test_prompts
                          /\ snd c = Benchmark.bench_kwargs)
           (Props.generate_calls (trace_of (Benchmark.main W' argv s')))).
Proof.
  intros Hn Hload Hgen Hclock t.
  destruct (BenchFacts.benchmark_model_ok W model tokenizer Hgen Hclock
              model_path num_runs s Hn Hload) as (results & s' & t' & E & _ & Hc).
  assert (Ht : t = t') by (unfold t; now rewrite E).
  rewrite Ht, Hc.
  split; [reflexivity|]. split; [|split; [reflexivity | split; [reflexivity|]]].
  - cbn [flat_map Benchmark.test_prompts]. rewrite !length_app, !repeat_length.
    cbn [List.length]. lia.
  - intros W' argv s0.
    apply (ScriptFacts.shape_generate_calls W' Props.bench_call).
    apply BenchFacts.main_shape_bench.
Qed.

(** The theorem at work: five runs in the sample world. *)
Lemma C5_benchmark_generate_calls_witness :
  (1 <= 5)%Z
  /\ w_load Sample.W_ok (or_default None) = Returns (1, 2)
  /\ Props.generate_returns Sample.W_ok
  /\ Props.clock_advances Sample.W_ok
  /\ Z.of_nat
       (List.length
          (Props.generate_calls
             (trace_of (Benchmark.benchmark_model Sample.W_ok None 5 initial_state))))
     = 25%Z.
Proof.
  assert (H1 : (1 <= 5)%Z) by lia.
  assert (H2 : w_load Sample.W_ok (or_default None) = Returns (1, 2)) by reflexivity.
  assert (H3 : Props.generate_returns Sample.W_ok)
    by (intros k m t prompt kw; eexists; reflexivity).
  assert (H4 : Props.clock_advances Sample.W_ok).
  { intros k. unfold Qlt. cbn. lia. }
  split; [exact H1 | split; [exact H2 | split; [exact H3 | split; [exact H4|]]]].
  exact (proj1 (proj2 (C5_benchmark_generate_calls Sample.W_ok 1 2 None 5 initial_state
                         H1 H2 H3 H4))).
Defined.

(** C7: for every [num_runs >= 1], in any world, [benchmark_model] never
    raises the division by zero of the two averages (lines 92 and 93):
    when the loop over the runs returns, each of the two lists holds
    exactly [num_runs] samples, and that is the divisor; and in a world
    where [generate] returns and the clock advances [benchmark_model]
    returns its results, one per prompt.  With [num_runs = 0], as soon as
    [load] returned, the first average divides by [len(generation_times)],
    which is zero, and [benchmark_model] raises [ZeroDivisionError] at
    line 92. *)
Theorem C7_benchmark_divisions {Model Tokenizer : Type}
  (W : World Model Tokenizer) (model : Model) (tokenizer : Tokenizer)
  (model_path : option string) (num_runs : Z) (s : State) :
  (1 <= num_runs)%Z ->
  w_load W (or_default model_path) = Returns (model, tokenizer) ->
  let run := Benchmark.benchmark_model W model_path in
  result_of (run num_runs s) <> Err (ZeroDivisionError 92)
  /\ result_of (run num_runs s) <> Err (ZeroDivisionError 93)
  /\ (forall prompt,
         Props.post
           (for_each (PyList.range num_runs)
              (Benchmark.run_body W model tokenizer prompt) ([], []))
           (fun acc =>
              Z.of_nat (List.length (fst acc)) = num_runs
              /\ Z.of_nat (List.length (snd acc)) = num_runs)
           (fun _ => True))
  /\ (Props.generate_returns W -> Props.clock_advances W ->
      exists results,
        result_of (run num_runs s) = Ok results
        /\ List.length results = 5)
  /\ result_of (run 0%Z s) = Err (ZeroDivisionError 92).
Proof.
  intros Hn Hload run.
  pose proof (BenchFacts.benchmark_model_post W model_path num_runs Hn s) as Hpost.
  fold run in Hpost.
  split; [|split; [|split; [|split]]].
  - intros E. rewrite E in Hpost. destruct Hpost as [H _]. now apply H.
  - intros E. rewrite E in Hpost. destruct Hpost as [_ H]. now apply H.
  - intros prompt s1.
    pose proof (BenchFacts.runs_post W model tokenizer prompt (Z.to_nat num_runs) 0
                  ([], []) s1) as H.
    unfold PyList.range.
    destruct (result_of (for_each _ _ _ _)) as [acc|e]; [|exact I].
    cbn [fst snd List.length] in H. lia.
  - intros Hgen Hclock.
    destruct (BenchFacts.benchmark_model_ok W model tokenizer Hgen Hclock
                model_path num_runs s Hn Hload) as (results & s' & t' & E & Hlen & _).
    exists results. unfold run. rewrite E. split; [reflexivity | exact Hlen].
  - destruct (BenchFacts.benchmark_model_zero W model tokenizer model_path s Hload)
      as (s' & t' & E & _).
    unfold run. now rewrite E.
Qed.

(** The theorem at work: five runs, and no run, in the sample world. *)
Lemma C7_benchmark_divisions_witness :
  (1 <= 5)%Z
  /\ w_load Sample.W_ok (or_default None) = Returns (1, 2)
  /\ result_of (Benchmark.benchmark_model Sample.W_ok None 5 initial_state)
     <> Err (ZeroDivisionError 92)
  /\ result_of (Benchmark.benchmark_model Sample.W_ok None 0 initial_state)
     = Err (ZeroDivisionError 92).
Proof.
  assert (H1 : (1 <= 5)%Z) by lia.
  assert (H2 : w_load Sample.W_ok (or_default None) = Returns (1, 2)) by reflexivity.
  pose proof (C7_benchmark_divisions Sample.W_ok 1 2 None 5 initial_state H1 H2) as H.
  cbv zeta in H. destruct H as (Ha & _ & _ & _ & Hz).
  split; [exact H1 | split; [exact H2 | split; [exact Ha | exact Hz]]].
Defined.

(** Beyond the averages: when the measured time of a prompt is zero, the
    division of line 94 raises, here with one run and a clock that stands
    still. *)
Lemma benchmark_frozen_clock :
  result_of (Benchmark.benchmark_model Sample.W_frozen None 1 initial_state)
  = Err (ZeroDivisionError 94).
Proof. vm_compute. reflexivity. Qed.

(** C2, the claim as stated, fails: the handler of the chat's
    [generate_response] does not only print.  It returns a string of its
    own, the apology, in place of the response of the model; in the world
    where [generate] raises, [generate_response] returns the apology, and
    the turn prints it and appends it to the history as the message of
    the assistant. *)
Lemma C2_counterexample :
  ~ Props.only_prints (Chat.generate_response_except (Model:=nat) (Tokenizer:=nat))
  /\ Props.chat_outcome Sample.W_boom Sample.self "hi" initial_state = Raises "boom"
  /\ result_of (Chat.generate_response Sample.W_boom Sample.self "hi" initial_state)
     = Ok Chat.apology
  /\ conversation_history
       (state_of (Chat.chat_iteration Sample.W_boom Sample.self (Some (Typed "hi"))
                    initial_state))
     = [Props.user_msg "hi"; Props.assistant_msg Chat.apology]
  /\ In (EvPrint [Str Chat.apology])
       (trace_of (Chat.chat_iteration Sample.W_boom Sample.self (Some (Typed "hi"))
                    initial_state)).
Proof.
  split; [|split; [|split; [|split]]].
  - intros H. destruct (H (Exception "boom") initial_state) as (a & lines & _ & Hnv & _).
    exact Hnv.
  - reflexivity.
  - reflexivity.
  - reflexivity.
  - vm_compute. tauto.
Qed.

(** C2, amended: every handler prints a message about the failure and
    leaves the state as it was.  The two handlers of the benchmark's
    [main] do nothing else, and the handler of the runner's
    [generate_text] returns [None].  The handler of the runner's
    [load_model] and the handlers of the imports then end the program with
    status 1; the two handlers of the chat loop leave the loop; and the
    handler of the chat's [generate_response] returns the apology string
    as the response: when [generate] raises, [generate_response] prints
    the exception and returns the apology, and when [load] raises the
    runner's [load_model] ends the program. *)
Theorem C2_handlers_amended {Model Tokenizer : Type} (e : pyexn) (s : State) :
  Props.only_prints (Benchmark.main_except_Exception (Model:=Model) (Tokenizer:=Tokenizer))
  /\ Props.only_prints
       (Benchmark.main_except_KeyboardInterrupt (Model:=Model) (Tokenizer:=Tokenizer))
  /\ Props.only_prints
       (RunLlama.generate_text_except (Model:=Model) (Tokenizer:=Tokenizer))
  /\ RunLlama.load_model_except (Model:=Model) (Tokenizer:=Tokenizer) e s
     = (Err (SystemExit 1), s,
        [EvPrint [Str "Error loading model: "; ExnText e];
         EvPrint [Str "Make sure you have sufficient memory (32GB+ recommended)"]])
  /\ Chat.generate_response_except (Model:=Model) (Tokenizer:=Tokenizer) e s
     = (Ok Chat.apology, s, [EvPrint [Str "Error generating response: "; ExnText e]])
  /\ Chat.chat_except_KeyboardInterrupt (Model:=Model) (Tokenizer:=Tokenizer) e s
     = (Ok Chat.Break, s,
        [EvPrint [Str (PyStr.nl ++ PyStr.nl ++ "Chat interrupted. Goodbye!")]])
  /\ Chat.chat_except_EOFError (Model:=Model) (Tokenizer:=Tokenizer) e s
     = (Ok Chat.Break, s,
        [EvPrint [Str (PyStr.nl ++ PyStr.nl ++ "End of input. Goodbye!")]])
  /\ result_of (Benchmark.import_except (Model:=Model) (Tokenizer:=Tokenizer) e s)
     = Err (SystemExit 1)
  /\ result_of (RunLlama.import_except (Model:=Model) (Tokenizer:=Tokenizer) e s)
     = Err (SystemExit 1)
  /\ result_of (Chat.import_except (Model:=Model) (Tokenizer:=Tokenizer) e s)
     = Err (SystemExit 1)
  /\ (forall (W : World Model Tokenizer) self user_input msg,
         Props.chat_outcome W self user_input s = Raises msg ->
         Chat.generate_response W self user_input s
         = (Ok Chat.apology, Props.after_generate 1 s,
            [EvGenerate (Chat.model self) (Chat.tokenizer self)
               (Chat.format_prompt (conversation_history s) user_input)
               (Props.chat_kwargs (Chat.max_tokens self) (Chat.temperature self));
             EvPrint [Str "Error generating response: "; ExnText (Exception msg)]]))
  /\ (forall (W : World Model Tokenizer) model_path msg,
         w_load W (Props.load_path model_path) = Raises msg ->
         result_of (RunLlama.load_model W model_path s) = Err (SystemExit 1)).
Proof.
  repeat match goal with |- _ /\ _ => split end; try reflexivity.
  - intros e' s'. exists tt, [[Str (PyStr.nl ++ " Benchmark failed: "); ExnText e']].
    repeat split. discriminate.
  - intros e' s'.
    exists tt, [[Str (PyStr.nl ++ PyStr.nl ++ "Benchmark interrupted by user")]].
    repeat split. discriminate.
  - intros e' s'. exists None, [[Str "Error during generation: "; ExnText e']].
    repeat split. discriminate.
  - intros W self user_input msg H.
    rewrite ChatFacts.generate_response_run. cbv zeta. now rewrite H.
  - intros W model_path msg H.
    rewrite RunFacts.load_model_run. cbv zeta. now rewrite H.
Qed.

(** The theorem at work: the chat's [generate_response] in the world where
    [generate] raises. *)
Lemma C2_handlers_amended_witness :
  Props.chat_outcome Sample.W_boom Sample.self "hi" initial_state = Raises "boom"
  /\ result_of (Chat.generate_response Sample.W_boom Sample.self "hi" initial_state)
     = Ok Chat.apology.
Proof.
  assert (H : Props.chat_outcome Sample.W_boom Sample.self "hi" initial_state
              = Raises "boom") by reflexivity.
  split; [exact H|].
  destruct (C2_handlers_amended (Model:=nat) (Tokenizer:=nat) EOFError initial_state)
    as (_ & _ & _ & _ & _ & _ & _ & _ & _ & _ & Hg & _).
  now rewrite (Hg Sample.W_boom Sample.self "hi" "boom" H).
Defined.

(** C1: the chat script is not a runnable program.  Line 186 of
    [chat_llama.py] is indented deeper than line 184 although no block is
    open, so the file does not compile: run as a main program it raises
    [IndentationError] before its first statement, and neither parses a
    command line nor calls [load] or [generate].  The other two files
    compile. *)
Theorem C1_chat_script_does_not_compile {Model Tokenizer : Type}
  (W : World Model Tokenizer) (argv : Chat.Args) (keys : list Keyboard) (s : State) :
  Python.check_indentation Python.chat_llama_py = Some (Python.UnexpectedIndent, 186)
  /\ Script.python W (Script.chat_llama argv keys) s = (Err (IndentationError 186), s, [])
  /\ Props.calls (trace_of (Script.python W (Script.chat_llama argv keys) s)) = []
  /\ Python.check_indentation Python.benchmark_py = None
  /\ Python.check_indentation Python.run_llama_py = None.
Proof.
  assert (H : Python.check_indentation Python.chat_llama_py
              = Some (Python.UnexpectedIndent, 186)) by (vm_compute; reflexivity).
  split; [exact H|].
  assert (E : Script.python W (Script.chat_llama argv keys) s
              = (Err (IndentationError 186), s, [])).
  { unfold Script.python. cbn [Script.source]. rewrite H. reflexivity. }
  split; [exact E|]. split; [now rewrite E|].
  split; vm_compute; reflexivity.
Qed.

(** The other two scripts, run as main programs in the sample world,
    reach [load] and then [generate]. *)
Lemma run_llama_reaches_generate :
  Props.calls (trace_of (Script.python Sample.W_ok (Script.run_llama Sample.run_argv)
                           initial_state))
  = [EvParseArgs; EvLoad "TheBloke/Llama-2-13B-chat-AWQ";
     EvGenerate 1 2 "hi" (Props.run_kwargs 512 (7 # 10)%Q)].
Proof. vm_compute. reflexivity. Qed.

Lemma benchmark_reaches_generate :
  Props.calls (trace_of (Script.python Sample.W_ok (Script.benchmark Sample.bench_argv_1)
                           initial_state))
  = EvParseArgs :: EvLoad "TheBloke/Llama-2-13B-chat-AWQ"
    :: map (fun p => EvGenerate 1 2 p Benchmark.bench_kwargs) Benchmark.test_prompts.
Proof. vm_compute. reflexivity. Qed.

(** Were line 186 indented like its neighbours, the chat would do the
    same: its [main], as written, reaches [load] and then [generate]. *)
Lemma chat_main_as_written :
  Props.calls (trace_of (Chat.main Sample.W_ok Sample.chat_argv [Typed "hi"] initial_state))
  = [EvParseArgs; EvLoad "TheBloke/Llama-2-13B-chat-AWQ";
     EvGenerate 1 2 (Chat.format_prompt [Props.user_msg "hi"] "hi")
       (Props.chat_kwargs 512 (7 # 10)%Q)].
Proof. vm_compute. reflexivity. Qed.

(** * Further properties *)

(** ** Stripping *)

Module StripFacts.

Import PyStr More.

(** Induction on a string with the hypothesis for every shorter string. *)
Lemma shorter_ind (P : string -> Prop) :
  (forall s, (forall t, String.length t < String.length s -> P t) -> P s) ->
  forall s, P s.
Proof.
  intros H s.
  assert (G : forall n t, String.length t < n -> P t).
  { induction n as [|n IH]; intros t Ht; [lia|].
    apply H. intros u Hu. apply IH. lia. }
  apply (G (S (String.length s))). lia.
Qed.

Lemma clean_lstrip (s : string) : clean s -> lstrip s = s.
Proof.
  destruct s as [|a [|b [|c s3]]]; cbn [clean lstrip]; try reflexivity.
  - now intros [-> _].
  - now intros (-> & -> & _).
  - now intros (-> & -> & ->).
Qed.

Lemma lstrip_clean (s : string) : clean (lstrip s).
Proof.
  induction s as [s IH] using shorter_ind.
  destruct s as [|a s1]; [exact I|]. cbn [lstrip].
  destruct (isspace a) eqn:Ha; [apply IH; cbn; lia|].
  destruct s1 as [|b s2]; [cbn [clean]; now rewrite Ha|].
  destruct (isspace2 a b) eqn:Hb; [apply IH; cbn; lia|].
  destruct s2 as [|c s3]; [cbn [clean]; now rewrite Ha, Hb|].
  destruct (isspace3 a b c) eqn:Hc; [apply IH; cbn; lia|].
  cbn [clean]. now rewrite Ha, Hb, Hc.
Qed.

Lemma lstrip_idem (s : string) : lstrip (lstrip s) = lstrip s.
Proof. apply clean_lstrip, lstrip_clean. Qed.

(** White space in front of a text is stripped with it. *)
Lemma lstrip_app (w t : string) : lstrip w = "" -> lstrip (w ++ t) = lstrip t.
Proof.
  induction w as [w IH] using shorter_ind. intros Hw.
  destruct w as [|a w1]; [reflexivity|].
  cbn [append lstrip] in Hw |- *.
  destruct (isspace a); [apply IH; [cbn; lia | exact Hw]|].
  destruct w1 as [|b w2]; [discriminate Hw|]. cbn [append].
  destruct (isspace2 a b); [apply IH; [cbn; lia | exact Hw]|].
  destruct w2 as [|c w3]; [discriminate Hw|]. cbn [append].
  destruct (isspace3 a b c); [apply IH; [cbn; lia | exact Hw]|].
  discriminate Hw.
Qed.

(** [rstrip] cuts off white space only. *)
Lemma rstrip_split (s : string) :
  exists t, s = (rstrip s ++ t)%string /\ lstrip t = "".
Proof.
  induction s as [|c s (t & E & Ht)].
  - exists "". split; reflexivity.
  - cbn [rstrip]. destruct (lstrip (String c s)) eqn:El; cbn [is_empty].
    + exists (String c s). split; [reflexivity | exact El].
    + exists t. split; [cbn [append]; now rewrite <- E | exact Ht].
Qed.

Lemma clean_prefix (p t : string) : clean (p ++ t) -> clean p.
Proof.
  destruct p as [|a [|b [|c p3]]]; cbn [append clean]; [easy | | | easy].
  - intros [Ha _]. now split.
  - intros (Ha & Hb & _). now repeat split.
Qed.

Lemma rstrip_clean (s : string) : clean s -> clean (rstrip s).
Proof.
  intros H. destruct (rstrip_split s) as (t & E & _).
  rewrite E in H. exact (clean_prefix _ _ H).
Qed.

Lemma rstrip_idem (s : string) : rstrip (rstrip s) = rstrip s.
Proof.
  induction s as [|c s IH]; [reflexivity|].
  cbn [rstrip]. destruct (lstrip (String c s)) as [|d r] eqn:El; cbn [is_empty];
    [reflexivity|].
  cbn [rstrip]. rewrite IH.
  destruct (lstrip (String c (rstrip s))) eqn:El'; cbn [is_empty]; [|reflexivity].
  exfalso. destruct (rstrip_split s) as (t & E & Ht).
  assert (H : lstrip (String c s) = "").
  { rewrite E at 1. change (String c (rstrip s ++ t)) with (String c (rstrip s) ++ t)%string.
    rewrite (lstrip_app _ t El'). exact Ht. }
  rewrite H in El. discriminate El.
Qed.

(** Stripping twice is stripping once. *)
Lemma strip_idem (s : string) : strip (strip s) = strip s.
Proof.
  unfold strip.
  rewrite (clean_lstrip (rstrip (lstrip s))).
  - apply rstrip_idem.
  - apply rstrip_clean, lstrip_clean.
Qed.

(** Only the empty string lowers to the empty string. *)
Lemma lower_is_empty (s : string) : is_empty (lower s) = is_empty s.
Proof.
  destruct s as [|a [|b [|c s3]]]; cbn [lower is_empty]; try reflexivity.
  now destruct (is_kelvin a b c).
Qed.

End StripFacts.

(** ** More on the chat *)

Module ChatMore.

Import PyStr Props More MonadFacts.

Section Facts.

Context {Model Tokenizer : Type}.
Variable W : World Model Tokenizer.
Variable self : Chat.LLaMAChat (Model:=Model) (Tokenizer:=Tokenizer).

(** One pass through the loop body always ends with [continue] or
    [break], never with an exception. *)
Lemma iteration_returns (key : option Keyboard) (s : State) :
  exists flow, result_of (Chat.chat_iteration W self key s) = Ok flow.
Proof.
  destruct key as [[line|]|].
  - destruct (ChatFacts.input_cases (strip line)) as [H|[H|[H|[H|H]]]].
    + rewrite (ChatFacts.iteration_empty W self line s H). now eexists.
    + rewrite (ChatFacts.iteration_exit W self line s H). now eexists.
    + rewrite (ChatFacts.iteration_clear W self line s H). now eexists.
    + destruct (ChatFacts.iteration_show W self line s H) as [lines E].
      rewrite E. now eexists.
    + rewrite (ChatFacts.iteration_message W self line s H). cbv zeta.
      destruct (chat_outcome _ _ _ _); now eexists.
  - now eexists.
  - now eexists.
Qed.

Lemma chat_loop_returns (keys : list Keyboard) (s : State) :
  result_of (Chat.chat_loop W self keys s) = Ok tt.
Proof.
  revert s. induction keys as [|key keys IH]; intros s; cbn [Chat.chat_loop].
  - unfold bind. rewrite (ChatFacts.iteration_eof W self). reflexivity.
  - unfold bind at 1.
    destruct (iteration_returns (Some key) s) as [flow E].
    destruct (Chat.chat_iteration W self (Some key) s) as [[r s1] t1].
    cbn [result_of fst] in E. subst r.
    destruct flow.
    + specialize (IH s1).
      destruct (Chat.chat_loop W self keys s1) as [[r2 s2] t2].
      exact IH.
    + reflexivity.
Qed.

Lemma chat_returns (keys : list Keyboard) (s : State) :
  result_of (Chat.chat W self keys s) = Ok tt.
Proof.
  unfold Chat.chat, bind, print, emit.
  pose proof (chat_loop_returns keys s) as H.
  destruct (Chat.chat_loop W self keys s) as [[r s1] t1]. exact H.
Qed.

(** Once a line ends the chat, what is typed after it is never read. *)
Lemma chat_loop_stops (keys1 keys2 : list Keyboard) (key : Keyboard) (s : State) :
  ends_chat key = true ->
  Chat.chat_loop W self (keys1 ++ key :: keys2) s
  = Chat.chat_loop W self (keys1 ++ [key]) s.
Proof.
  intros Hend. revert s.
  induction keys1 as [|key1 keys1 IH]; intros s; cbn [app Chat.chat_loop].
  - unfold bind.
    assert (E : exists s1 t1,
               Chat.chat_iteration W self (Some key) s = (Ok Chat.Break, s1, t1)).
    { destruct key as [line|].
      - rewrite (ChatFacts.iteration_exit W self line s Hend). now eexists _, _.
      - now eexists _, _. }
    destruct E as (s1 & t1 & E). rewrite E. reflexivity.
  - unfold bind.
    destruct (Chat.chat_iteration W self (Some key1) s) as [[[flow|e] s1] t1];
      [|reflexivity].
    destruct flow; [|reflexivity].
    now rewrite IH.
Qed.

(** White space around the typed line never matters. *)
Lemma iteration_strip (line : string) (s : State) :
  Chat.chat_iteration W self (Some (Typed line)) s
  = Chat.chat_iteration W self (Some (Typed (strip line))) s.
Proof.
  cbv beta iota zeta delta [Chat.chat_iteration Chat.input try_except bind emit ret].
  rewrite StripFacts.strip_idem. reflexivity.
Qed.

(** For a line that is not empty and not a message, only its lower-case
    form matters. *)
Lemma iteration_command_case (line1 line2 : string) (s : State) :
  is_empty (strip line1) = false ->
  is_message (strip line1) = false ->
  lower (strip line1) = lower (strip line2) ->
  Chat.chat_iteration W self (Some (Typed line1)) s
  = Chat.chat_iteration W self (Some (Typed line2)) s.
Proof.
  intros Hne Hcmd Hlow.
  assert (Hne2 : is_empty (strip line2) = false).
  { rewrite <- StripFacts.lower_is_empty, <- Hlow, StripFacts.lower_is_empty. exact Hne. }
  unfold is_message in Hcmd. rewrite Hne in Hcmd. cbn [negb andb] in Hcmd.
  apply negb_false_iff in Hcmd.
  unfold mem, exit_words, show_words in Hcmd. cbn [app existsb] in Hcmd.
  cbv beta iota zeta delta [Chat.chat_iteration Chat.input try_except bind emit ret mem existsb].
  rewrite Hne, Hne2, <- Hlow.
  destruct (lower (strip line1) =? "quit")%string; [reflexivity|].
  destruct (lower (strip line1) =? "exit")%string; [reflexivity|].
  destruct (lower (strip line1) =? "bye")%string; [reflexivity|].
  destruct (lower (strip line1) =? "clear")%string; [reflexivity|].
  destruct (lower (strip line1) =? "help")%string; [reflexivity|].
  destruct (lower (strip line1) =? "history")%string; [reflexivity|].
  destruct (lower (strip line1) =? "stats")%string; [reflexivity|].
  discriminate Hcmd.
Qed.

Lemma generate_calls_map_print (lines : list (list Piece)) :
  generate_calls (map (EvPrint (Model:=Model) (Tokenizer:=Tokenizer)) lines) = [].
Proof. induction lines as [|l lines IH]; [reflexivity | exact IH]. Qed.

(** A pass that is not a message turn does not reach the library: no
    [generate] call, and the counters of calls and of clock readings stay. *)
Lemma iteration_quiet (key : option Keyboard) (s : State) :
  match key with
  | Some k => is_message_key k = false
  | None => True
  end ->
  let r := Chat.chat_iteration W self key s in
  generate_calls (trace_of r) = []
  /\ gen_calls (state_of r) = gen_calls s
  /\ clock_reads (state_of r) = clock_reads s.
Proof.
  intros Hk r. subst r. destruct key as [[line|]|].
  - cbn [is_message_key] in Hk.
    destruct (ChatFacts.input_cases (strip line)) as [H|[H|[H|[H|H]]]].
    + rewrite (ChatFacts.iteration_empty W self line s H). repeat split.
    + rewrite (ChatFacts.iteration_exit W self line s H). repeat split.
    + rewrite (ChatFacts.iteration_clear W self line s H). repeat split.
    + destruct (ChatFacts.iteration_show W self line s H) as [lines E].
      rewrite E. cbn [trace_of state_of fst snd generate_calls].
      rewrite generate_calls_map_print. repeat split.
    + congruence.
  - repeat split.
  - repeat split.
Qed.

(** A message turn calls [generate] exactly once. *)
Lemma iteration_message_calls (line : string) (s : State) :
  is_message (strip line) = true ->
  let r := Chat.chat_iteration W self (Some (Typed line)) s in
  List.length (generate_calls (trace_of r)) = 1
  /\ gen_calls (state_of r) = S (gen_calls s).
Proof.
  intros Hm r. subst r. rewrite (ChatFacts.iteration_message W self line s Hm).
  cbv zeta. destruct (chat_outcome _ _ _ _); split; reflexivity.
Qed.

(** Over the whole loop the library is called at most once for each
    message line that was typed. *)
Lemma chat_loop_calls (keys : list Keyboard) (s : State) :
  List.length (generate_calls (trace_of (Chat.chat_loop W self keys s)))
  <= List.length (filter is_message_key keys).
Proof.
  revert s. induction keys as [|key keys IH]; intros s; cbn [Chat.chat_loop].
  - unfold bind. rewrite (ChatFacts.iteration_eof W self). cbn. lia.
  - rewrite trace_bind, generate_calls_app, length_app.
    assert (H1 : List.length
                   (generate_calls (trace_of (Chat.chat_iteration W self (Some key) s)))
                 = if is_message_key key then 1 else 0).
    { destruct (is_message_key key) eqn:Hk.
      - destruct key as [line|]; [|discriminate].
        apply (iteration_message_calls line s Hk).
      - destruct (iteration_quiet (Some key) s Hk) as [E _]. now rewrite E. }
    rewrite H1.
    assert (H2 : List.length
                   (generate_calls
                      match result_of (Chat.chat_iteration W self (Some key) s) with
                      | Ok a =>
                          trace_of
                            (match a with
                             | Chat.Continue => Chat.chat_loop W self keys
                             | Chat.Break => ret tt
                             end (state_of (Chat.chat_iteration W self (Some key) s)))
                      | Err _ => []
                      end)
                 <= List.length (filter is_message_key keys)).
    { destruct (result_of _) as [[|]|e]; cbn [generate_calls List.length trace_of ret snd];
        [apply IH | lia | lia]. }
    cbn [filter]. destruct (is_message_key key); cbn [List.length]; lia.
Qed.

(** What the chat stores is tidy: one pass keeps a tidy history tidy. *)
Lemma clean_response_stripped (response : string) :
  strip (clean_response response) = clean_response response.
Proof.
  unfold clean_response. cbv zeta.
  destruct (startswith _ _); apply StripFacts.strip_idem.
Qed.

Lemma iteration_tidy (key : option Keyboard) (s : State) :
  tidy (conversation_history s) ->
  tidy (conversation_history (state_of (Chat.chat_iteration W self key s))).
Proof.
  intros Ht. pose proof (ChatFacts.iteration_history W self key s) as Hh.
  cbv zeta in Hh. destruct key as [[line|]|].
  - destruct Hh as (Hsame & Hclear & Hmsg).
    assert (Huser : is_message (strip line) = true -> tidy_message (user_msg (strip line))).
    { intros Hm. split; cbn [content user_msg].
      - apply StripFacts.strip_idem.
      - intros _ E. unfold is_message in Hm. rewrite E in Hm. discriminate. }
    destruct (ChatFacts.input_cases (strip line)) as [H|[H|[H|[H|H]]]].
    + rewrite Hsame by now left. exact Ht.
    + rewrite Hsame by (right; unfold mem; rewrite existsb_app; apply orb_true_iff; now left).
      exact Ht.
    + destruct (Hclear H) as [-> _]. constructor.
    + rewrite Hsame by (right; unfold mem; rewrite existsb_app; apply orb_true_iff; now right).
      exact Ht.
    + specialize (Hmsg H). specialize (Huser H).
      destruct (chat_outcome _ _ _ _); destruct Hmsg as [-> _];
        apply Forall_app; split; try exact Ht; repeat constructor;
        try exact (proj1 Huser); try exact (proj2 Huser);
        cbn [content role assistant_msg]; try discriminate.
      * apply clean_response_stripped.
  - destruct Hh as [-> _]. exact Ht.
  - destruct Hh as [-> _]. exact Ht.
Qed.

Lemma chat_loop_tidy (keys : list Keyboard) (s : State) :
  tidy (conversation_history s) ->
  tidy (conversation_history (state_of (Chat.chat_loop W self keys s))).
Proof.
  revert s. induction keys as [|key keys IH]; intros s Ht; cbn [Chat.chat_loop].
  - unfold bind. rewrite (ChatFacts.iteration_eof W self). exact Ht.
  - unfold bind at 1.
    pose proof (iteration_tidy (Some key) s Ht) as Ht1.
    destruct (Chat.chat_iteration W self (Some key) s) as [[[flow|e] s1] t1];
      cbn [state_of fst snd] in *.
    + destruct flow; [|exact Ht1].
      specialize (IH s1 Ht1).
      destruct (Chat.chat_loop W self keys s1) as [[r2 s2] t2]. exact IH.
    + exact Ht1.
Qed.

End Facts.

(** *** The prompt of a turn *)

Lemma last_n_snoc {A} (n : nat) (l : list A) (x : A) :
  PyList.last_n (S n) (l ++ [x]) = PyList.last_n n l ++ [x].
Proof.
  unfold PyList.last_n. rewrite length_app, skipn_app. cbn [List.length].
  replace (List.length l + 1 - S n) with (List.length l - n) by lia.
  replace (List.length l - n - List.length l) with 0 by lia.
  reflexivity.
Qed.

Lemma concat_empty_app (l1 l2 : list string) :
  String.concat "" (l1 ++ l2)
  = (String.concat "" l1 ++ String.concat "" l2)%string.
Proof.
  induction l1 as [|x l1 IH]; [reflexivity|].
  cbn [app]. rewrite !FormatPrompt.concat_empty_cons, IH. now rewrite append_assoc.
Qed.

(** In a turn the history already ends with the new message when the
    prompt is built: the prompt holds the last 7 earlier messages, then
    the new message twice, then the assistant header. *)
Lemma format_prompt_turn (h : list Message) (u : string) :
  Chat.format_prompt (h ++ [user_msg u]) u
  = (String.concat "" (map render_message (PyList.last_n 7 h))
       ++ Chat.user_block u ++ Chat.user_block u
       ++ Chat.im_start ++ "assistant" ++ nl)%string.
Proof.
  rewrite FormatPrompt.format_prompt_template, last_n_snoc.
  unfold chat_template. rewrite map_app, concat_empty_app.
  cbn [map]. rewrite FormatPrompt.concat_empty_cons. cbn [String.concat].
  change (render_message (user_msg u)) with (Chat.user_block u).
  now rewrite append_nil_r, append_assoc.
Qed.

(** *** The numbers of [show_stats] *)

Lemma count_role_cons (r : string) (msg : Message) (h : list Message) :
  Chat.count_role r (msg :: h)
  = ((if (role msg =? r)%string then 1 else 0) + Chat.count_role r h)%Z.
Proof.
  unfold Chat.count_role. cbn [filter].
  destruct (role msg =? r)%string; cbn [List.length]; lia.
Qed.

(** On a history whose roles alternate from [expect_user], the messages
    of the user and of the assistant add up to all messages, and the role
    that comes first has as many messages as the other or one more. *)
Lemma alternating_counts (b : bool) (h : list Message) :
  alternating_from b h = true ->
  let first := if b then "user" else "assistant" in
  let second := if b then "assistant" else "user" in
  (Chat.count_role "user" h + Chat.count_role "assistant" h = Z.of_nat (List.length h))%Z
  /\ (Chat.count_role first h
      = Chat.count_role second h + (if Nat.even (List.length h) then 0 else 1))%Z.
Proof.
  revert b. induction h as [|msg h IH]; intros b H; [split; reflexivity|].
  cbn [alternating_from] in H. apply andb_prop in H as [Hr Hh].
  apply String.eqb_eq in Hr. specialize (IH (negb b) Hh). cbv zeta in IH.
  destruct IH as [IH1 IH2]. cbv zeta.
  rewrite !count_role_cons, Hr. cbn [List.length]. rewrite Nat.even_succ, <- Nat.negb_even.
  destruct b; cbn [negb] in *; cbn [String.eqb Ascii.eqb Bool.eqb] in *;
    destruct (Nat.even (List.length h)); cbn [negb]; split; lia.
Qed.

Section Shows.

Context {Model Tokenizer : Type}.
Variable W : World Model Tokenizer.
Variable self : Chat.LLaMAChat (Model:=Model) (Tokenizer:=Tokenizer).

(** [show_history] prints one line on the empty history and otherwise a
    header and one line for each message; it changes nothing. *)
Lemma show_history_lines (s : State) :
  exists lines,
    Chat.show_history (Model:=Model) (Tokenizer:=Tokenizer) s
    = (Ok tt, s, map EvPrint lines)
    /\ List.length lines
       = match conversation_history s with
         | [] => 1
         | h => S (List.length h)
         end
    /\ (conversation_history s = [] -> lines = [[Str "No conversation history yet."]]).
Proof.
  unfold Chat.show_history, bind, get.
  destruct (conversation_history s) as [|msg h] eqn:E.
  - exists [[Str "No conversation history yet."]]. repeat split.
  - unfold print at 1, emit. rewrite ChatFacts.for_each_print.
    eexists (_ :: _). split; [reflexivity|]. split; [|discriminate].
    cbn [List.length]. rewrite length_map, length_combine, length_seq.
    cbn [List.length]. now rewrite Nat.min_id.
Qed.

End Shows.

Section Facts2.

Context {Model Tokenizer : Type}.
Variable W : World Model Tokenizer.
Variable self : Chat.LLaMAChat (Model:=Model) (Tokenizer:=Tokenizer).

Lemma generate_calls_of_prints (t : list (Event Model Tokenizer)) :
  prints t -> generate_calls t = [].
Proof.
  induction 1 as [|ev t Hev _ IH]; [reflexivity|].
  destruct ev; try discriminate. exact IH.
Qed.

(** [main] when [load] raised: the exception leaves [main] and nothing
    was asked of the model. *)
Lemma chat_main_load_raises (argv : Chat.Args) (keys : list Keyboard) (msg : string)
  (s : State) :
  w_load W (or_default (Chat.args_model argv)) = Raises msg ->
  let r := Chat.main W argv keys s in
  result_of r = Err (Exception msg)
  /\ last_event (trace_of r) = Some (EvLoad (or_default (Chat.args_model argv)))
  /\ generate_calls (trace_of r) = []
  /\ count is_input (trace_of r) = 0.
Proof.
  intros Hload r. subst r.
  destruct (ChatFacts.main_run W argv keys s) as (before & between & Hb & _ & E).
  rewrite E. cbv zeta. rewrite Hload. cbn [result_of trace_of fst snd].
  split; [reflexivity|]. split; [|split].
  - rewrite app_comm_cons. unfold last_event. now rewrite rev_unit.
  - cbn [generate_calls]. rewrite generate_calls_app, (generate_calls_of_prints _ Hb).
    reflexivity.
  - unfold count. cbn [filter is_input]. rewrite filter_app. cbn [filter is_input].
    rewrite app_nil_r. clear E.
    induction Hb as [|ev t Hev _ IH]; [reflexivity|].
    destruct ev; try discriminate. exact IH.
Qed.

End Facts2.

End ChatMore.

(** X1: the chat loop never lets an exception escape.  Whatever is typed
    and however each [generate] call ends (it returns, raises, or is cut
    by Ctrl-C), every pass through the loop body ends with [continue] or
    [break] and [chat] returns.  [main] therefore returns whenever [load]
    returned, and otherwise ends with the exception of [load], which
    nothing catches. *)
Theorem X1_chat_always_returns {Model Tokenizer : Type}
  (W : World Model Tokenizer)
  (self : Chat.LLaMAChat (Model:=Model) (Tokenizer:=Tokenizer))
  (argv : Chat.Args) (keys : list Keyboard) (s : State) :
  (forall key, exists flow, result_of (Chat.chat_iteration W self key s) = Ok flow)
  /\ result_of (Chat.chat W self keys s) = Ok tt
  /\ result_of (Chat.main W argv keys s)
     = match w_load W (or_default (Chat.args_model argv)) with
       | Returns _ => Ok tt
       | Raises msg => Err (Exception msg)
       | Interrupted => Err KeyboardInterrupt
       end.
Proof.
  split; [intros key; apply ChatMore.iteration_returns|].
  split; [apply ChatMore.chat_returns|].
  destruct (ChatFacts.main_run W argv keys s) as (before & between & _ & _ & E).
  rewrite E. cbv zeta.
  destruct (w_load W (or_default (Chat.args_model argv))) as [mt|msg|];
    [|reflexivity|reflexivity].
  cbn [result_of fst]. apply ChatMore.chat_loop_returns.
Qed.

(** X2: once quit, exit, bye (in any letter case, with any white space
    around) or Ctrl-C has arrived, the chat reads nothing more: whatever
    would be typed after it changes neither the result, nor the state,
    nor the trace. *)
Theorem X2_nothing_read_after_exit {Model Tokenizer : Type}
  (W : World Model Tokenizer)
  (self : Chat.LLaMAChat (Model:=Model) (Tokenizer:=Tokenizer))
  (keys1 keys2 : list Keyboard) (key : Keyboard) (s : State) :
  More.ends_chat key = true ->
  Chat.chat_loop W self (keys1 ++ key :: keys2) s
  = Chat.chat_loop W self (keys1 ++ [key]) s.
Proof. apply ChatMore.chat_loop_stops. Qed.

(** The theorem at work: QUIT between two no-break spaces. *)
Lemma X2_nothing_read_after_exit_witness :
  More.ends_chat (Typed (PyStr.of_bytes [194; 160] ++ "QUIT" ++ PyStr.of_bytes [194; 160]))
  = true
  /\ Chat.chat_loop Sample.W_ok Sample.self
       ([Typed "hi"]
          ++ Typed (PyStr.of_bytes [194; 160] ++ "QUIT" ++ PyStr.of_bytes [194; 160])
          :: [Typed "still there?"; Typed "clear"])
       initial_state
     = Chat.chat_loop Sample.W_ok Sample.self
         ([Typed "hi"]
            ++ [Typed (PyStr.of_bytes [194; 160] ++ "QUIT" ++ PyStr.of_bytes [194; 160])])
         initial_state.
Proof.
  split; [reflexivity|].
  exact (X2_nothing_read_after_exit Sample.W_ok Sample.self [Typed "hi"]
           [Typed "still there?"; Typed "clear"]
           (Typed (PyStr.of_bytes [194; 160] ++ "QUIT" ++ PyStr.of_bytes [194; 160]))
           initial_state eq_refl).
Defined.

(** X3: a pass through the loop body depends on the typed line only
    through its stripped form; and for a line that is not empty and not a
    message for the model (a command), only through the lower-case form of
    the stripped line. *)
Theorem X3_input_normalisation {Model Tokenizer : Type}
  (W : World Model Tokenizer)
  (self : Chat.LLaMAChat (Model:=Model) (Tokenizer:=Tokenizer))
  (line1 line2 : string) (s : State) :
  Chat.chat_iteration W self (Some (Typed line1)) s
  = Chat.chat_iteration W self (Some (Typed (PyStr.strip line1))) s
  /\ (PyStr.is_empty (PyStr.strip line1) = false ->
      Props.is_message (PyStr.strip line1) = false ->
      PyStr.lower (PyStr.strip line1) = PyStr.lower (PyStr.strip line2) ->
      Chat.chat_iteration W self (Some (Typed line1)) s
      = Chat.chat_iteration W self (Some (Typed line2)) s).
Proof.
  split; [apply ChatMore.iteration_strip | apply ChatMore.iteration_command_case].
Qed.

Lemma X3_input_normalisation_witness :
  PyStr.is_empty (PyStr.strip " Clear ") = false
  /\ Props.is_message (PyStr.strip " Clear ") = false
  /\ PyStr.lower (PyStr.strip " Clear ") = PyStr.lower (PyStr.strip "CLEAR")
  /\ Chat.chat_iteration Sample.W_ok Sample.self (Some (Typed " Clear ")) initial_state
     = Chat.chat_iteration Sample.W_ok Sample.self (Some (Typed "CLEAR")) initial_state.
Proof.
  split; [reflexivity | split; [reflexivity | split; [reflexivity|]]].
  exact (proj2 (X3_input_normalisation Sample.W_ok Sample.self " Clear " "CLEAR"
                  initial_state) eq_refl eq_refl eq_refl).
Defined.

(** X4: only a message reaches the model.  A pass for a command, an empty
    line, Ctrl-C or the end of the input makes no [generate] call and
    leaves the counters of calls and of clock readings; a pass for a
    message makes exactly one call; so the whole loop makes at most one
    call for each message line that was typed. *)
Theorem X4_only_messages_reach_the_model {Model Tokenizer : Type}
  (W : World Model Tokenizer)
  (self : Chat.LLaMAChat (Model:=Model) (Tokenizer:=Tokenizer))
  (keys : list Keyboard) (s : State) :
  (forall key,
      match key with
      | Some k => More.is_message_key k = false
      | None => True
      end ->
      let r := Chat.chat_iteration W self key s in
      Props.generate_calls (trace_of r) = []
      /\ gen_calls (state_of r) = gen_calls s
      /\ clock_reads (state_of r) = clock_reads s)
  /\ (forall line,
      Props.is_message (PyStr.strip line) = true ->
      let r := Chat.chat_iteration W self (Some (Typed line)) s in
      List.length (Props.generate_calls (trace_of r)) = 1
      /\ gen_calls (state_of r) = S (gen_calls s))
  /\ List.length (Props.generate_calls (trace_of (Chat.chat_loop W self keys s)))
     <= List.length (filter More.is_message_key keys).
Proof.
  split; [intros key; apply ChatMore.iteration_quiet|].
  split; [intros line; apply ChatMore.iteration_message_calls|].
  apply ChatMore.chat_loop_calls.
Qed.

Lemma X4_only_messages_reach_the_model_witness :
  More.is_message_key (Typed "HELP") = false
  /\ Props.generate_calls
       (trace_of (Chat.chat_iteration Sample.W_ok Sample.self (Some (Typed "HELP"))
                    initial_state)) = [].
Proof.
  split; [reflexivity|].
  destruct (X4_only_messages_reach_the_model Sample.W_ok Sample.self [] initial_state)
    as (H & _).
  exact (proj1 (H (Some (Typed "HELP")) eq_refl)).
Defined.

(** X5: what the chat stores is tidy.  From a history in which every
    content is stripped of white space at both ends and every message of
    the user is not empty, each pass through the loop body and the whole
    loop leave such a history again: the user message is stored stripped
    and never empty, and the assistant message is the stripped response or
    the apology. *)
Theorem X5_history_is_tidy {Model Tokenizer : Type}
  (W : World Model Tokenizer)
  (self : Chat.LLaMAChat (Model:=Model) (Tokenizer:=Tokenizer))
  (keys : list Keyboard) (s : State) :
  More.tidy (conversation_history s) ->
  (forall key,
      More.tidy (conversation_history (state_of (Chat.chat_iteration W self key s))))
  /\ More.tidy (conversation_history (state_of (Chat.chat_loop W self keys s))).
Proof.
  intros Ht. split.
  - intros key. now apply ChatMore.iteration_tidy.
  - now apply ChatMore.chat_loop_tidy.
Qed.

Lemma X5_history_is_tidy_witness :
  More.tidy (conversation_history initial_state)
  /\ More.tidy
       (conversation_history
          (state_of (Chat.chat_loop Sample.W_ok Sample.self
                       [Typed "  hi  "; Typed " and you? "] initial_state))).
Proof.
  assert (H : More.tidy (conversation_history initial_state)) by constructor.
  split; [exact H|].
  exact (proj2 (X5_history_is_tidy Sample.W_ok Sample.self
                  [Typed "  hi  "; Typed " and you? "] initial_state H)).
Defined.

(** X6: in a turn, [chat] appends the new message to the history before
    [generate_response] builds the prompt, so the prompt holds the new
    message twice: it is the rendering of the last 7 earlier messages,
    then the block of the new message, then the same block again, then
    the assistant header; and this is the prompt that the turn hands to
    [generate]. *)
Theorem X6_prompt_of_a_turn {Model Tokenizer : Type}
  (W : World Model Tokenizer)
  (self : Chat.LLaMAChat (Model:=Model) (Tokenizer:=Tokenizer))
  (line : string) (s : State) :
  Props.is_message (PyStr.strip line) = true ->
  let h := conversation_history s in
  let u := PyStr.strip line in
  let prompt :=
    (String.concat "" (map Props.render_message (PyList.last_n 7 h))
       ++ Chat.user_block u ++ Chat.user_block u
       ++ Chat.im_start ++ "assistant" ++ PyStr.nl)%string in
  Chat.format_prompt (h ++ [Props.user_msg u]) u = prompt
  /\ map fst (Props.generate_calls
                (trace_of (Chat.chat_iteration W self (Some (Typed line)) s)))
     = [prompt].
Proof.
  intros Hm h u prompt.
  assert (E : Chat.format_prompt (h ++ [Props.user_msg u]) u = prompt)
    by apply ChatMore.format_prompt_turn.
  split; [exact E|].
  rewrite (ChatFacts.iteration_message W self line s Hm). cbv zeta.
  fold h u. rewrite E.
  destruct (Props.chat_outcome W self u _); reflexivity.
Qed.

Lemma X6_prompt_of_a_turn_witness :
  Props.is_message (PyStr.strip "hi") = true
  /\ map fst (Props.generate_calls
                (trace_of (Chat.chat_iteration Sample.W_ok Sample.self
                             (Some (Typed "hi")) initial_state)))
     = [(Chat.user_block "hi" ++ Chat.user_block "hi"
           ++ Chat.im_start ++ "assistant" ++ PyStr.nl)%string].
Proof.
  split; [reflexivity|].
  exact (proj2 (X6_prompt_of_a_turn Sample.W_ok Sample.self "hi" initial_state eq_refl)).
Defined.

(** X7: the numbers of [show_stats].  On a history whose roles alternate
    from "user", the count of user messages and the count of assistant
    messages that [show_stats] prints add up to the total that it prints,
    and the user has as many messages as the assistant, or one more when
    the number of messages is odd; between two turns of the chat, where
    the entries come in pairs, the two counts are equal.  [show_stats]
    changes nothing. *)
Theorem X7_show_stats_numbers {Model Tokenizer : Type}
  (self : Chat.LLaMAChat (Model:=Model) (Tokenizer:=Tokenizer)) (s : State) :
  Props.alternates (conversation_history s) ->
  let h := conversation_history s in
  let total := Z.of_nat (List.length h) in
  let users := Chat.count_role "user" h in
  let assistants := Chat.count_role "assistant" h in
  (exists before after,
      Chat.show_stats self s
      = (Ok tt, s,
         before
         ++ [EvPrint [Str "  Total messages: "; Int total];
             EvPrint [Str "  User messages: "; Int users];
             EvPrint [Str "  Assistant messages: "; Int assistants]]
         ++ after))
  /\ (users + assistants = total)%Z
  /\ (users = assistants + (if Nat.even (List.length h) then 0 else 1))%Z
  /\ (Props.loop_inv h -> users = assistants).
Proof.
  intros Ha h total users assistants.
  destruct (ChatMore.alternating_counts true h Ha) as [H1 H2]. cbv zeta in H1, H2.
  split; [|split; [exact H1 | split; [exact H2|]]].
  - eexists [_], (_ :: _ :: [_]). reflexivity.
  - intros [_ He]. fold users assistants in H2. rewrite He in H2.
    rewrite H2. apply Z.add_0_r.
Qed.

Lemma X7_show_stats_numbers_witness :
  Props.alternates (conversation_history (set_history Sample.nine_messages initial_state))
  /\ (Chat.count_role "user" Sample.nine_messages
      = Chat.count_role "assistant" Sample.nine_messages + 1)%Z.
Proof.
  assert (H : Props.alternates
                (conversation_history (set_history Sample.nine_messages initial_state)))
    by reflexivity.
  split; [exact H|].
  exact (proj1 (proj2 (proj2 (X7_show_stats_numbers Sample.self
                                (set_history Sample.nine_messages initial_state) H)))).
Defined.

(** X8: [show_history] prints only, and changes nothing: the single line
    "No conversation history yet." on the empty history, and otherwise a
    header followed by one line for each message. *)
Theorem X8_show_history_lines {Model Tokenizer : Type} (s : State) :
  exists lines,
    Chat.show_history (Model:=Model) (Tokenizer:=Tokenizer) s
    = (Ok tt, s, map EvPrint lines)
    /\ List.length lines
       = match conversation_history s with
         | [] => 1
         | h => S (List.length h)
         end
    /\ (conversation_history s = [] -> lines = [[Str "No conversation history yet."]]).
Proof. apply ChatMore.show_history_lines. Qed.

(** X9: [generate_response] lets no exception of class [Exception]
    escape, and what it returns has no white space at either end: it
    returns the cleaned response when [generate] returned, the apology
    when [generate] raised, and only a Ctrl-C during [generate] leaves it
    as [KeyboardInterrupt].  It never changes the history. *)
Theorem X9_generate_response_result {Model Tokenizer : Type}
  (W : World Model Tokenizer)
  (self : Chat.LLaMAChat (Model:=Model) (Tokenizer:=Tokenizer))
  (user_input : string) (s : State) :
  let r := Chat.generate_response W self user_input s in
  match Props.chat_outcome W self user_input s with
  | Returns response =>
      result_of r = Ok (Props.clean_response response)
      /\ PyStr.strip (Props.clean_response response) = Props.clean_response response
  | Raises _ =>
      result_of r = Ok Chat.apology /\ PyStr.strip Chat.apology = Chat.apology
  | Interrupted => result_of r = Err KeyboardInterrupt
  end
  /\ conversation_history (state_of r) = conversation_history s.
Proof.
  intros r. subst r. rewrite ChatFacts.generate_response_run. cbv zeta.
  destruct (Props.chat_outcome W self user_input s); split; try reflexivity.
  - split; [reflexivity | apply ChatMore.clean_response_stripped].
  - split; reflexivity.
Qed.

(** ** More on the runner *)

Module RunMore.

Import PyStr Props More MonadFacts.

Section Facts.

Context {Model Tokenizer : Type}.
Variable W : World Model Tokenizer.

Ltac run_all :=
  unfold RunLlama.main, RunLlama.parse_args, RunLlama.load_model,
    RunLlama.load_model_except, RunLlama.generate_text,
    RunLlama.generate_text_except, truediv, sys_exit, raise,
    try_except, bind, print, emit, load, generate, time_time, ret;
  cbv zeta.

(** [generate_text], case by case on how [generate] ends and on whether
    the measured time is zero. *)
Lemma generate_text_run (model : Model) (tokenizer : Tokenizer) (prompt : string)
  (max_tokens : Z) (temperature : Q) (s : State) :
  let r := RunLlama.generate_text W model tokenizer prompt max_tokens temperature s in
  let elapsed := (w_time W (S (clock_reads s)) - w_time W (clock_reads s))%Q in
  match w_generate W (gen_calls s) model tokenizer prompt
          (run_kwargs max_tokens temperature) with
  | Returns response =>
      In (EvPrint [Str ("Response:" ++ nl); Str response]) (trace_of r)
      /\ if Qeq_bool elapsed 0
         then result_of r = Ok None
              /\ last_event (trace_of r)
                 = Some (EvPrint [Str "Error during generation: ";
                                  ExnText (ZeroDivisionError 69)])
         else result_of r = Ok (Some response)
  | Raises msg =>
      result_of r = Ok None
      /\ last_event (trace_of r)
         = Some (EvPrint [Str "Error during generation: "; ExnText (Exception msg)])
  | Interrupted => result_of r = Err KeyboardInterrupt
  end.
Proof.
  run_all. unfold run_kwargs.
  cbn [gen_calls clock_reads set_clock_reads set_gen_calls].
  destruct (w_generate W _ _ _ _ _) as [response|msg|]; cbn [of_outcome]; cbv beta iota.
  - destruct (Qeq_bool _ 0); cbv beta iota; cbn [trace_of result_of fst snd app];
      (split; [cbn; tauto|]); try split; reflexivity.
  - split; reflexivity.
  - reflexivity.
Qed.

(** How [main] ends once [load] returned. *)
Lemma main_end (argv : RunLlama.Args) (mt : Model * Tokenizer) (s : State) :
  w_load W (load_path (RunLlama.args_model argv)) = Returns mt ->
  let r := RunLlama.main W argv s in
  let elapsed := (w_time W (S (clock_reads s)) - w_time W (clock_reads s))%Q in
  match w_generate W (gen_calls s) (fst mt) (snd mt) (RunLlama.args_prompt argv)
          (run_kwargs (RunLlama.args_max_tokens argv) (RunLlama.args_temperature argv)) with
  | Returns response =>
      result_of r = Ok tt
      /\ last_event (trace_of r)
         = Some (EvPrint
                   [Str (if negb (is_empty response) && negb (Qeq_bool elapsed 0)
                         then nl ++ "Generation completed successfully!"
                         else nl ++ "Generation failed!")%string])
  | Raises _ =>
      result_of r = Ok tt
      /\ last_event (trace_of r) = Some (EvPrint [Str (nl ++ "Generation failed!")])
  | Interrupted => result_of r = Err KeyboardInterrupt
  end.
Proof.
  intros Hload. run_all. unfold run_kwargs.
  cbn [gen_calls clock_reads set_clock_reads set_gen_calls].
  fold (load_path (RunLlama.args_model argv)). rewrite Hload. cbn [of_outcome].
  destruct (w_metal_available W); cbv beta iota; cbn [fst snd];
    destruct (w_generate W _ _ _ _ _) as [response|msg|]; cbn [of_outcome];
    cbv beta iota; try (split; reflexivity); try reflexivity;
    destruct (Qeq_bool _ 0); cbv beta iota; cbn [RunLlama.truthy negb andb];
    rewrite ?andb_true_r, ?andb_false_r;
    destruct (is_empty response); cbn [negb]; split; reflexivity.
Qed.

(** How [main] ends when [load] raised. *)
Lemma run_main_load_raises (argv : RunLlama.Args) (msg : string) (s : State) :
  w_load W (load_path (RunLlama.args_model argv)) = Raises msg ->
  let r := RunLlama.main W argv s in
  result_of r = Err (SystemExit 1)
  /\ last_event (trace_of r)
     = Some (EvPrint [Str "Make sure you have sufficient memory (32GB+ recommended)"])
  /\ In (EvPrint [Str "Error loading model: "; ExnText (Exception msg)]) (trace_of r)
  /\ generate_calls (trace_of r) = [].
Proof.
  intros Hload. run_all.
  fold (load_path (RunLlama.args_model argv)). rewrite Hload. cbn [of_outcome].
  destruct (w_metal_available W); cbv beta iota; repeat split; cbn; tauto.
Qed.

End Facts.

End RunMore.

(** ** More on the benchmark *)

Module BenchMore.

Import PyStr Props More MonadFacts.

Section Facts.

Context {Model Tokenizer : Type}.
Variable W : World Model Tokenizer.

Lemma catchable_library :
  (forall msg, catchable (Exception msg)) /\ catchable KeyboardInterrupt.
Proof. split; [intros msg; now left | now right]. Qed.

Lemma catchable_division (lineno : nat) : catchable (ZeroDivisionError lineno).
Proof. now left. Qed.

(** Whatever [benchmark_model] raises, one of the two clauses of [main]
    catches it. *)
Lemma benchmark_model_catchable (model_path : option string) (num_runs : Z) :
  post (Benchmark.benchmark_model W model_path num_runs) (fun _ => True) catchable.
Proof.
  destruct catchable_library as [H1 H2].
  unfold Benchmark.benchmark_model, Benchmark.prompt_body, Benchmark.run_body. cbv zeta.
  repeat first
    [ apply BenchFacts.post_ret; exact I
    | apply BenchFacts.post_print
    | apply BenchFacts.post_time
    | apply BenchFacts.post_memory
    | apply BenchFacts.post_load; assumption
    | apply BenchFacts.post_generate; assumption
    | apply BenchFacts.post_truediv; intros _; apply catchable_division
    | apply BenchFacts.post_for_each; intros ? ?
    | apply BenchFacts.post_bind with (Q1 := fun _ => True); [ | intros ? _ ]
    | match goal with
      | |- post (if ?b then _ else _) _ _ => destruct b
      end ].
Qed.

(** Writing the results prints five lines for each and changes nothing. *)
Lemma write_results_run (results : list Benchmark.BenchResult) (s : State) :
  for_each results (Benchmark.write_result (Model:=Model) (Tokenizer:=Tokenizer)) tt s
  = (Ok tt, s, flat_map result_writes results).
Proof.
  induction results as [|result results IH]; cbn [for_each flat_map]; [reflexivity|].
  unfold bind at 1. unfold Benchmark.write_result at 1.
  unfold bind, emit. cbv beta iota. rewrite IH. reflexivity.
Qed.

(** [main] when [benchmark_model] returned: the results are written to
    the file named after the time stamp. *)
Lemma main_on_return (argv : Benchmark.Args) (s s1 : State)
  (results : list Benchmark.BenchResult) (t1 : list (Event Model Tokenizer)) :
  Benchmark.benchmark_model W (Benchmark.args_model argv) (Benchmark.args_runs argv) s
  = (Ok results, s1, t1) ->
  let file := ("benchmark_results_" ++ w_strftime W ++ ".txt")%string in
  Benchmark.main W argv s
  = (Ok tt, s1,
     EvParseArgs :: t1
     ++ EvOpen file
        :: EvWrite [Str ("MLX LLaMA-2-13B Benchmark Results" ++ nl)]
        :: EvWrite [Str (repeat "=" 50 ++ nl ++ nl)]
        :: flat_map result_writes results
     ++ [EvPrint [Str (nl ++ "Results saved to: "); Str file]]).
Proof.
  intros E file. unfold Benchmark.main, Benchmark.parse_args.
  unfold bind at 1. unfold bind at 1. unfold emit at 1. unfold ret at 1.
  cbv beta iota. unfold try_except. unfold bind at 1. rewrite E. cbv beta iota zeta.
  unfold bind at 1. unfold emit at 1. cbv beta iota.
  unfold bind at 1. unfold emit at 1. cbv beta iota.
  unfold bind at 1. unfold emit at 1. cbv beta iota.
  unfold bind at 1. rewrite write_results_run. cbv beta iota.
  unfold print, emit. cbn [app]. rewrite <- ?app_assoc. reflexivity.
Qed.

(** [main] when [benchmark_model] raised: a line is printed, no file is
    opened, and [main] returns. *)
Lemma main_on_error (argv : Benchmark.Args) (s s1 : State) (e : pyexn)
  (t1 : list (Event Model Tokenizer)) :
  Benchmark.benchmark_model W (Benchmark.args_model argv) (Benchmark.args_runs argv) s
  = (Err e, s1, t1) ->
  catchable e ->
  Benchmark.main W argv s
  = (Ok tt, s1, EvParseArgs :: t1 ++ [EvPrint (failure_line e)]).
Proof.
  intros E Hc. unfold Benchmark.main, Benchmark.parse_args.
  unfold bind at 1. unfold bind at 1. unfold emit at 1. unfold ret at 1.
  cbv beta iota. unfold try_except. unfold bind at 1. rewrite E. cbv beta iota.
  unfold failure_line. cbn [select_clause].
  destruct Hc as [Hc| ->].
  - destruct (is_KeyboardInterrupt e) eqn:Hk.
    + reflexivity.
    + rewrite Hc. reflexivity.
  - reflexivity.
Qed.

(** With a number of runs that is zero or negative the loop over the runs
    is empty, and the first average divides by zero as soon as [load]
    returned: [generate] is not called. *)
Lemma benchmark_model_nonpositive (model_path : option string) (num_runs : Z)
  (mt : Model * Tokenizer) (s : State) :
  (num_runs <= 0)%Z ->
  w_load W (or_default model_path) = Returns mt ->
  exists s' t,
    Benchmark.benchmark_model W model_path num_runs s
    = (Err (ZeroDivisionError 92), s', t)
    /\ generate_calls t = [].
Proof.
  intros Hn Hload.
  assert (Hz : Z.to_nat num_runs = 0) by lia.
  unfold Benchmark.benchmark_model.
  do 4 (unfold bind at 1; unfold print at 1; unfold emit at 1; cbv beta iota).
  unfold bind at 1. unfold Benchmark.get_memory_usage at 1. cbv beta iota.
  unfold bind at 1. unfold time_time at 1. cbv beta iota.
  unfold bind at 1. unfold load at 1. rewrite Hload. cbn [of_outcome].
  cbv beta iota zeta.
  unfold bind at 1. unfold time_time at 1. cbv beta iota.
  unfold bind at 1. unfold Benchmark.get_memory_usage at 1. cbv beta iota.
  do 3 (unfold bind at 1; unfold print at 1; unfold emit at 1; cbv beta iota).
  unfold bind at 1.
  unfold Benchmark.test_prompts. cbn [List.length seq combine for_each].
  unfold bind at 1. unfold Benchmark.prompt_body at 1. cbn [fst snd].
  do 2 (unfold bind at 1; unfold print at 1; unfold emit at 1; cbv beta iota).
  unfold bind at 1. unfold PyList.range. rewrite Hz. cbn [seq for_each].
  unfold ret at 1. cbv beta iota zeta. cbn [fst snd List.length].
  unfold bind at 1. rewrite BenchFacts.truediv_zero by reflexivity. cbv beta iota.
  eexists _, _. split; reflexivity.
Qed.

(** Whenever a prompt is done, one result was appended: it names the
    prompt and holds its number of tokens, and its speed is the quotient
    of its two averages. *)
Lemma prompt_body_result (model : Model) (tokenizer : Tokenizer) (num_runs : Z)
  (ip : nat * string) (results : list Benchmark.BenchResult) :
  post (Benchmark.prompt_body W model tokenizer num_runs ip results)
    (fun results' =>
       exists r,
         results' = results ++ [r]
         /\ Benchmark.prompt r = snd ip
         /\ Benchmark.input_tokens r = count_tokens W tokenizer (snd ip)
         /\ Benchmark.avg_tokens_per_second r
            = (Benchmark.avg_output_tokens r / Benchmark.avg_generation_time r)%Q
         /\ ~ (Benchmark.avg_generation_time r == 0)%Q)
    (fun _ => True).
Proof.
  intros s. unfold Benchmark.prompt_body. cbv zeta.
  unfold bind at 1. unfold print at 1. unfold emit at 1. cbv beta iota.
  unfold bind at 1. unfold print at 1. unfold emit at 1. cbv beta iota.
  unfold bind at 1.
  destruct (for_each _ _ _ s) as [[[acc|e] s1] t1]; [|exact I].
  unfold bind at 1. unfold truediv at 1.
  destruct (Qeq_bool (inject_Z (Z.of_nat (List.length (fst acc)))) 0); [exact I|].
  unfold ret at 1. cbv beta iota.
  unfold bind at 1. unfold truediv at 1.
  destruct (Qeq_bool (inject_Z (Z.of_nat (List.length (snd acc)))) 0); [exact I|].
  unfold ret at 1. cbv beta iota.
  unfold bind at 1. unfold truediv at 1.
  destruct (Qeq_bool (PyList.sum (fst acc) / _) 0) eqn:Hz; [exact I|].
  unfold ret at 1. cbv beta iota.
  unfold bind, print, emit, ret. cbv beta iota. cbn [result_of fst].
  eexists. split; [reflexivity|]. cbn. repeat split.
  intros H. apply Qeq_bool_iff in H. congruence.
Qed.

Lemma prompts_result (model : Model) (tokenizer : Tokenizer) (num_runs : Z)
  (ips : list (nat * string)) (results : list Benchmark.BenchResult) :
  post (for_each ips (Benchmark.prompt_body W model tokenizer num_runs) results)
    (fun results' =>
       exists rs,
         results' = results ++ rs
         /\ map Benchmark.prompt rs = map snd ips
         /\ map Benchmark.input_tokens rs = map (fun ip => count_tokens W tokenizer (snd ip)) ips
         /\ Forall (fun r =>
                      Benchmark.avg_tokens_per_second r
                      = (Benchmark.avg_output_tokens r / Benchmark.avg_generation_time r)%Q
                      /\ ~ (Benchmark.avg_generation_time r == 0)%Q) rs)
    (fun _ => True).
Proof.
  revert results. induction ips as [|ip ips IH]; intros results; cbn [for_each].
  - apply BenchFacts.post_ret. exists []. rewrite app_nil_r. repeat split. constructor.
  - eapply BenchFacts.post_bind; [apply prompt_body_result|].
    intros results1 (r & -> & Hp & Ht & Hs & Hnz) s.
    specialize (IH (results ++ [r]) s).
    destruct (result_of _) as [results'|e]; [|exact I].
    destruct IH as (rs & -> & Hps & Hts & Hall).
    exists (r :: rs). rewrite <- app_assoc. cbn [map app].
    repeat split; try congruence.
    constructor; [split; assumption | exact Hall].
Qed.

(** Whenever [benchmark_model] returns, its results name the five prompts
    in their order, each with its number of tokens under the tokenizer
    that [load] returned. *)
Lemma benchmark_model_results (model_path : option string) (num_runs : Z) :
  post (Benchmark.benchmark_model W model_path num_runs)
    (fun results =>
       map Benchmark.prompt results = Benchmark.test_prompts
       /\ (exists mt,
              w_load W (or_default model_path) = Returns mt
              /\ map Benchmark.input_tokens results
                 = map (count_tokens W (snd mt)) Benchmark.test_prompts)
       /\ Forall (fun r =>
                    Benchmark.avg_tokens_per_second r
                    = (Benchmark.avg_output_tokens r / Benchmark.avg_generation_time r)%Q
                    /\ ~ (Benchmark.avg_generation_time r == 0)%Q) results)
    (fun _ => True).
Proof.
  unfold Benchmark.benchmark_model. cbv zeta.
  do 4 (apply BenchFacts.post_bind with (Q1 := fun _ => True);
        [apply BenchFacts.post_print | intros _ _]).
  apply BenchFacts.post_bind with (Q1 := fun _ => True);
    [apply BenchFacts.post_memory | intros start_memory _].
  apply BenchFacts.post_bind with (Q1 := fun _ => True);
    [apply BenchFacts.post_time | intros load_start _].
  apply BenchFacts.post_bind
    with (Q1 := fun mt => w_load W (or_default model_path) = Returns mt).
  { intros s. unfold load. cbn [result_of fst].
    destruct (w_load W (or_default model_path)); cbn [of_outcome]; auto. }
  intros mt Hload.
  apply BenchFacts.post_bind with (Q1 := fun _ => True);
    [apply BenchFacts.post_time | intros now _].
  apply BenchFacts.post_bind with (Q1 := fun _ => True);
    [apply BenchFacts.post_memory | intros after_load_memory _].
  do 3 (apply BenchFacts.post_bind with (Q1 := fun _ => True);
        [apply BenchFacts.post_print | intros _ _]).
  eapply BenchFacts.post_bind; [apply prompts_result|].
  intros results (rs & -> & Hps & Hts & Hall). cbn [app] in *.
  apply BenchFacts.post_bind with (Q1 := fun _ => True);
    [apply BenchFacts.post_print | intros _ _].
  apply BenchFacts.post_bind with (Q1 := fun _ => True);
    [apply BenchFacts.post_truediv; auto | intros overall_speed _].
  repeat (apply BenchFacts.post_bind with (Q1 := fun _ => True);
          [apply BenchFacts.post_print | intros _ _]).
  apply BenchFacts.post_ret.
  split; [|split; [exists mt; split; [exact Hload|] | exact Hall]].
  - rewrite Hps. unfold Benchmark.test_prompts. reflexivity.
  - rewrite Hts. unfold Benchmark.test_prompts. reflexivity.
Qed.

(** When [load] raises, [benchmark_model] raises the same exception at
    once. *)
Lemma benchmark_model_load_raises (model_path : option string) (num_runs : Z)
  (msg : string) (s : State) :
  w_load W (or_default model_path) = Raises msg ->
  exists s' t,
    Benchmark.benchmark_model W model_path num_runs s = (Err (Exception msg), s', t)
    /\ generate_calls t = []
    /\ last_event t = Some (EvLoad (or_default model_path)).
Proof.
  intros Hload.
  unfold Benchmark.benchmark_model.
  do 4 (unfold bind at 1; unfold print at 1; unfold emit at 1; cbv beta iota).
  unfold bind at 1. unfold Benchmark.get_memory_usage at 1. cbv beta iota.
  unfold bind at 1. unfold time_time at 1. cbv beta iota.
  unfold bind at 1. unfold load at 1. rewrite Hload. cbn [of_outcome].
  cbv beta iota zeta.
  eexists _, _. repeat split.
Qed.

(** The events of [main] that open the file, and those that write to it. *)
Lemma count_open_writes (results : list Benchmark.BenchResult) :
  count is_open (flat_map (result_writes (Model:=Model) (Tokenizer:=Tokenizer)) results) = 0
  /\ count is_write (flat_map (result_writes (Model:=Model) (Tokenizer:=Tokenizer)) results)
     = 5 * List.length results.
Proof.
  unfold count. induction results as [|r results [IH1 IH2]]; [split; reflexivity|].
  cbn [flat_map result_writes app filter is_open is_write List.length] in *.
  split; [exact IH1 | lia].
Qed.

(** [benchmark_model] touches no file. *)
Lemma benchmark_model_no_file (model_path : option string) (num_runs : Z) :
  emits_only no_file (Benchmark.benchmark_model W model_path num_runs).
Proof.
  unfold Benchmark.benchmark_model, Benchmark.prompt_body, Benchmark.run_body.
  repeat lazymatch goal with
  | |- emits_only _ (bind (Benchmark.get_memory_usage _) _) =>
      apply emits_bind; [ intros s0; constructor | intros ? ]
  | _ => emits_step
  end; reflexivity.
Qed.

Lemma count_no_file (t : list (Event Model Tokenizer)) :
  Forall no_file t -> count is_open t = 0 /\ count is_write t = 0.
Proof.
  unfold count. induction 1 as [|ev t Hev _ [IH1 IH2]]; [split; reflexivity|].
  unfold no_file in Hev. apply orb_false_iff in Hev as [Ho Hw].
  cbn [filter]. rewrite Ho, Hw. split; assumption.
Qed.

Lemma last_event_snoc (t : list (Event Model Tokenizer)) (ev : Event Model Tokenizer) :
  last_event (t ++ [ev]) = Some ev.
Proof. unfold last_event. now rewrite rev_unit. Qed.

Lemma count_app (kind : Event Model Tokenizer -> bool) (t1 t2 : list (Event Model Tokenizer)) :
  count kind (t1 ++ t2) = count kind t1 + count kind t2.
Proof. unfold count. now rewrite filter_app, length_app. Qed.

(** [main] always returns; it opens its file once when [benchmark_model]
    returned, writing two lines and five more for each result, and touches
    no file when [benchmark_model] raised. *)
Lemma main_outcome (argv : Benchmark.Args) (s : State) :
  let r := Benchmark.main W argv s in
  let bm := Benchmark.benchmark_model W (Benchmark.args_model argv)
              (Benchmark.args_runs argv) s in
  result_of r = Ok tt
  /\ match result_of bm with
     | Ok results =>
         count is_open (trace_of r) = 1
         /\ count is_write (trace_of r) = 2 + 5 * List.length results
         /\ last_event (trace_of r)
            = Some (EvPrint [Str (nl ++ "Results saved to: ");
                             Str ("benchmark_results_" ++ w_strftime W ++ ".txt")%string])
     | Err e =>
         count is_open (trace_of r) = 0
         /\ count is_write (trace_of r) = 0
         /\ last_event (trace_of r) = Some (EvPrint (failure_line e))
     end.
Proof.
  intros r bm. subst r.
  pose proof (benchmark_model_catchable (Benchmark.args_model argv)
                (Benchmark.args_runs argv) s) as Hc.
  pose proof (benchmark_model_no_file (Benchmark.args_model argv)
                (Benchmark.args_runs argv) s) as Hf.
  fold bm in Hc, Hf.
  destruct bm as [[[results|e] s1] t1] eqn:E; cbn [result_of trace_of fst snd] in *.
  - rewrite (main_on_return argv s s1 results t1 E). cbv zeta.
    cbn [result_of trace_of fst snd]. split; [reflexivity|].
    destruct (count_no_file t1 Hf) as [Ho Hw].
    destruct (count_open_writes results) as [Ho2 Hw2].
    split; [|split].
    + change (count is_open (?x :: ?l)) with (count is_open l).
      rewrite count_app, Ho.
      change (count is_open (EvOpen ?f :: ?l)) with (S (count is_open l)).
      change (count is_open (EvWrite ?a :: EvWrite ?b :: ?l)) with (count is_open l).
      rewrite count_app, Ho2. reflexivity.
    + change (count is_write (?x :: ?l)) with (count is_write l).
      rewrite count_app, Hw.
      change (count is_write (EvOpen ?f :: EvWrite ?a :: EvWrite ?b :: ?l))
        with (S (S (count is_write l))).
      rewrite count_app, Hw2. cbn. lia.
    + match goal with
      | |- last_event (?x :: t1 ++ ?o :: ?a :: ?b :: ?F ++ [?P]) = _ =>
          replace (x :: t1 ++ o :: a :: b :: F ++ [P])
            with ((x :: t1 ++ o :: a :: b :: F) ++ [P])
            by (cbn [app]; rewrite <- app_assoc; reflexivity)
      end.
      apply last_event_snoc.
  - rewrite (main_on_error argv s s1 e t1 E Hc).
    cbn [result_of trace_of fst snd]. split; [reflexivity|].
    destruct (count_no_file t1 Hf) as [Ho Hw].
    split; [|split].
    + change (count is_open (?x :: ?l)) with (count is_open l).
      rewrite count_app, Ho. reflexivity.
    + change (count is_write (?x :: ?l)) with (count is_write l).
      rewrite count_app, Hw. reflexivity.
    + rewrite app_comm_cons. apply last_event_snoc.
Qed.

End Facts.

End BenchMore.

(** X10: [generate_text] lets no exception of class [Exception] escape.
    It returns the response only when [generate] returned and the
    measured time is not zero.  When the measured time is zero the
    response has already been printed, the division of line 69 raises,
    the handler prints the error and [generate_text] returns [None]; when
    [generate] raised it prints the error and returns [None]; only a
    Ctrl-C during [generate] leaves it, as [KeyboardInterrupt]. *)
Theorem X10_generate_text_result {Model Tokenizer : Type}
  (W : World Model Tokenizer) (model : Model) (tokenizer : Tokenizer)
  (prompt : string) (max_tokens : Z) (temperature : Q) (s : State) :
  let r := RunLlama.generate_text W model tokenizer prompt max_tokens temperature s in
  let elapsed := (w_time W (S (clock_reads s)) - w_time W (clock_reads s))%Q in
  match w_generate W (gen_calls s) model tokenizer prompt
          (Props.run_kwargs max_tokens temperature) with
  | Returns response =>
      In (EvPrint [Str ("Response:" ++ PyStr.nl); Str response]) (trace_of r)
      /\ if Qeq_bool elapsed 0
         then result_of r = Ok None
              /\ More.last_event (trace_of r)
                 = Some (EvPrint [Str "Error during generation: ";
                                  ExnText (ZeroDivisionError 69)])
         else result_of r = Ok (Some response)
  | Raises msg =>
      result_of r = Ok None
      /\ More.last_event (trace_of r)
         = Some (EvPrint [Str "Error during generation: "; ExnText (Exception msg)])
  | Interrupted => result_of r = Err KeyboardInterrupt
  end.
Proof. apply RunMore.generate_text_run. Qed.

(** X11: once [load] returned, the runner's [main] ends with "Generation
    completed successfully!" exactly when [generate] returned a response
    that is not empty and the measured time is not zero; it ends with
    "Generation failed!" when [generate] raised, when the measured time is
    zero, and also when the model answered with the empty string; a
    Ctrl-C during [generate] leaves [main] as [KeyboardInterrupt]. *)
Theorem X11_runner_final_message {Model Tokenizer : Type}
  (W : World Model Tokenizer) (argv : RunLlama.Args) (mt : Model * Tokenizer)
  (s : State) :
  w_load W (Props.load_path (RunLlama.args_model argv)) = Returns mt ->
  let r := RunLlama.main W argv s in
  let elapsed := (w_time W (S (clock_reads s)) - w_time W (clock_reads s))%Q in
  match w_generate W (gen_calls s) (fst mt) (snd mt) (RunLlama.args_prompt argv)
          (Props.run_kwargs (RunLlama.args_max_tokens argv)
             (RunLlama.args_temperature argv)) with
  | Returns response =>
      result_of r = Ok tt
      /\ More.last_event (trace_of r)
         = Some (EvPrint
                   [Str (if negb (PyStr.is_empty response) && negb (Qeq_bool elapsed 0)
                         then PyStr.nl ++ "Generation completed successfully!"
                         else PyStr.nl ++ "Generation failed!")%string])
  | Raises _ =>
      result_of r = Ok tt
      /\ More.last_event (trace_of r)
         = Some (EvPrint [Str (PyStr.nl ++ "Generation failed!")])
  | Interrupted => result_of r = Err KeyboardInterrupt
  end.
Proof. apply RunMore.main_end. Qed.

(** The theorem at work: the model answers with the empty string. *)
Lemma X11_runner_final_message_witness :
  w_load More.W_blank (Props.load_path (RunLlama.args_model Sample.run_argv))
  = Returns (1, 2)
  /\ More.last_event (trace_of (RunLlama.main More.W_blank Sample.run_argv initial_state))
     = Some (EvPrint [Str (PyStr.nl ++ "Generation failed!")]).
Proof.
  split; [reflexivity|].
  exact (proj2 (X11_runner_final_message More.W_blank Sample.run_argv (1, 2)
                  initial_state eq_refl)).
Defined.

(** X12: when [load] raises an exception, no script asks anything of the
    model, and each ends in its own way: the chat lets the exception leave
    [main] and reads no input; the runner prints the error and a hint, and
    exits with status 1; the benchmark prints "Benchmark failed", opens no
    file and returns normally. *)
Theorem X12_load_failure {Model Tokenizer : Type}
  (W : World Model Tokenizer) (msg : string) (s : State) :
  (forall (argv : Chat.Args) keys,
      w_load W (or_default (Chat.args_model argv)) = Raises msg ->
      let r := Chat.main W argv keys s in
      result_of r = Err (Exception msg)
      /\ More.last_event (trace_of r) = Some (EvLoad (or_default (Chat.args_model argv)))
      /\ Props.generate_calls (trace_of r) = []
      /\ Props.count More.is_input (trace_of r) = 0)
  /\ (forall argv : RunLlama.Args,
      w_load W (Props.load_path (RunLlama.args_model argv)) = Raises msg ->
      let r := RunLlama.main W argv s in
      result_of r = Err (SystemExit 1)
      /\ More.last_event (trace_of r)
         = Some (EvPrint [Str "Make sure you have sufficient memory (32GB+ recommended)"])
      /\ In (EvPrint [Str "Error loading model: "; ExnText (Exception msg)]) (trace_of r)
      /\ Props.generate_calls (trace_of r) = [])
  /\ (forall argv : Benchmark.Args,
      w_load W (or_default (Benchmark.args_model argv)) = Raises msg ->
      let r := Benchmark.main W argv s in
      result_of r = Ok tt
      /\ More.last_event (trace_of r)
         = Some (EvPrint [Str (PyStr.nl ++ " Benchmark failed: "); ExnText (Exception msg)])
      /\ Props.count More.is_open (trace_of r) = 0
      /\ Props.generate_calls (trace_of r) = []).
Proof.
  split; [|split].
  - intros argv keys H. now apply ChatMore.chat_main_load_raises.
  - intros argv H. now apply RunMore.run_main_load_raises.
  - intros argv H r. subst r.
    destruct (BenchMore.benchmark_model_load_raises W (Benchmark.args_model argv)
                (Benchmark.args_runs argv) msg s H) as (s1 & t1 & E & Hc & _).
    pose proof (BenchMore.main_outcome W argv s) as Ho. cbv zeta in Ho.
    rewrite E in Ho. cbn [result_of fst] in Ho.
    destruct Ho as (Hr & Hopen & _ & Hlast).
    split; [exact Hr|]. split; [exact Hlast|]. split; [exact Hopen|].
    rewrite (BenchMore.main_on_error W argv s s1 _ t1 E) by (now left).
    cbn [trace_of snd Props.generate_calls].
    rewrite MonadFacts.generate_calls_app, Hc. reflexivity.
Qed.

(** The theorem at work: the three scripts in the world where [load]
    raises. *)
Lemma X12_load_failure_witness :
  w_load More.W_noload (or_default (Benchmark.args_model Sample.bench_argv))
  = Raises "out of memory"
  /\ result_of (Benchmark.main More.W_noload Sample.bench_argv initial_state) = Ok tt
  /\ w_load More.W_noload (Props.load_path (RunLlama.args_model Sample.run_argv))
     = Raises "out of memory"
  /\ result_of (RunLlama.main More.W_noload Sample.run_argv initial_state)
     = Err (SystemExit 1)
  /\ w_load More.W_noload (or_default (Chat.args_model Sample.chat_argv))
     = Raises "out of memory"
  /\ result_of (Chat.main More.W_noload Sample.chat_argv [Typed "hi"] initial_state)
     = Err (Exception "out of memory").
Proof.
  destruct (X12_load_failure More.W_noload "out of memory" initial_state)
    as (Hc & Hr & Hb).
  split; [reflexivity|].
  split; [exact (proj1 (Hb Sample.bench_argv eq_refl))|].
  split; [reflexivity|].
  split; [exact (proj1 (Hr Sample.run_argv eq_refl))|].
  split; [reflexivity|].
  exact (proj1 (Hc Sample.chat_argv [Typed "hi"] eq_refl)).
Defined.

(** X13: the benchmark's [main] always returns: whatever [benchmark_model]
    raises (an exception of the library, a division by zero, a Ctrl-C),
    one of its two handlers catches it and prints one line.  It opens its
    results file exactly once when [benchmark_model] returned, writing two
    header lines and five lines for each result, and then prints where the
    results were saved; when [benchmark_model] raised it touches no file. *)
Theorem X13_benchmark_main_outcome {Model Tokenizer : Type}
  (W : World Model Tokenizer) (argv : Benchmark.Args) (s : State) :
  let r := Benchmark.main W argv s in
  let bm := Benchmark.benchmark_model W (Benchmark.args_model argv)
              (Benchmark.args_runs argv) s in
  result_of r = Ok tt
  /\ match result_of bm with
     | Ok results =>
         Props.count More.is_open (trace_of r) = 1
         /\ Props.count More.is_write (trace_of r) = 2 + 5 * List.length results
         /\ More.last_event (trace_of r)
            = Some (EvPrint [Str (PyStr.nl ++ "Results saved to: ");
                             Str ("benchmark_results_" ++ w_strftime W ++ ".txt")%string])
     | Err e =>
         Props.count More.is_open (trace_of r) = 0
         /\ Props.count More.is_write (trace_of r) = 0
         /\ More.last_event (trace_of r) = Some (EvPrint (More.failure_line e))
     end.
Proof. apply BenchMore.main_outcome. Qed.

(** X14: with [--runs] zero or negative, once [load] returned, the
    benchmark never calls [generate]: the loop over the runs is empty,
    the first average divides by zero at line 92, and [main] prints
    "Benchmark failed" with that error, opens no file and returns. *)
Theorem X14_benchmark_without_runs {Model Tokenizer : Type}
  (W : World Model Tokenizer) (argv : Benchmark.Args) (mt : Model * Tokenizer)
  (s : State) :
  (Benchmark.args_runs argv <= 0)%Z ->
  w_load W (or_default (Benchmark.args_model argv)) = Returns mt ->
  let r := Benchmark.main W argv s in
  result_of (Benchmark.benchmark_model W (Benchmark.args_model argv)
               (Benchmark.args_runs argv) s)
  = Err (ZeroDivisionError 92)
  /\ result_of r = Ok tt
  /\ More.last_event (trace_of r)
     = Some (EvPrint [Str (PyStr.nl ++ " Benchmark failed: ");
                      ExnText (ZeroDivisionError 92)])
  /\ Props.generate_calls (trace_of r) = []
  /\ Props.count More.is_open (trace_of r) = 0.
Proof.
  intros Hn Hload r. subst r.
  destruct (BenchMore.benchmark_model_nonpositive W (Benchmark.args_model argv)
              (Benchmark.args_runs argv) mt s Hn Hload) as (s1 & t1 & E & Hc).
  pose proof (BenchMore.main_outcome W argv s) as Ho. cbv zeta in Ho.
  rewrite E in Ho. cbn [result_of fst] in Ho.
  destruct Ho as (Hr & Hopen & _ & Hlast).
  split; [now rewrite E|]. split; [exact Hr|]. split; [exact Hlast|].
  split; [|exact Hopen].
  rewrite (BenchMore.main_on_error W argv s s1 _ t1 E) by (now left).
  cbn [trace_of snd Props.generate_calls].
  rewrite MonadFacts.generate_calls_app, Hc. reflexivity.
Qed.

(** The theorem at work: [--runs -3] in the sample world. *)
Lemma X14_benchmark_without_runs_witness :
  (Benchmark.args_runs More.bench_argv_neg <= 0)%Z
  /\ w_load Sample.W_ok (or_default (Benchmark.args_model More.bench_argv_neg))
     = Returns (1, 2)
  /\ result_of (Benchmark.main Sample.W_ok More.bench_argv_neg initial_state) = Ok tt
  /\ Props.generate_calls
       (trace_of (Benchmark.main Sample.W_ok More.bench_argv_neg initial_state)) = [].
Proof.
  assert (H1 : (Benchmark.args_runs More.bench_argv_neg <= 0)%Z) by (cbn; lia).
  pose proof (X14_benchmark_without_runs Sample.W_ok More.bench_argv_neg (1, 2)
                initial_state H1 eq_refl) as H.
  cbv zeta in H. destruct H as (_ & Hr & _ & Hc & _).
  split; [exact H1 | split; [reflexivity | split; [exact Hr | exact Hc]]].
Defined.

(** X15: whenever [benchmark_model] returns, in any world, its results
    name the five prompts in their order, each with its number of tokens
    under the tokenizer that [load] returned; in each result the speed is
    the average number of tokens divided by the average time, and that
    average time is not zero. *)
Theorem X15_benchmark_results {Model Tokenizer : Type}
  (W : World Model Tokenizer) (model_path : option string) (num_runs : Z) (s : State) :
  match result_of (Benchmark.benchmark_model W model_path num_runs s) with
  | Ok results =>
      map Benchmark.prompt results = Benchmark.test_prompts
      /\ (exists mt,
             w_load W (or_default model_path) = Returns mt
             /\ map Benchmark.input_tokens results
                = map (count_tokens W (snd mt)) Benchmark.test_prompts)
      /\ Forall (fun r =>
                   Benchmark.avg_tokens_per_second r
                   = (Benchmark.avg_output_tokens r / Benchmark.avg_generation_time r)%Q
                   /\ ~ (Benchmark.avg_generation_time r == 0)%Q) results
  | Err _ => True
  end.
Proof. apply BenchMore.benchmark_model_results. Qed.

(** The theorem at work: one run in the sample world does return
    results. *)
Lemma X15_benchmark_results_witness :
  exists results,
    result_of (Benchmark.benchmark_model Sample.W_ok None 1 initial_state) = Ok results
    /\ map Benchmark.prompt results = Benchmark.test_prompts
    /\ List.length results = 5.
Proof.
  pose proof (X15_benchmark_results Sample.W_ok None 1 initial_state) as H.
  destruct (result_of (Benchmark.benchmark_model Sample.W_ok None 1 initial_state))
    as [results|e] eqn:E.
  - exists results. split; [reflexivity|]. split; [exact (proj1 H)|].
    rewrite <- (length_map Benchmark.prompt), (proj1 H). reflexivity.
  - vm_compute in E. discriminate E.
Defined.

(** ** More on the three scripts *)

Module ScriptMore.

Import PyStr Props More MonadFacts.

Section Facts.

Context {Model Tokenizer : Type}.
Variable W : World Model Tokenizer.

Lemma chat_load_path (argv : Chat.Args) (keys : list Keyboard) (s : State) :
  second_call (trace_of (Chat.main W argv keys s))
  = Some (EvLoad (or_default (Chat.args_model argv))).
Proof.
  destruct (ChatFacts.main_run W argv keys s) as (before & between & Hb & _ & E).
  rewrite E. cbv zeta. unfold second_call.
  destruct (w_load W _); cbn [trace_of snd];
    change (calls (?x :: ?l)) with (x :: calls l);
    rewrite calls_app, (calls_prints before Hb); reflexivity.
Qed.

Lemma run_load_path (argv : RunLlama.Args) (s : State) :
  second_call (trace_of (RunLlama.main W argv s))
  = Some (EvLoad (load_path (RunLlama.args_model argv))).
Proof.
  unfold second_call. pose proof (RunFacts.run_main_calls W argv s) as E.
  cbv zeta in E. now rewrite E.
Qed.

Lemma bench_load_path (argv : Benchmark.Args) (s : State) :
  second_call (trace_of (Benchmark.main W argv s))
  = Some (EvLoad (or_default (Benchmark.args_model argv))).
Proof.
  unfold second_call. rewrite BenchFacts.bench_main_calls.
  destruct (BenchFacts.benchmark_model_trace W (Benchmark.args_model argv)
              (Benchmark.args_runs argv) s) as (before & rest & E & Hb & _).
  rewrite E, calls_app, (calls_prints _ Hb). reflexivity.
Qed.

(** The two ways of choosing the default model agree except on the empty
    string. *)
Lemma default_paths (model_path : option string) :
  or_default model_path = load_path model_path <-> model_path <> Some "".
Proof.
  destruct model_path as [[|c p]|]; cbn; split; intros H;
    try reflexivity; try discriminate.
  now elim H.
Qed.


End Facts.

(** *** Slices *)

Lemma len_append (a b : string) : len (a ++ b) = len a + len b.
Proof.
  induction a as [|c a IH]; [reflexivity|].
  cbn [append len]. rewrite IH. now destruct (is_continuation c).
Qed.

Lemma take_len (n : nat) (s : string) : len (take n s) = Nat.min n (len s).
Proof.
  revert n. induction s as [|c s IH]; intros n; [now destruct n|].
  cbn [take len]. destruct (is_continuation c) eqn:Hc.
  - cbn [len]. rewrite Hc. apply IH.
  - destruct n as [|n]; [reflexivity|].
    cbn [len]. rewrite Hc, IH. reflexivity.
Qed.

Lemma take_all (n : nat) (s : string) : len s <= n -> take n s = s.
Proof.
  revert n. induction s as [|c s IH]; intros n H; [reflexivity|].
  cbn [take len] in H |- *. destruct (is_continuation c).
  - now rewrite IH.
  - destruct n as [|n]; [lia|]. rewrite IH by lia. reflexivity.
Qed.

Lemma take_drop (n : nat) (s : string) : (take n s ++ drop n s)%string = s.
Proof.
  revert n. induction s as [|c s IH]; intros n; [reflexivity|].
  cbn [take drop]. destruct (is_continuation c).
  - cbn [append]. now rewrite IH.
  - destruct n as [|n]; [reflexivity|]. cbn [append]. now rewrite IH.
Qed.

End ScriptMore.

(** X16: the path that reaches [load].  In every run of [main] the second
    call is [load], with [model_path or "TheBloke/Llama-2-13B-chat-AWQ"]
    in the chat and in the benchmark, and with the default only when
    [model_path is None] in the runner.  The two agree on every command
    line except [--model ""]: there the chat and the benchmark load the
    default model while the runner hands the empty string to [load]. *)
Theorem X16_load_path {Model Tokenizer : Type} (W : World Model Tokenizer)
  (model_path : option string) (s : State) :
  (forall (argv : Chat.Args) keys,
      More.second_call (trace_of (Chat.main W argv keys s))
      = Some (EvLoad (or_default (Chat.args_model argv))))
  /\ (forall argv : Benchmark.Args,
      More.second_call (trace_of (Benchmark.main W argv s))
      = Some (EvLoad (or_default (Benchmark.args_model argv))))
  /\ (forall argv : RunLlama.Args,
      More.second_call (trace_of (RunLlama.main W argv s))
      = Some (EvLoad (Props.load_path (RunLlama.args_model argv))))
  /\ (or_default model_path = Props.load_path model_path <-> model_path <> Some "")
  /\ or_default (Some "") = "TheBloke/Llama-2-13B-chat-AWQ"
  /\ Props.load_path (Some "") = "".
Proof.
  split; [intros argv keys; apply ScriptMore.chat_load_path|].
  split; [intros argv; apply ScriptMore.bench_load_path|].
  split; [intros argv; apply ScriptMore.run_load_path|].
  split; [apply ScriptMore.default_paths|].
  split; reflexivity.
Qed.



(** X18: the previews that the benchmark prints of a prompt (50) and of
    a sample response (100), and that [show_history] prints of a message
    (100), counted in code points.  The first piece printed is a prefix
    of the text of at most [n] code points; for a text of at most [n]
    code points it is the whole text and nothing follows it; for a longer
    text it has exactly [n] code points and three dots follow. *)
Theorem X18_preview (n : nat) (s : string) :
  exists shown dots,
    Chat.ellipsis n s = [Str shown; Str dots]
    /\ Benchmark.ellipsis n s = [Str shown; Str dots]
    /\ s = (shown ++ PyStr.drop n s)%string
    /\ PyStr.len shown <= n
    /\ (PyStr.len s <= n -> shown = s /\ dots = "")
    /\ (n < PyStr.len s -> PyStr.len shown = n /\ dots = "...").
Proof.
  exists (PyStr.take n s), (if Nat.ltb n (PyStr.len s) then "..." else "").
  split; [reflexivity|]. split; [reflexivity|].
  split; [symmetry; apply ScriptMore.take_drop|].
  split; [rewrite ScriptMore.take_len; lia|].
  split; intros H.
  - split; [now apply ScriptMore.take_all|].
    assert (Hlt : Nat.ltb n (PyStr.len s) = false) by (apply Nat.ltb_ge; lia).
    now rewrite Hlt.
  - split; [rewrite ScriptMore.take_len; lia|].
    assert (Hlt : Nat.ltb n (PyStr.len s) = true) by (apply Nat.ltb_lt; lia).
    now rewrite Hlt.
Qed.

(** The theorem at work: the first three code points of a text of five,
    the second of which takes two bytes. *)
Lemma X18_preview_witness :
  3 < PyStr.len (PyStr.of_bytes [104; 195; 169; 108; 108; 111])
  /\ exists shown,
       Chat.ellipsis 3 (PyStr.of_bytes [104; 195; 169; 108; 108; 111])
       = [Str shown; Str "..."]
       /\ PyStr.len shown = 3.
Proof.
  assert (H : 3 < PyStr.len (PyStr.of_bytes [104; 195; 169; 108; 108; 111]))
    by (vm_compute; lia).
  split; [exact H|].
  destruct (X18_preview 3 (PyStr.of_bytes [104; 195; 169; 108; 108; 111]))
    as (shown & dots & E & _ & _ & _ & _ & Hlong).
  destruct (Hlong H) as [Hn Hd]. exists shown.
  split; [now rewrite E, Hd | exact Hn].
Defined.

(** X19: [clear] forgets.  After the command clear (in any letter case,
    with any white space around) the history is empty, and the rest of
    the conversation (its result, the history it leaves and everything it
    prints and asks of the model) is the same whatever had been said
    before. *)
Theorem X19_clear_forgets {Model Tokenizer : Type}
  (W : World Model Tokenizer)
  (self : Chat.LLaMAChat (Model:=Model) (Tokenizer:=Tokenizer))
  (line : string) (keys : list Keyboard) (h1 h2 : list Message) (s : State) :
  PyStr.lower (PyStr.strip line) = "clear" ->
  conversation_history
    (state_of (Chat.chat_iteration W self (Some (Typed line)) (set_history h1 s))) = []
  /\ Chat.chat_loop W self (Typed line :: keys) (set_history h1 s)
     = Chat.chat_loop W self (Typed line :: keys) (set_history h2 s).
Proof.
  intros H. split.
  - rewrite (ChatFacts.iteration_clear W self line _ H). reflexivity.
  - cbn [Chat.chat_loop]. unfold bind.
    rewrite !(ChatFacts.iteration_clear W self line _ H). reflexivity.
Qed.

(** The theorem at work: Clear after an ideographic space (U+3000). *)
Lemma X19_clear_forgets_witness :
  PyStr.lower (PyStr.strip (PyStr.of_bytes [227; 128; 128] ++ "Clear ")) = "clear"
  /\ Chat.chat_loop Sample.W_ok Sample.self
       [Typed (PyStr.of_bytes [227; 128; 128] ++ "Clear "); Typed "hi"]
       (set_history Sample.nine_messages initial_state)
     = Chat.chat_loop Sample.W_ok Sample.self
         [Typed (PyStr.of_bytes [227; 128; 128] ++ "Clear "); Typed "hi"]
         (set_history [] initial_state).
Proof.
  split; [reflexivity|].
  exact (proj2 (X19_clear_forgets Sample.W_ok Sample.self
                  (PyStr.of_bytes [227; 128; 128] ++ "Clear ")%string [Typed "hi"]
                  Sample.nine_messages [] initial_state eq_refl)).
Defined.
